(** * MsLogin-MC: the Microsoft login chain of [index.js], embedded in Rocq

    The module under verification is the class [MicrosoftAuthProvider] of
    [src/index.js]: a constructor, a pure URL builder, five network stages,
    two orchestrated flows ([completeLogin], [refreshTokens]) and two boolean
    probes ([validateMinecraftToken], [checkGameOwnership]).

    The embedding is shallow.  JavaScript values that travel through the
    code (parsed response bodies, option objects) are the inductive type
    [jsval]; effects (HTTP requests, [console.error], [Date.now], the
    [EventEmitter] channel, allocation of [Error] objects) are threaded
    through an explicit [world]; a JavaScript [throw] is the [Throw] outcome
    of a small state-and-exception monad, [try]/[catch] is [try_catch].

    Conventions of the model:
    - a string is its UTF-8 byte sequence (the encoding of the source
      file); a lone surrogate, which a JavaScript string may hold and
      UTF-8 has no place for, is the three bytes [ED], [A0..BF], [80..BF]
      of its generalised UTF-8 form ([lone_surrogate]); a high and a low
      surrogate next to each other are a pair, the four bytes of one
      character;
    - a number is an integer-valued IEEE-754 double, written as the
      integer [Z] it equals; arithmetic rounds to the nearest double, ties
      to even, and overflows to an infinity from 2^1024 on ([to_double]);
      [JNum z] stands for the double nearest to [z], which is [z] itself up
      to 2^53.  Fractions and the sign of zero are outside the model,
      and so is the decimal text of a number beyond 2^53 ([string_of_Z]
      prints every digit, which is what JavaScript prints only for safe
      integers);
    - values are those of JSON, and [undefined]: no symbols, no functions,
      no objects with a [toString] of their own;
    - named property reads are own-property reads: none of the keys the
      source reads names a built-in of [Object], [Array] or [String]. *)

From Stdlib Require Import ZArith List String Ascii Bool Lia DecimalString.
Import ListNotations.
Open Scope string_scope.
Open Scope Z_scope.

#[local] Set Warnings "-register-all".

(* ================================================================= *)
(** ** JavaScript values *)

Inductive jsval : Type :=
| JUndefined
| JNull
| JBool (b : bool)
| JNum (z : Z)
| JStr (s : string)
| JArr (items : list jsval)
| JObj (fields : list (string * jsval)).

(** Result of numeric operators: a finite double (integer-valued, see the
    conventions), an infinity or [NaN]. *)
Inductive jsnum : Type :=
| Num (z : Z)
| PosInf
| NegInf
| NaN.

(** The integer-valued double nearest to the integer [z].  Up to 2^53
    every integer is a double.  Beyond, a double has 53 significant bits:
    with [e] the number of bits that do not fit, [z] lies between two
    neighbouring multiples of [2^e] and goes to the nearer one, and to the
    one with an even quotient when it is halfway. *)
Definition round_double (z : Z) : Z :=
  let a := Z.abs z in
  if a <? 2 ^ 53 then z
  else
    let e := Z.log2 a - 52 in
    let q := a / 2 ^ e in
    let r := a mod 2 ^ e in
    let half := 2 ^ (e - 1) in
    let q' := if (half <? r) || ((r =? half) && Z.odd q) then q + 1 else q in
    Z.sgn z * (q' * 2 ^ e).

(** The double that an exact integer result is stored as: rounded, and an
    infinity once the rounded value reaches 2^1024. *)
Definition to_double (z : Z) : jsnum :=
  let r := round_double z in
  if 2 ^ 1024 <=? r then PosInf
  else if r <=? - 2 ^ 1024 then NegInf
  else Num r.

(** The integers that doubles hold exactly, together with their sums and
    products as long as these stay in the range. *)
Definition safe_integer (z : Z) : Prop := Z.abs z <= 2 ^ 53.

(** [ToBoolean]. *)
Definition truthy (v : jsval) : bool :=
  match v with
  | JUndefined | JNull => false
  | JBool b => b
  | JNum z => negb (z =? 0)
  | JStr s => negb (String.eqb s "")
  | JArr _ | JObj _ => true
  end.

(** [a || b] on values. *)
Definition js_or (a b : jsval) : jsval := if truthy a then a else b.

Definition string_of_Z (z : Z) : string := NilZero.string_of_int (Z.to_int z).

(** [ToString], as used by template literals, by ['text' + v] and by
    [URLSearchParams.append]. *)
Fixpoint to_string (v : jsval) : string :=
  match v with
  | JUndefined => "undefined"
  | JNull => "null"
  | JBool true => "true"
  | JBool false => "false"
  | JNum z => string_of_Z z
  | JStr s => s
  | JArr l =>
      (fix join (l : list jsval) : string :=
         match l with
         | [] => ""
         | x :: rest =>
             let sx := match x with
                       | JUndefined | JNull => ""
                       | _ => to_string x
                       end in
             match rest with
             | [] => sx
             | _ :: _ => sx ++ "," ++ join rest
             end
         end) l
  | JObj _ => "[object Object]"
  end.

Fixpoint assoc (key : string) (fields : list (string * jsval)) : option jsval :=
  match fields with
  | [] => None
  | (k, v) :: rest => if String.eqb k key then Some v else assoc key rest
  end.

(** [v.key] for a named key.  [None] stands for the [TypeError] that reading
    a property of [undefined] or [null] raises. *)
Definition own_prop (v : jsval) (key : string) : option jsval :=
  match v with
  | JUndefined | JNull => None
  | JObj fs => Some (match assoc key fs with Some x => x | None => JUndefined end)
  | JBool _ | JNum _ | JStr _ | JArr _ => Some JUndefined
  end.

(** [v?.key]. *)
Definition opt_prop (v : jsval) (key : string) : jsval :=
  match own_prop v key with
  | Some x => x
  | None => JUndefined
  end.

(** Number of bytes of the UTF-8 character that starts with byte [c]. *)
Definition utf8_width (c : ascii) : nat :=
  let n := nat_of_ascii c in
  if (n <? 192)%nat then 1%nat
  else if (n <? 224)%nat then 2%nat
  else if (n <? 240)%nat then 3%nat
  else 4%nat.

Definition first_char (s : string) : option string :=
  match s with
  | EmptyString => None
  | String c _ => Some (substring 0 (utf8_width c) s)
  end.

(** [v[0]].  On a string it is the first character (for a character outside
    the basic plane JavaScript yields half of a surrogate pair; either way
    it is a one-character string, and the source only reads a named
    property of it). *)
Definition first_entry (v : jsval) : option jsval :=
  match v with
  | JUndefined | JNull => None
  | JArr l => Some (match l with x :: _ => x | [] => JUndefined end)
  | JStr s => Some (match first_char s with Some c => JStr c | None => JUndefined end)
  | JObj fs => Some (match assoc "0" fs with Some x => x | None => JUndefined end)
  | JBool _ | JNum _ => Some JUndefined
  end.

(** [v === n] for a number literal [n], [v === s] for a string literal. *)
Definition strict_eq_num (v : jsval) (n : Z) : bool :=
  match v with JNum z => z =? n | _ => false end.

Definition strict_eq_str (v : jsval) (s : string) : bool :=
  match v with JStr t => String.eqb t s | _ => false end.

(** [String.prototype.includes]. *)
Fixpoint includes (needle hay : string) : bool :=
  prefix needle hay ||
  match hay with
  | EmptyString => false
  | String _ rest => includes needle rest
  end.

(* ================================================================= *)
(** ** [encodeURIComponent] *)

Definition ascii_in (c : ascii) (s : string) : bool :=
  existsb (Ascii.eqb c) (list_ascii_of_string s).

(** Characters that [encodeURIComponent] leaves alone; every other byte of
    the UTF-8 encoding becomes an escape [%XX]. *)
Definition unreserved (c : ascii) : bool :=
  let n := nat_of_ascii c in
  ((65 <=? n) && (n <=? 90) || (97 <=? n) && (n <=? 122)
   || (48 <=? n) && (n <=? 57))%nat
  || ascii_in c "-_.!~*'()".

Definition hex_digit (n : nat) : ascii :=
  match get n "0123456789ABCDEF" with
  | Some c => c
  | None => "0"%char
  end.

Definition percent (c : ascii) : string :=
  let n := nat_of_ascii c in
  String "%" (String (hex_digit (n / 16)) (String (hex_digit (n mod 16)) "")).

Fixpoint percent_encode (s : string) : string :=
  match s with
  | EmptyString => ""
  | String c rest =>
      (if unreserved c then String c "" else percent c)
        ++ percent_encode rest
  end.

(** The string holds a surrogate outside a pair.  In the byte form of the
    conventions that is a byte [ED] followed by a byte [A0..BF]: in
    well-formed text [ED] only starts a character, and its next byte is
    below [A0]. *)
Fixpoint lone_surrogate (s : string) : bool :=
  match s with
  | EmptyString => false
  | String c rest =>
      ((nat_of_ascii c =? 237)%nat
       && match rest with
          | String d _ =>
              ((160 <=? nat_of_ascii d) && (nat_of_ascii d <=? 191))%nat
          | EmptyString => false
          end)
      || lone_surrogate rest
  end.

(** [encodeURIComponent(s)].  [None] stands for the [URIError] that the
    function raises for a string with a lone surrogate. *)
Definition encodeURIComponent (s : string) : option string :=
  if lone_surrogate s then None else Some (percent_encode s).

(** Inverse reading of an escape, used to state that the encoding loses
    nothing. *)
Definition hex_value (c : ascii) : option nat :=
  let n := nat_of_ascii c in
  if ((48 <=? n) && (n <=? 57))%nat then Some (n - 48)%nat
  else if ((65 <=? n) && (n <=? 70))%nat then Some (n - 55)%nat
  else None.

Fixpoint percent_decode (s : string) : option string :=
  match s with
  | EmptyString => Some ""
  | String c rest =>
      if Ascii.eqb c "%" then
        match rest with
        | String h (String l rest') =>
            match hex_value h, hex_value l, percent_decode rest' with
            | Some a, Some b, Some r =>
                Some (String (ascii_of_nat (16 * a + b)) r)
            | _, _, _ => None
            end
        | _ => None
        end
      else
        match percent_decode rest with
        | Some r => Some (String c r)
        | None => None
        end
  end.

(* ================================================================= *)
(** ** HTTP, errors and the world *)

Inductive http_method : Type := GET | POST.

Inductive http_body : Type :=
| NoBody
| FormBody (params : list (string * string))   (* a [URLSearchParams] *)
| JsonBody (json : jsval).

Record http_request : Type := {
  method : http_method;
  url : string;
  body : http_body;
  headers : list (string * string)
}.

Record http_response : Type := {
  status : Z;
  data : jsval
}.

(** What the network does with a request: the server answers with a status
    and a parsed body, or no answer arrives at all. *)
Inductive http_reply : Type :=
| Responded (st : Z) (d : jsval)
| NoResponse (message : string).

(** An [Error] object.  [err_ref] is its identity (its address on the
    heap); [err_response] is the [response] field that Axios attaches to
    the errors it raises for answered requests. *)
Record js_error : Type := {
  err_ref : nat;
  err_name : string;
  err_message : string;
  err_response : option http_response
}.

Record world : Type := {
  requests : list http_request;            (* network calls, oldest first *)
  emitted : list (string * js_error);      (* [emit] calls, oldest first *)
  console : list (string * jsval);         (* [console.error] lines *)
  clock_reads : nat;                       (* calls of [Date.now] so far *)
  heap : list js_error;                    (* error objects built so far *)
  listeners : nat                          (* listeners of the 'error' event *)
}.

(** Everything the program does not control: the network (the reply may
    depend on how many requests came before), the clock (one reading per
    call of [Date.now]) and the runtime's string-to-number conversion. *)
Record environment : Type := {
  transport : nat -> http_request -> http_reply;
  clock : nat -> Z;
  StringToNumber : string -> jsnum
}.

Inductive outcome (A : Type) : Type :=
| Return (a : A)
| Throw (e : js_error).
Arguments Return {A} a.
Arguments Throw {A} e.

Definition M (A : Type) : Type := world -> outcome A * world.

Definition ret {A} (a : A) : M A := fun w => (Return a, w).

Definition bind {A B} (m : M A) (k : A -> M B) : M B :=
  fun w =>
    match m w with
    | (Return a, w') => k a w'
    | (Throw e, w') => (Throw e, w')
    end.

Definition throw {A} (e : js_error) : M A := fun w => (Throw e, w).

(** [try { body } catch (error) { handler }]. *)
Definition try_catch {A} (body : M A) (handler : js_error -> M A) : M A :=
  fun w =>
    match body w with
    | (Return a, w') => (Return a, w')
    | (Throw e, w') => handler e w'
    end.

Declare Scope js_scope.
Delimit Scope js_scope with js.
Notation "x <- m ;; k" := (bind m (fun x => k))
  (at level 100, m at next level, right associativity) : js_scope.
Notation "m ;; k" := (bind m (fun _ => k))
  (at level 100, right associativity) : js_scope.
Open Scope js_scope.

Definition alloc (w : world) (e : js_error) : world :=
  {| requests := requests w; emitted := emitted w; console := console w;
     clock_reads := clock_reads w; heap := heap w ++ [e];
     listeners := listeners w |}.

(** [throw new Kind(message)]: builds a fresh object and throws it. *)
Definition throw_new {A} (kind message : string)
    (response : option http_response) : M A :=
  fun w =>
    let e := {| err_ref := List.length (heap w); err_name := kind;
                err_message := message; err_response := response |} in
    (Throw e, alloc w e).

Definition throw_new_Error {A} (message : string) : M A :=
  throw_new "Error" message None.

Definition throw_TypeError {A} (message : string) : M A :=
  throw_new "TypeError" message None.

(** [v.key] as a statement of the program. *)
Definition get_prop (v : jsval) (key : string) : M jsval :=
  match own_prop v key with
  | Some x => ret x
  | None =>
      throw_TypeError ("Cannot read properties of " ++ to_string v
                       ++ " (reading '" ++ key ++ "')")
  end.

(** [v[0]] as a statement of the program. *)
Definition get_first (v : jsval) : M jsval :=
  match first_entry v with
  | Some x => ret x
  | None =>
      throw_TypeError ("Cannot read properties of " ++ to_string v
                       ++ " (reading '0')")
  end.

(** [encodeURIComponent(s)] as a statement of the program. *)
Definition encode_component (s : string) : M string :=
  match encodeURIComponent s with
  | Some t => ret t
  | None => throw_new "URIError" "URI malformed" None
  end.

Definition console_error (label : string) (v : jsval) : M unit :=
  fun w =>
    (Return tt,
     {| requests := requests w; emitted := emitted w;
        console := console w ++ [(label, v)];
        clock_reads := clock_reads w; heap := heap w;
        listeners := listeners w |}).

(** [EventEmitter.prototype.on('error', listener)]. *)
Definition on_error : M unit :=
  fun w =>
    (Return tt,
     {| requests := requests w; emitted := emitted w; console := console w;
        clock_reads := clock_reads w; heap := heap w;
        listeners := S (listeners w) |}).

(** A listener of the 'error' event: code of the caller, which is handed
    the payload.  It may do anything to the world, and it may throw. *)
Definition listener : Type := js_error -> M unit.

(** The listener that looks at the payload and returns. *)
Definition observer : listener := fun _ => ret tt.

(** The listeners are called one after the other, in the order of their
    registration; an exception of one of them leaves the loop. *)
Fixpoint call_listeners (ls : list listener) (payload : js_error) : M unit :=
  match ls with
  | [] => ret tt
  | l :: rest => l payload;; call_listeners rest payload
  end.

(** [this.emit(name, payload)] for the 'error' event, with the listeners
    [ls] registered: every listener is handed the payload; an exception
    of a listener is not caught, it leaves [emit]; with no listener
    registered Node throws the payload itself (it is an [Error]
    instance). *)
Definition emit_to (ls : list listener) (name : string) (payload : js_error)
    : M bool :=
  fun w =>
    let w' := {| requests := requests w;
                 emitted := emitted w ++ [(name, payload)];
                 console := console w; clock_reads := clock_reads w;
                 heap := heap w; listeners := listeners w |} in
    match ls with
    | [] => (Throw payload, w')
    | _ :: _ => (call_listeners ls payload;; ret true) w'
    end.

(** [this.emit(name, payload)] when the listeners are observers, of which
    the world keeps the number: [emit_to] on that many observers (lemma
    [emit_to_observers]). *)
Definition emit (name : string) (payload : js_error) : M bool :=
  fun w =>
    let w' := {| requests := requests w;
                 emitted := emitted w ++ [(name, payload)];
                 console := console w; clock_reads := clock_reads w;
                 heap := heap w; listeners := listeners w |} in
    if Nat.eqb (listeners w) 0 then (Throw payload, w') else (Return true, w').

(** [error.response?.status === n]. *)
Definition response_status_is (error : js_error) (n : Z) : bool :=
  match err_response error with
  | Some r => status r =? n
  | None => false
  end.

(** [error.response?.data]. *)
Definition response_data (error : js_error) : jsval :=
  match err_response error with
  | Some r => data r
  | None => JUndefined
  end.

(** [error.response?.data?.key]. *)
Definition response_data_field (error : js_error) (key : string) : jsval :=
  opt_prop (response_data error) key.

(** [error.message]. *)
Definition message_of (error : js_error) : jsval := JStr (err_message error).

(** [ToNumber]. *)
Definition ToNumber (s2n : string -> jsnum) (v : jsval) : jsnum :=
  match v with
  | JUndefined => NaN
  | JNull => Num 0
  | JBool b => Num (if b then 1 else 0)
  | JNum z => to_double z
  | JStr s => s2n s
  | JArr _ | JObj _ => s2n (to_string v)
  end.

(** The sign of a number that is not [NaN]: [-1], [0] or [1]. *)
Definition num_sign (a : jsnum) : Z :=
  match a with
  | Num x => Z.sgn x
  | PosInf => 1
  | NegInf => -1
  | NaN => 0
  end.

(** [a * b]: the exact product, rounded; an infinity times zero is
    [NaN], and times anything else an infinity of the product's sign. *)
Definition num_mul (a b : jsnum) : jsnum :=
  match a, b with
  | NaN, _ | _, NaN => NaN
  | Num x, Num y => to_double (x * y)
  | _, _ =>
      match num_sign a * num_sign b with
      | Z0 => NaN
      | Zpos _ => PosInf
      | Zneg _ => NegInf
      end
  end.

(** [a + b]: the exact sum, rounded; infinities of opposite signs add up
    to [NaN]. *)
Definition num_add (a b : jsnum) : jsnum :=
  match a, b with
  | NaN, _ | _, NaN => NaN
  | Num x, Num y => to_double (x + y)
  | PosInf, NegInf | NegInf, PosInf => NaN
  | PosInf, _ | _, PosInf => PosInf
  | NegInf, _ | _, NegInf => NegInf
  end.

(* ================================================================= *)
(** ** The provider *)

(** [this.ErrorCode]. *)
Record error_codes : Type := {
  UNKNOWN : string;
  USER_CANCELLED : string;
  ACCESS_DENIED : string;
  SERVER_ERROR : string;
  ACCOUNT_NOT_FOUND : string;
  NO_XBOX_ACCOUNT : string;
  NO_MINECRAFT : string
}.

(** The fields the constructor sets on [this]. *)
Record provider : Type := {
  clientId : jsval;
  redirectUri : jsval;
  ErrorCode : error_codes
}.

(** What stage 3 returns. *)
Record xsts_data : Type := {
  token : jsval;
  userHash : jsval
}.

Record microsoft_tokens : Type := {
  ms_access_token : jsval;
  ms_refresh_token : jsval;
  ms_expires_at : jsnum
}.

Record minecraft_tokens : Type := {
  mc_access_token : jsval;
  mc_expires_at : jsnum
}.

Record profile_view : Type := {
  id : jsval;
  name : jsval;
  skins : jsval;
  capes : jsval
}.

Record user_view : Type := {
  username : jsval;
  uuid : jsval;
  type : string
}.

(** What [completeLogin] resolves with. *)
Record LoginResult : Type := {
  microsoft : microsoft_tokens;
  minecraft : minecraft_tokens;
  profile : profile_view;
  user : user_view
}.

(** What [refreshTokens] resolves with. *)
Record RefreshResult : Type := {
  refreshed_microsoft : microsoft_tokens;
  refreshed_minecraft : minecraft_tokens
}.

Definition json_headers : list (string * string) :=
  [("Content-Type", "application/json"); ("Accept", "application/json")].

Definition tokenUrl : string :=
  "https://login.microsoftonline.com/consumers/oauth2/v2.0/token".
Definition xblUrl : string :=
  "https://user.auth.xboxlive.com/user/authenticate".
Definition xstsUrl : string :=
  "https://xsts.auth.xboxlive.com/xsts/authorize".
Definition mcTokenUrl : string :=
  "https://api.minecraftservices.com/authentication/login_with_xbox".
Definition profileUrl : string :=
  "https://api.minecraftservices.com/minecraft/profile".
Definition entitlementsUrl : string :=
  "https://api.minecraftservices.com/entitlements/mcstore".

Definition bearer (accessToken : jsval) : list (string * string) :=
  [("Authorization", "Bearer " ++ to_string accessToken)].

Section Provider.

Variable env : environment.

Definition record_request (w : world) (rq : http_request) : world :=
  {| requests := requests w ++ [rq]; emitted := emitted w;
     console := console w; clock_reads := clock_reads w; heap := heap w;
     listeners := listeners w |}.

(** Modelled from the spec: the HTTP capability of its section 6, which the
    repository takes from the Axios package.  The request is recorded and
    handed to the network; an answer with a 2xx status resolves to
    [{status, data}], any other answer rejects with an error that carries
    the response, and a request without answer rejects with an error that
    carries none. *)
Definition axios (rq : http_request) : M http_response :=
  fun w =>
    let w1 := record_request w rq in
    match transport env (List.length (requests w)) rq with
    | Responded st d =>
        let response := {| status := st; data := d |} in
        if (200 <=? st) && (st <? 300) then (Return response, w1)
        else throw_new "AxiosError"
               ("Request failed with status code " ++ string_of_Z st)
               (Some response) w1
    | NoResponse message => throw_new "AxiosError" message None w1
    end.

Definition axios_post (u : string) (b : http_body)
    (h : list (string * string)) : M http_response :=
  axios {| method := POST; url := u; body := b; headers := h |}.

Definition axios_get (u : string) (h : list (string * string))
    : M http_response :=
  axios {| method := GET; url := u; body := NoBody; headers := h |}.

(** [Date.now()]. *)
Definition Date_now : M Z :=
  fun w =>
    (Return (clock env (clock_reads w)),
     {| requests := requests w; emitted := emitted w; console := console w;
        clock_reads := S (clock_reads w); heap := heap w;
        listeners := listeners w |}).

(** [Date.now() + (v * 1000)]: the product is rounded to a double, then
    the sum is. *)
Definition expiry (now : Z) (expires_in : jsval) : jsnum :=
  num_add (to_double now)
          (num_mul (ToNumber (StringToNumber env) expires_in) (Num 1000)).

(** [super()]: a fresh emitter has no listener. *)
Definition super : M unit :=
  fun w =>
    (Return tt,
     {| requests := requests w; emitted := emitted w; console := console w;
        clock_reads := clock_reads w; heap := heap w; listeners := 0 |}).

Definition default_redirectUri : string :=
  "https://login.microsoftonline.com/common/oauth2/nativeclient".

Definition ErrorCode_table : error_codes :=
  {| UNKNOWN := "unknown_error";
     USER_CANCELLED := "user_cancelled";
     ACCESS_DENIED := "access_denied";
     SERVER_ERROR := "server_error";
     ACCOUNT_NOT_FOUND := "account_not_found";
     NO_XBOX_ACCOUNT := "no_xbox_account";
     NO_MINECRAFT := "no_minecraft_license" |}.

(** [new MicrosoftAuthProvider(options)]. *)
Definition new_MicrosoftAuthProvider (options : jsval) : M provider :=
  super;;
  missing <- (if negb (truthy options) then ret true
              else (c <- get_prop options "clientId";; ret (negb (truthy c))));;
  if missing : bool then throw_new_Error "必须提供clientId参数"
  else
    c <- get_prop options "clientId";;
    r <- get_prop options "redirectUri";;
    ret {| clientId := c;
           redirectUri := js_or r (JStr default_redirectUri);
           ErrorCode := ErrorCode_table |}.

Definition scopes : string := "XboxLive.signin offline_access".

(** [getAuthorizationUrl()].  The template literal converts and encodes
    its parts from left to right; an encoding that fails leaves the
    function with the [URIError]. *)
Definition getAuthorizationUrl (this : provider) : M string :=
  let client := to_string (clientId this) in
  scope <- encode_component scopes;;
  uri <- encode_component (to_string (redirectUri this));;
  ret ("https://login.microsoftonline.com/consumers/oauth2/v2.0/authorize?prompt=select_account&client_id="
         ++ client
         ++ "&response_type=code&scope=" ++ scope
         ++ "&redirect_uri=" ++ uri).

(** Stage 1. *)
Definition token_form (this : provider) (code : jsval) (isRefresh : bool)
    : list (string * string) :=
  [("client_id", to_string (clientId this));
   ("scope", "XboxLive.signin offline_access")]
  ++ (if isRefresh
      then [("grant_type", "refresh_token");
            ("refresh_token", to_string code)]
      else [("grant_type", "authorization_code");
            ("code", to_string code);
            ("redirect_uri", to_string (redirectUri this))]).

Definition getMicrosoftToken (this : provider) (code : jsval)
    (isRefresh : bool) : M jsval :=
  try_catch
    (response <- axios_post tokenUrl
                   (FormBody (token_form this code isRefresh)) [];;
     ret (data response))
    (fun error =>
       console_error "获取Microsoft令牌失败"
         (js_or (response_data error) (message_of error));;
       throw_new_Error
         ("获取Microsoft令牌失败: "
          ++ to_string (js_or (response_data_field error "error_description")
                              (message_of error)))).

(** Stage 2. *)
Definition xbl_request_body (accessToken : jsval) : jsval :=
  JObj [("Properties",
         JObj [("AuthMethod", JStr "RPS");
               ("SiteName", JStr "user.auth.xboxlive.com");
               ("RpsTicket", JStr ("d=" ++ to_string accessToken))]);
        ("RelyingParty", JStr "http://auth.xboxlive.com");
        ("TokenType", JStr "JWT")].

Definition getXboxLiveToken (accessToken : jsval) : M jsval :=
  try_catch
    (response <- axios_post xblUrl (JsonBody (xbl_request_body accessToken))
                   json_headers;;
     ret (data response))
    (fun error =>
       console_error "获取Xbox Live令牌失败"
         (js_or (response_data error) (message_of error));;
       throw_new_Error
         ("获取Xbox Live令牌失败: "
          ++ to_string (js_or (response_data_field error "message")
                              (message_of error)))).

(** Stage 3. *)
Definition xsts_request_body (xblToken : jsval) : jsval :=
  JObj [("Properties",
         JObj [("SandboxId", JStr "RETAIL");
               ("UserTokens", JArr [xblToken])]);
        ("RelyingParty", JStr "rp://api.minecraftservices.com/");
        ("TokenType", JStr "JWT")].

Definition getXSTSToken (this : provider) (xblToken : jsval) : M xsts_data :=
  try_catch
    (response <- axios_post xstsUrl (JsonBody (xsts_request_body xblToken))
                   json_headers;;
     t <- get_prop (data response) "Token";;
     claims <- get_prop (data response) "DisplayClaims";;
     xui <- get_prop claims "xui";;
     entry <- get_first xui;;
     uhs <- get_prop entry "uhs";;
     ret {| token := t; userHash := uhs |})
    (fun error =>
       console_error "获取XSTS令牌失败"
         (js_or (response_data error) (message_of error));;
       (if response_status_is error 401 then
          xerr <- get_prop (response_data error) "XErr";;
          if strict_eq_num xerr 2148916233 then
            throw_new_Error ("此账户没有Xbox账户，您需要创建一个: "
                             ++ NO_XBOX_ACCOUNT (ErrorCode this))
          else if strict_eq_num xerr 2148916238 then
            throw_new_Error "此账户来自不支持Xbox Live的国家/地区"
          else ret tt
        else ret tt);;
       throw_new_Error
         ("获取XSTS令牌失败: "
          ++ to_string (js_or (response_data_field error "message")
                              (message_of error)))).

(** Stage 4. *)
Definition mc_request_body (xstsData : xsts_data) : jsval :=
  JObj [("identityToken",
         JStr ("XBL3.0 x=" ++ to_string (userHash xstsData) ++ ";"
               ++ to_string (token xstsData)))].

Definition getMinecraftToken (xstsData : xsts_data) : M jsval :=
  try_catch
    (response <- axios_post mcTokenUrl (JsonBody (mc_request_body xstsData))
                   json_headers;;
     ret (data response))
    (fun error =>
       console_error "获取Minecraft令牌失败"
         (js_or (response_data error) (message_of error));;
       throw_new_Error
         ("获取Minecraft令牌失败: "
          ++ to_string (js_or (response_data_field error "message")
                              (message_of error)))).

(** Stage 5. *)
Definition getMinecraftProfile (this : provider) (accessToken : jsval)
    : M jsval :=
  try_catch
    (response <- axios_get profileUrl (bearer accessToken);;
     missing <- (if negb (truthy (data response)) then ret true
                 else (i <- get_prop (data response) "id";;
                       ret (negb (truthy i))));;
     if missing : bool then
       throw_new_Error ("没有找到Minecraft资料，可能没有购买游戏: "
                        ++ NO_MINECRAFT (ErrorCode this))
     else ret (data response))
    (fun error =>
       console_error "获取Minecraft资料失败"
         (js_or (response_data error) (message_of error));;
       (if response_status_is error 404 then
          throw_new_Error ("此账户没有购买Minecraft: "
                           ++ NO_MINECRAFT (ErrorCode this))
        else ret tt);;
       throw_new_Error
         ("获取Minecraft资料失败: "
          ++ to_string (js_or (response_data_field error "message")
                              (message_of error)))).

(** The [catch] clause shared by the two flows:
    [this.emit('error', error); throw error], with observers as
    listeners. *)
Definition notify_and_rethrow {A} (error : js_error) : M A :=
  emit "error" error;; throw error.

(** The same clause with the listeners [ls] registered. *)
Definition notify_and_rethrow_to {A} (ls : list listener) (error : js_error)
    : M A :=
  emit_to ls "error" error;; throw error.

(** The [try] block of [completeLogin]: the five stages, then the result
    object, whose fields are evaluated in the order of the source. *)
Definition login_steps (this : provider) (authCode : jsval)
    : M LoginResult :=
    (msTokenData <- getMicrosoftToken this authCode false;;
     ms_access <- get_prop msTokenData "access_token";;
     xblTokenData <- getXboxLiveToken ms_access;;
     xbl_token <- get_prop xblTokenData "Token";;
     xstsTokenData <- getXSTSToken this xbl_token;;
     mcTokenData <- getMinecraftToken xstsTokenData;;
     mc_access <- get_prop mcTokenData "access_token";;
     mcProfileData <- getMinecraftProfile this mc_access;;
     a1 <- get_prop msTokenData "access_token";;
     r1 <- get_prop msTokenData "refresh_token";;
     now1 <- Date_now;;
     e1 <- get_prop msTokenData "expires_in";;
     a2 <- get_prop mcTokenData "access_token";;
     now2 <- Date_now;;
     e2 <- get_prop mcTokenData "expires_in";;
     p_id <- get_prop mcProfileData "id";;
     p_name <- get_prop mcProfileData "name";;
     p_skins <- get_prop mcProfileData "skins";;
     p_capes <- get_prop mcProfileData "capes";;
     u_name <- get_prop mcProfileData "name";;
     u_id <- get_prop mcProfileData "id";;
     ret {| microsoft := {| ms_access_token := a1;
                            ms_refresh_token := r1;
                            ms_expires_at := expiry now1 e1 |};
            minecraft := {| mc_access_token := a2;
                            mc_expires_at := expiry now2 e2 |};
            profile := {| id := p_id; name := p_name;
                          skins := p_skins; capes := p_capes |};
            user := {| username := u_name; uuid := u_id;
                       type := "microsoft" |} |}).

(** [completeLogin(authCode)], with observers as listeners: the case
    [completeLogin_with] of as many observers as the world counts (lemma
    [flows_with_observers]). *)
Definition completeLogin (this : provider) (authCode : jsval)
    : M LoginResult :=
  try_catch (login_steps this authCode) notify_and_rethrow.

(** [completeLogin(authCode)] with the listeners [ls] registered. *)
Definition completeLogin_with (ls : list listener) (this : provider)
    (authCode : jsval) : M LoginResult :=
  try_catch (login_steps this authCode) (notify_and_rethrow_to ls).

(** The [try] block of [refreshTokens]. *)
Definition refresh_steps (this : provider) (refreshToken : jsval)
    : M RefreshResult :=
    (msTokenData <- getMicrosoftToken this refreshToken true;;
     ms_access <- get_prop msTokenData "access_token";;
     xblTokenData <- getXboxLiveToken ms_access;;
     xbl_token <- get_prop xblTokenData "Token";;
     xstsTokenData <- getXSTSToken this xbl_token;;
     mcTokenData <- getMinecraftToken xstsTokenData;;
     a1 <- get_prop msTokenData "access_token";;
     r1 <- get_prop msTokenData "refresh_token";;
     now1 <- Date_now;;
     e1 <- get_prop msTokenData "expires_in";;
     a2 <- get_prop mcTokenData "access_token";;
     now2 <- Date_now;;
     e2 <- get_prop mcTokenData "expires_in";;
     ret {| refreshed_microsoft := {| ms_access_token := a1;
                                      ms_refresh_token := r1;
                                      ms_expires_at := expiry now1 e1 |};
            refreshed_minecraft := {| mc_access_token := a2;
                                      mc_expires_at := expiry now2 e2 |} |}).

(** [refreshTokens(refreshToken)], with observers as listeners. *)
Definition refreshTokens (this : provider) (refreshToken : jsval)
    : M RefreshResult :=
  try_catch (refresh_steps this refreshToken) notify_and_rethrow.

(** [refreshTokens(refreshToken)] with the listeners [ls] registered. *)
Definition refreshTokens_with (ls : list listener) (this : provider)
    (refreshToken : jsval) : M RefreshResult :=
  try_catch (refresh_steps this refreshToken) (notify_and_rethrow_to ls).

(** [validateMinecraftToken(accessToken)]. *)
Definition validateMinecraftToken (accessToken : jsval) : M bool :=
  try_catch
    (response <- axios_get entitlementsUrl (bearer accessToken);;
     ret (status response =? 200))
    (fun error => ret false).

(** [array.some(callback)]: stops at the first element the callback
    accepts; an exception of the callback leaves the loop. *)
Fixpoint array_some (callback : jsval -> M bool) (l : list jsval) : M bool :=
  match l with
  | [] => ret false
  | item :: rest =>
      hit <- callback item;;
      if hit : bool then ret true else array_some callback rest
  end.

(** [items.some(callback)] on an arbitrary value: only arrays have a
    method [some]; calling what is not a function raises a [TypeError]. *)
Definition call_some (items : jsval) (callback : jsval -> M bool) : M bool :=
  match items with
  | JArr l => array_some callback l
  | _ => throw_TypeError "response.data.items.some is not a function"
  end.

(** The callback [item => item.name === 'game_minecraft']. *)
Definition is_game_minecraft (item : jsval) : M bool :=
  n <- get_prop item "name";;
  ret (strict_eq_str n "game_minecraft").

(** [checkGameOwnership(accessToken)]. The value returned is that of the
    [&&] chain, hence the first falsy operand or the result of [some]. *)
Definition checkGameOwnership (accessToken : jsval) : M jsval :=
  try_catch
    (response <- axios_get entitlementsUrl (bearer accessToken);;
     if negb (truthy (data response)) then ret (data response)
     else
       items <- get_prop (data response) "items";;
       if negb (truthy items) then ret items
       else
         found <- call_some items is_game_minecraft;;
         ret (JBool found))
    (fun error =>
       console_error "检查游戏所有权失败"
         (js_or (response_data error) (message_of error));;
       ret (JBool false)).

End Provider.

(** An error carries a code of the [ErrorCode] table when the code occurs
    in its message: the program builds its typed errors by appending the
    code to the message text. *)
Definition carries_code (code : string) (e : js_error) : bool :=
  includes code (err_message e).

(** A world in which nothing has happened yet. *)
Definition initial_world : world :=
  {| requests := []; emitted := []; console := []; clock_reads := 0;
     heap := []; listeners := 0 |}.

(* ================================================================= *)
(** ** Vocabulary of the statements *)

(** [frame R m]: every run of [m] relates the world before to the world
    after by [R], whatever the outcome. *)
Definition frame (R : world -> world -> Prop) {A} (m : M A) : Prop :=
  forall w, R w (snd (m w)).

(** Nothing was emitted between [w] and [w']. *)
Definition same_events (w w' : world) : Prop := emitted w' = emitted w.

(** Between [w] and [w'] the network log only grew, and only by requests
    to URLs that satisfy [P]. *)
Definition only_requests (P : string -> Prop) (w w' : world) : Prop :=
  exists new,
    requests w' = (requests w ++ new)%list /\ Forall (fun rq => P (url rq)) new.

(** The characters of an encoded URI component: unreserved ones and the
    escape character (the digits of an escape are unreserved). *)
Definition component_char (c : ascii) : bool :=
  unreserved c || Ascii.eqb c "%".

(** A listener that never throws, and a listener that leaves the event
    channel alone (it does not emit on the provider itself). *)
Definition returns_normally (l : listener) : Prop :=
  forall payload w, exists w', l payload w = (Return tt, w').

Definition does_not_emit (l : listener) : Prop :=
  forall payload, frame same_events (l payload).

(** How a flow that started in [w] reports the error [caught] of its
    [try] block, when it rejects with [e] in [w']: one 'error' event was
    added, with [caught] as payload; [e] is [caught] itself when no
    listener is registered or all of [ls] return normally; and otherwise
    it is [caught] or what one of [ls] threw when handed [caught]. *)
Definition reports (ls : list listener) (w : world) (caught e : js_error)
    (w' : world) : Prop :=
  emitted w' = (emitted w ++ [("error", caught)])%list
  /\ (ls = [] \/ Forall returns_normally ls -> e = caught)
  /\ (e = caught
      \/ exists l w1 w2, In l ls /\ l caught w1 = (Throw e, w2)).

(** The providers that [new MicrosoftAuthProvider(options)] can build. *)
Definition constructed (this : provider) : Prop :=
  exists options w w',
    new_MicrosoftAuthProvider options w = (Return this, w').

(** [w] with one more event on the channel. *)
Definition with_event (w : world) (name : string) (payload : js_error)
    : world :=
  {| requests := requests w; emitted := emitted w ++ [(name, payload)];
     console := console w; clock_reads := clock_reads w; heap := heap w;
     listeners := listeners w |}.

(** The requests of the stages and of the probes, as the source builds
    them. *)
Definition token_request (this : provider) (code : jsval) (isRefresh : bool)
    : http_request :=
  {| method := POST; url := tokenUrl;
     body := FormBody (token_form this code isRefresh); headers := [] |}.

Definition xbl_request (accessToken : jsval) : http_request :=
  {| method := POST; url := xblUrl;
     body := JsonBody (xbl_request_body accessToken);
     headers := json_headers |}.

Definition xsts_request (xblToken : jsval) : http_request :=
  {| method := POST; url := xstsUrl;
     body := JsonBody (xsts_request_body xblToken);
     headers := json_headers |}.

Definition mc_request (xstsData : xsts_data) : http_request :=
  {| method := POST; url := mcTokenUrl;
     body := JsonBody (mc_request_body xstsData);
     headers := json_headers |}.

Definition profile_request (accessToken : jsval) : http_request :=
  {| method := GET; url := profileUrl; body := NoBody;
     headers := bearer accessToken |}.

Definition store_request (accessToken : jsval) : http_request :=
  {| method := GET; url := entitlementsUrl; body := NoBody;
     headers := bearer accessToken |}.

(** The reply that the network gives to [rq] when asked in world [w]. *)
Definition reply_to (env : environment) (w : world) (rq : http_request)
    : http_reply :=
  transport env (List.length (requests w)) rq.

(** The status range that Axios resolves. *)
Definition success_status (st : Z) : bool := (200 <=? st) && (st <? 300).

(** [response.data.DisplayClaims.xui] of a stage-3 body: [None] when the
    read itself fails because [DisplayClaims] is absent. *)
Definition xui_claims (d : jsval) : option jsval :=
  match own_prop d "DisplayClaims" with
  | Some claims => own_prop claims "xui"
  | None => None
  end.

(** The claims array is absent or has no entry. *)
Definition no_claims (d : jsval) : Prop :=
  xui_claims d = None \/ xui_claims d = Some JUndefined
  \/ xui_claims d = Some JNull \/ xui_claims d = Some (JArr []).

(** Stages 1 and 2 of a flow that starts in [w0] returned: stage 1 gave
    the body [ms], stage 2 a body whose [Token] is [xbl_token], and [w2] is
    the world in which stage 3 is called. *)
Definition stages_1_to_2 (env : environment) (this : provider)
    (code : jsval) (isRefresh : bool) (w0 : world)
    (ms xbl_token : jsval) (w2 : world) : Prop :=
  exists w1 ms_access xbl,
    getMicrosoftToken env this code isRefresh w0 = (Return ms, w1)
    /\ own_prop ms "access_token" = Some ms_access
    /\ getXboxLiveToken env ms_access w1 = (Return xbl, w2)
    /\ own_prop xbl "Token" = Some xbl_token.

(** Stages 1 to 4 returned: [ms] and [mc] are the bodies of stage 1 and of
    stage 4, and [w4] is the world after stage 4. *)
Definition stages_1_to_4 (env : environment) (this : provider)
    (code : jsval) (isRefresh : bool) (w0 : world)
    (ms mc : jsval) (w4 : world) : Prop :=
  exists xbl_token w2 xsts w3,
    stages_1_to_2 env this code isRefresh w0 ms xbl_token w2
    /\ getXSTSToken env this xbl_token w2 = (Return xsts, w3)
    /\ getMinecraftToken env xsts w3 = (Return mc, w4).

(** [w] after [n] more readings of the clock. *)
Definition after_clock_reads (n : nat) (w : world) : world :=
  {| requests := requests w; emitted := emitted w; console := console w;
     clock_reads := (n + clock_reads w)%nat; heap := heap w;
     listeners := listeners w |}.

(** The network log, respectively the clock, was left alone between [w]
    and [w']. *)
Definition same_requests (w w' : world) : Prop := requests w' = requests w.

Definition same_clock (w w' : world) : Prop := clock_reads w' = clock_reads w.

(** No listener was registered or removed between [w] and [w']. *)
Definition same_listeners (w w' : world) : Prop := listeners w' = listeners w.

(** The endpoints of the two flows, in the order of the stages. *)
Definition login_urls : list string :=
  [tokenUrl; xblUrl; xstsUrl; mcTokenUrl; profileUrl].

Definition refresh_urls : list string :=
  [tokenUrl; xblUrl; xstsUrl; mcTokenUrl].

(** [l] is an initial segment of [full]. *)
Definition initial_segment {A} (l full : list A) : Prop :=
  exists rest, full = (l ++ rest)%list.

(** Every run of [m] sends requests to an initial segment of [urls], in
    that order, and to all of them when it returns. *)
Definition walks {A} (urls : list string) (m : M A) : Prop :=
  forall w,
    exists new,
      requests (snd (m w)) = (requests w ++ new)%list
      /\ initial_segment (List.map url new) urls
      /\ (forall a, fst (m w) = Return a -> List.map url new = urls).

(** What the search [items.some(item => item.name === 'game_minecraft')]
    comes to inside [checkGameOwnership]: the entries are looked at in
    order, up to the first one whose [name] is the text [game_minecraft];
    an entry [null] or [undefined] that comes before ends the search
    without a match, since reading its [name] raises. *)
Fixpoint lists_game (l : list jsval) : bool :=
  match l with
  | [] => false
  | item :: rest =>
      match own_prop item "name" with
      | Some n => strict_eq_str n "game_minecraft" || lists_game rest
      | None => false
      end
  end.

(** The same for an arbitrary value of [items]: only an array can list
    the game. *)
Definition owns_game (items : jsval) : bool :=
  match items with
  | JArr l => lists_game l
  | _ => false
  end.

(** A request fails when no answer arrives or the status of the answer is
    outside the range that Axios resolves. *)
Definition is_failure (reply : http_reply) : bool :=
  match reply with
  | Responded st _ => negb (success_status st)
  | NoResponse _ => true
  end.

(** [error.message] and [error.response?.data] of the error that Axios
    raises for a failed request. *)
Definition failure_message (reply : http_reply) : string :=
  match reply with
  | Responded st _ => "Request failed with status code " ++ string_of_Z st
  | NoResponse message => message
  end.

Definition failure_data (reply : http_reply) : jsval :=
  match reply with
  | Responded _ d => d
  | NoResponse _ => JUndefined
  end.

(** The error object itself, built in world [w]. *)
Definition axios_error (w : world) (reply : http_reply) : js_error :=
  {| err_ref := List.length (heap w);
     err_name := "AxiosError";
     err_message := failure_message reply;
     err_response := match reply with
                     | Responded st d => Some {| status := st; data := d |}
                     | NoResponse _ => None
                     end |}.

(** The text [error.response?.data?.key || error.message] that the stages
    append to their label. *)
Definition upstream_text (key : string) (reply : http_reply) : string :=
  to_string (js_or (opt_prop (failure_data reply) key)
                   (JStr (failure_message reply))).

(** The value [error.response?.data || error.message] that the stages
    hand to [console.error]. *)
Definition logged_value (reply : http_reply) : jsval :=
  js_or (failure_data reply) (JStr (failure_message reply)).

(** The answer has the given status. *)
Definition has_status (reply : http_reply) (n : Z) : bool :=
  match reply with
  | Responded st _ => st =? n
  | NoResponse _ => false
  end.

(** Whatever [m] throws is an error without [response] that Axios did not
    build. *)
Definition throws_plain {A} (m : M A) : Prop :=
  forall w e w',
    m w = (Throw e, w') ->
    err_response e = None /\ err_name e <> "AxiosError".

(** [t] is the timestamp [now + n * 1000] as the program computes it in
    doubles: exactly that integer when the reading of the clock, the
    product and the sum are safe integers; a finite number whenever the
    magnitudes stay below 2^1023; and, whenever finite, off the exact
    integer by at most 2^-51 of the magnitudes [|now| + |n * 1000|]. *)
Definition timestamp_of (now n : Z) (t : jsnum) : Prop :=
  (safe_integer now -> safe_integer (n * 1000) ->
   safe_integer (now + n * 1000) -> t = Num (now + n * 1000))
  /\ (Z.abs now + Z.abs (n * 1000) < 2 ^ 1023 -> exists r, t = Num r)
  /\ (forall r, t = Num r ->
      2 ^ 51 * Z.abs (r - (now + n * 1000))
      <= Z.abs now + Z.abs (n * 1000)).

(** *** Sample inputs, on which the statements are exercised *)

Definition sample_provider : provider :=
  {| clientId := JStr "3f2a9c1e";
     redirectUri := JStr default_redirectUri;
     ErrorCode := ErrorCode_table |}.

(** A redirect URI that ends in a lone surrogate: the code unit D800,
    bytes [ED A0 80]. *)
Definition unpaired_redirectUri : string :=
  "http://localhost/"
  ++ String (ascii_of_nat 237)
       (String (ascii_of_nat 160) (String (ascii_of_nat 128) "")).

(** Two listeners: one writes the message of the error to the console,
    as the example of the repository does; the other fails. *)
Definition logging_listener : listener :=
  fun error => console_error "微软登录出错:" (JStr (err_message error)).

Definition failing_listener : listener :=
  fun error => throw_new_Error "listener failed".

(** A server that answers each endpoint with a fixed reply. *)
Definition server (token xbl xsts mc prof store : http_reply)
    (k : nat) (rq : http_request) : http_reply :=
  if String.eqb (url rq) tokenUrl then token
  else if String.eqb (url rq) xblUrl then xbl
  else if String.eqb (url rq) xstsUrl then xsts
  else if String.eqb (url rq) mcTokenUrl then mc
  else if String.eqb (url rq) profileUrl then prof
  else store.

Definition token_ok : http_reply :=
  Responded 200 (JObj [("access_token", JStr "ms-access");
                       ("refresh_token", JStr "ms-refresh");
                       ("expires_in", JNum 3600)]).
Definition xbl_ok : http_reply :=
  Responded 200 (JObj [("Token", JStr "xbl-ticket")]).
Definition xsts_ok : http_reply :=
  Responded 200
    (JObj [("Token", JStr "xsts-token");
           ("DisplayClaims",
            JObj [("xui", JArr [JObj [("uhs", JStr "user-hash")]])])]).
Definition xsts_empty : http_reply :=
  Responded 200
    (JObj [("Token", JStr "xsts-token");
           ("DisplayClaims", JObj [("xui", JArr [])])]).
Definition profile_without_id : http_reply :=
  Responded 200 (JObj [("path", JStr "/minecraft/profile");
                       ("errorMessage", JStr "not provisioned")]).
Definition xsts_no_xbox_account : http_reply :=
  Responded 401
    (JObj [("Identity", JStr "0"); ("XErr", JNum 2148916233);
           ("Message", JStr "");
           ("Redirect", JStr "https://start.ui.xboxlive.com/CreateAccount")]).
Definition profile_not_found : http_reply :=
  Responded 404 (JObj [("path", JStr "/minecraft/profile");
                       ("error", JStr "NOT_FOUND")]).
Definition profile_server_error : http_reply :=
  Responded 500 (JObj [("error", JStr "Internal Server Error")]).
Definition token_invalid_grant : http_reply :=
  Responded 400
    (JObj [("error", JStr "invalid_grant");
           ("error_description", JStr "AADSTS70008: The code has expired.")]).
Definition xbl_unauthorized : http_reply := Responded 401 (JStr "").
Definition xsts_region : http_reply :=
  Responded 401
    (JObj [("Identity", JStr "0"); ("XErr", JNum 2148916238);
           ("Message", JStr "")]).
Definition xsts_child : http_reply :=
  Responded 401
    (JObj [("Identity", JStr "0"); ("XErr", JNum 2148916235);
           ("message", JStr "blocked")]).
Definition mc_forbidden : http_reply :=
  Responded 403 (JObj [("message", JStr "Invalid app registration")]).
Definition xsts_null : http_reply := Responded 401 JNull.
Definition mc_ok : http_reply :=
  Responded 200 (JObj [("access_token", JStr "mc-access");
                       ("expires_in", JNum 86400)]).
Definition profile_ok : http_reply :=
  Responded 200 (JObj [("id", JStr "069a79f444e94726a5befca90e38aaf5");
                       ("name", JStr "Notch");
                       ("skins", JArr []); ("capes", JArr [])]).
Definition store_ok : http_reply :=
  Responded 200 (JObj [("items", JArr [JObj [("name", JStr "product_minecraft")];
                                       JObj [("name", JStr "game_minecraft")]])]).

Definition environment_of (net : nat -> http_request -> http_reply)
    : environment :=
  {| transport := net;
     clock := fun k => 1700000000000 + Z.of_nat k;
     StringToNumber := fun _ => NaN |}.

(** The bodies of stage 1 and stage 4 in the sample runs, and the world in
    which the sample runs reach stage 5. *)
Definition sample_ms : jsval :=
  JObj [("access_token", JStr "ms-access");
        ("refresh_token", JStr "ms-refresh");
        ("expires_in", JNum 3600)].

Definition sample_mc : jsval :=
  JObj [("access_token", JStr "mc-access"); ("expires_in", JNum 86400)].

Definition sample_world_4 : world :=
  {| requests :=
       [token_request sample_provider (JStr "M.C507") false;
        xbl_request (JStr "ms-access");
        xsts_request (JStr "xbl-ticket");
        mc_request {| token := JStr "xsts-token";
                      userHash := JStr "user-hash" |}];
     emitted := []; console := []; clock_reads := 0; heap := [];
     listeners := 0 |}.

(** The world in which the sample runs reach stage 3. *)
Definition sample_world_2 : world :=
  {| requests :=
       [token_request sample_provider (JStr "M.C507") false;
        xbl_request (JStr "ms-access")];
     emitted := []; console := []; clock_reads := 0; heap := [];
     listeners := 0 |}.

(** The services, with the profile endpoint answering [prof]. *)
Definition services (prof : http_reply) : environment :=
  environment_of (server token_ok xbl_ok xsts_ok mc_ok prof store_ok).

(** Every endpoint answers as the services do for a licensed account. *)
Definition online : environment := services profile_ok.

(** No request is ever answered. *)
Definition offline : environment :=
  environment_of (fun _ _ => NoResponse "Network Error").

(* ================================================================= *)
(** ** Reasoning about the monad *)

#[local] Arguments String.append _ _ : simpl never.

Lemma bind_Return {A B} (m : M A) (k : A -> M B) w a w' :
  m w = (Return a, w') -> bind m k w = k a w'.
Proof. intros H. unfold bind. now rewrite H. Qed.

Lemma bind_Throw {A B} (m : M A) (k : A -> M B) w e w' :
  m w = (Throw e, w') -> bind m k w = (Throw e, w').
Proof. intros H. unfold bind. now rewrite H. Qed.

Lemma try_Return {A} (m : M A) h w a w' :
  m w = (Return a, w') -> try_catch m h w = (Return a, w').
Proof. intros H. unfold try_catch. now rewrite H. Qed.

Lemma get_prop_Some v key x w :
  own_prop v key = Some x -> get_prop v key w = (Return x, w).
Proof. intros H. unfold get_prop. now rewrite H. Qed.

(** A value that has one property has them all: only [undefined] and
    [null] refuse a property read. *)
Lemma own_prop_defined v key x key' :
  own_prop v key = Some x -> exists y, own_prop v key' = Some y.
Proof. destruct v; simpl; intros H; try discriminate; eauto. Qed.

Lemma truthy_own_prop v key :
  truthy v = true -> exists y, own_prop v key = Some y.
Proof. destruct v; simpl; intros H; try discriminate; eauto. Qed.

(** *** Frames: what a computation leaves untouched

    For a reflexive and transitive [R], [frame R] is closed under the
    control structure of the monad. *)
Section Frame.

Variable R : world -> world -> Prop.
Hypothesis R_refl : forall w, R w w.
Hypothesis R_trans : forall a b c, R a b -> R b c -> R a c.

Lemma frame_ret {A} (a : A) : frame R (ret a).
Proof. intros w. apply R_refl. Qed.

Lemma frame_throw {A} e : frame R (@throw A e).
Proof. intros w. apply R_refl. Qed.

Lemma frame_bind {A B} (m : M A) (k : A -> M B) :
  frame R m -> (forall a, frame R (k a)) -> frame R (bind m k).
Proof.
  intros Hm Hk w. unfold bind. specialize (Hm w).
  destruct (m w) as [[a|e] w1]; simpl in *.
  - eapply R_trans; [exact Hm | apply Hk].
  - exact Hm.
Qed.

Lemma frame_try_catch {A} (m : M A) h :
  frame R m -> (forall e, frame R (h e)) -> frame R (try_catch m h).
Proof.
  intros Hm Hh w. unfold try_catch. specialize (Hm w).
  destruct (m w) as [[a|e] w1]; simpl in *.
  - exact Hm.
  - eapply R_trans; [exact Hm | apply Hh].
Qed.

Lemma frame_if {A} (b : bool) (m1 m2 : M A) :
  frame R m1 -> frame R m2 -> frame R (if b then m1 else m2).
Proof. now destruct b. Qed.

(** The primitives that touch neither the network log nor the event
    channel are framed as soon as [R] tolerates their step. *)
Hypothesis R_alloc : forall w e, R w (alloc w e).

Lemma frame_throw_new {A} kind message response :
  frame R (@throw_new A kind message response).
Proof. intros w. apply R_alloc. Qed.

Lemma frame_get_prop v key : frame R (get_prop v key).
Proof.
  unfold get_prop. destruct (own_prop v key).
  - apply frame_ret.
  - apply frame_throw_new.
Qed.

Lemma frame_get_first v : frame R (get_first v).
Proof.
  unfold get_first. destruct (first_entry v).
  - apply frame_ret.
  - apply frame_throw_new.
Qed.

End Frame.

(** *** Frames of the stages

    For a relation [R] that tolerates allocation, console output and clock
    readings, and that tolerates requests to the URLs in [allowed], every
    stage whose URL is allowed is framed, and so are the bodies of the two
    flows. *)
Section StageFrames.

Variable env : environment.
Variable R : world -> world -> Prop.
Variable allowed : string -> Prop.
Hypothesis R_refl : forall w, R w w.
Hypothesis R_trans : forall a b c, R a b -> R b c -> R a c.
Hypothesis R_alloc : forall w e, R w (alloc w e).
Hypothesis R_console :
  forall label v w, R w (snd (console_error label v w)).
Hypothesis R_clock : forall w, R w (snd (Date_now env w)).
Hypothesis R_request :
  forall w rq, allowed (url rq) -> R w (record_request w rq).

Lemma frame_console_error label v : frame R (console_error label v).
Proof. intros w. apply R_console. Qed.

Lemma frame_Date_now : frame R (Date_now env).
Proof. intros w. apply R_clock. Qed.

Lemma frame_axios rq : allowed (url rq) -> frame R (axios env rq).
Proof.
  intros Hrq w. unfold axios.
  pose proof (R_request w rq Hrq) as Hstep.
  destruct (transport env _ rq) as [st d|message].
  - destruct ((200 <=? st) && (st <? 300)); simpl.
    + exact Hstep.
    + eapply R_trans; [exact Hstep | apply R_alloc].
  - simpl. eapply R_trans; [exact Hstep | apply R_alloc].
Qed.

Ltac frames :=
  repeat (first
    [ apply (frame_bind R R_trans); [|intros ?]
    | apply (frame_try_catch R R_trans); [|intros ?]
    | apply frame_if
    | apply (frame_ret R R_refl)
    | apply (frame_throw R R_refl)
    | apply (frame_throw_new R R_alloc)
    | apply (frame_get_prop R R_refl R_alloc)
    | apply (frame_get_first R R_refl R_alloc)
    | apply frame_console_error
    | apply frame_Date_now
    | apply frame_axios; simpl ]); auto.

Lemma frame_getMicrosoftToken this code isRefresh :
  allowed tokenUrl -> frame R (getMicrosoftToken env this code isRefresh).
Proof. intros H. unfold getMicrosoftToken, axios_post. frames. Qed.

Lemma frame_getXboxLiveToken accessToken :
  allowed xblUrl -> frame R (getXboxLiveToken env accessToken).
Proof. intros H. unfold getXboxLiveToken, axios_post. frames. Qed.

Lemma frame_getXSTSToken this xblToken :
  allowed xstsUrl -> frame R (getXSTSToken env this xblToken).
Proof.
  intros H. unfold getXSTSToken, axios_post. frames.
Qed.

Lemma frame_getMinecraftToken xstsData :
  allowed mcTokenUrl -> frame R (getMinecraftToken env xstsData).
Proof. intros H. unfold getMinecraftToken, axios_post. frames. Qed.

Lemma frame_getMinecraftProfile this accessToken :
  allowed profileUrl -> frame R (getMinecraftProfile env this accessToken).
Proof.
  intros H. unfold getMinecraftProfile, axios_get. frames.
Qed.

Lemma frame_refresh_steps this refreshToken :
  allowed tokenUrl -> allowed xblUrl -> allowed xstsUrl ->
  allowed mcTokenUrl ->
  frame R (refresh_steps env this refreshToken).
Proof.
  intros H1 H2 H3 H4. unfold refresh_steps.
  repeat (first
    [ apply frame_getMicrosoftToken | apply frame_getXboxLiveToken
    | apply frame_getXSTSToken | apply frame_getMinecraftToken
    | apply (frame_bind R R_trans); [|intros ?]
    | apply (frame_get_prop R R_refl R_alloc) | apply frame_Date_now | apply (frame_ret R R_refl) ]);
    auto.
Qed.

Lemma frame_login_steps this authCode :
  allowed tokenUrl -> allowed xblUrl -> allowed xstsUrl ->
  allowed mcTokenUrl -> allowed profileUrl ->
  frame R (login_steps env this authCode).
Proof.
  intros H1 H2 H3 H4 H5. unfold login_steps.
  repeat (first
    [ apply frame_getMicrosoftToken | apply frame_getXboxLiveToken
    | apply frame_getXSTSToken | apply frame_getMinecraftToken
    | apply frame_getMinecraftProfile
    | apply (frame_bind R R_trans); [|intros ?]
    | apply (frame_get_prop R R_refl R_alloc) | apply frame_Date_now | apply (frame_ret R R_refl) ]);
    auto.
Qed.

End StageFrames.

(** *** The two frames used below *)

Lemma same_events_refl w : same_events w w.
Proof. reflexivity. Qed.

Lemma same_events_trans a b c :
  same_events a b -> same_events b c -> same_events a c.
Proof. unfold same_events. congruence. Qed.

Lemma only_requests_refl P w : only_requests P w w.
Proof. exists []. split; [now rewrite app_nil_r | constructor]. Qed.

Lemma only_requests_trans P a b c :
  only_requests P a b -> only_requests P b c -> only_requests P a c.
Proof.
  intros [n1 [E1 F1]] [n2 [E2 F2]]. exists (n1 ++ n2)%list. split.
  - now rewrite E2, E1, app_assoc.
  - apply Forall_app. now split.
Qed.

Lemma only_requests_step (P : string -> Prop) w rq :
  P (url rq) -> only_requests P w (record_request w rq).
Proof. intros H. exists [rq]. split; [reflexivity | now constructor]. Qed.

(** No stage and no flow body emits anything. *)
Lemma login_steps_silent env this authCode :
  frame same_events (login_steps env this authCode).
Proof.
  apply (frame_login_steps env same_events (fun _ => True)
           same_events_refl same_events_trans);
    solve [ reflexivity | exact I ].
Qed.

Lemma refresh_steps_silent env this refreshToken :
  frame same_events (refresh_steps env this refreshToken).
Proof.
  apply (frame_refresh_steps env same_events (fun _ => True)
           same_events_refl same_events_trans);
    solve [ reflexivity | exact I ].
Qed.

(** The [catch] clause of the flows: one event, then the same error. *)
Lemma notify_and_rethrow_run {A} (error : js_error) w :
  @notify_and_rethrow A error w = (Throw error, with_event w "error" error).
Proof.
  unfold notify_and_rethrow, bind, emit, throw, with_event.
  now destruct (Nat.eqb (listeners w) 0).
Qed.

(** A flow is its [try] block when that returns; otherwise it adds one
    event, carrying the error of the block, and throws that same error. *)
Lemma flow_outcome {A} (steps : M A) w :
  match steps w with
  | (Return a, w1) => try_catch steps notify_and_rethrow w = (Return a, w1)
  | (Throw e, w1) =>
      try_catch steps notify_and_rethrow w = (Throw e, with_event w1 "error" e)
  end.
Proof.
  unfold try_catch. destruct (steps w) as [[a|e] w1].
  - reflexivity.
  - apply notify_and_rethrow_run.
Qed.

Lemma only_requests_same P w w' :
  requests w' = requests w -> only_requests P w w'.
Proof.
  intros H. exists []. split; [now rewrite app_nil_r | constructor].
Qed.

Lemma flow_only_requests {A} (P : string -> Prop) (steps : M A) :
  frame (only_requests P) steps ->
  frame (only_requests P) (try_catch steps notify_and_rethrow).
Proof.
  intros Hs. apply frame_try_catch; [apply only_requests_trans | exact Hs |].
  intros e w. rewrite notify_and_rethrow_run. now apply only_requests_same.
Qed.

Lemma refresh_steps_only_requests env this refreshToken (P : string -> Prop) :
  P tokenUrl -> P xblUrl -> P xstsUrl -> P mcTokenUrl ->
  frame (only_requests P) (refresh_steps env this refreshToken).
Proof.
  intros H1 H2 H3 H4.
  apply (frame_refresh_steps env (only_requests P) P
           (only_requests_refl P) (only_requests_trans P));
    try assumption;
    try (intros; now apply only_requests_same).
  intros w rq. apply only_requests_step.
Qed.

(** Case analysis along a run: splits on the reply of the network, on the
    status range that Axios accepts, and on the tests of the source. *)
Ltac branches :=
  repeat (simpl; try reflexivity;
    match goal with
    | |- context [transport ?e ?k ?r] =>
        destruct (transport e k r) as [?st ?d|?message] eqn:?
    | |- context [(200 <=? ?s) && (?s <? 300)] =>
        destruct ((200 <=? s) && (s <? 300)) eqn:?
    | |- context [truthy ?v] => destruct (truthy v) eqn:?
    | |- context [own_prop ?v ?k] => destruct (own_prop v k) eqn:?
    | |- context [first_entry ?v] => destruct (first_entry v) eqn:?
    | |- context [response_status_is ?e ?n] =>
        destruct (response_status_is e n) eqn:?
    | |- context [strict_eq_num ?v ?n] => destruct (strict_eq_num v n) eqn:?
    end).

(** Every run of stage 5 leaves its request in the network log. *)
Lemma getMinecraftProfile_requests env this accessToken w :
  requests (snd (getMinecraftProfile env this accessToken w))
  = (requests w
     ++ [{| method := GET; url := profileUrl; body := NoBody;
            headers := bearer accessToken |}])%list.
Proof.
  unfold getMinecraftProfile, try_catch, bind, axios_get, axios, get_prop.
  branches.
Qed.

(* ================================================================= *)
(** ** The flows: requests and events *)

(** C4. [refreshTokens] never invokes the profile fetch.  Every run of
    [getMinecraftProfile] records a GET of the profile URL in the network
    log; whatever the network does and whether the flow returns or throws,
    [refreshTokens] only adds requests to other URLs. *)
Theorem refreshTokens_never_fetches_profile env this refreshToken w :
  (forall accessToken w0,
     In {| method := GET; url := profileUrl; body := NoBody;
           headers := bearer accessToken |}
        (requests (snd (getMinecraftProfile env this accessToken w0))))
  /\ only_requests (fun u => u <> profileUrl) w
       (snd (refreshTokens env this refreshToken w)).
Proof.
  split.
  - intros accessToken w0. rewrite getMinecraftProfile_requests.
    apply in_or_app. right. now left.
  - apply flow_only_requests.
    apply refresh_steps_only_requests; discriminate.
Qed.

(** *** The error channel with listeners that may throw *)

Lemma call_listeners_observers n payload w :
  call_listeners (repeat observer n) payload w = (Return tt, w).
Proof.
  induction n as [|n IH]; [reflexivity|].
  cbn [repeat call_listeners]. unfold bind, observer, ret at 1. exact IH.
Qed.

(** With observers as listeners, only their number matters. *)
Lemma emit_to_observers name payload w :
  emit_to (repeat observer (listeners w)) name payload w
  = emit name payload w.
Proof.
  unfold emit_to, emit. destruct (listeners w) as [|n]; [reflexivity|].
  cbn [repeat Nat.eqb]. unfold bind.
  change (call_listeners (observer :: repeat observer n))
    with (call_listeners (repeat observer (S n))).
  now rewrite call_listeners_observers.
Qed.

Lemma notify_and_rethrow_to_observers {A} error w :
  @notify_and_rethrow_to A (repeat observer (listeners w)) error w
  = notify_and_rethrow error w.
Proof.
  unfold notify_and_rethrow_to, notify_and_rethrow, bind.
  now rewrite emit_to_observers.
Qed.

Lemma login_steps_same_listeners env this authCode :
  frame same_listeners (login_steps env this authCode).
Proof.
  apply (frame_login_steps env same_listeners (fun _ => True));
    solve [ reflexivity | exact I
          | unfold same_listeners; intros; congruence ].
Qed.

Lemma refresh_steps_same_listeners env this refreshToken :
  frame same_listeners (refresh_steps env this refreshToken).
Proof.
  apply (frame_refresh_steps env same_listeners (fun _ => True));
    solve [ reflexivity | exact I
          | unfold same_listeners; intros; congruence ].
Qed.

(** The flows of this development are the flows with observers: as many
    as the world counts. *)
Lemma flows_with_observers env this input w :
  completeLogin_with env (repeat observer (listeners w)) this input w
  = completeLogin env this input w
  /\ refreshTokens_with env (repeat observer (listeners w)) this input w
     = refreshTokens env this input w.
Proof.
  unfold completeLogin_with, completeLogin, refreshTokens_with, refreshTokens,
    try_catch.
  pose proof (login_steps_same_listeners env this input w) as L.
  pose proof (refresh_steps_same_listeners env this input w) as R.
  unfold same_listeners in L, R. split.
  - destruct (login_steps env this input w) as [[r|e] w1]; [reflexivity|].
    cbn [snd] in L. rewrite <- L. apply notify_and_rethrow_to_observers.
  - destruct (refresh_steps env this input w) as [[r|e] w1]; [reflexivity|].
    cbn [snd] in R. rewrite <- R. apply notify_and_rethrow_to_observers.
Qed.

(** The loop over the listeners leaves the channel alone when they do;
    what it throws, one of them threw. *)
Lemma call_listeners_run ls payload w :
  Forall does_not_emit ls ->
  emitted (snd (call_listeners ls payload w)) = emitted w
  /\ (forall e w',
        call_listeners ls payload w = (Throw e, w') ->
        exists l w1 w2, In l ls /\ l payload w1 = (Throw e, w2)).
Proof.
  intros Hquiet. revert w.
  induction Hquiet as [|l rest Hl _ IH]; intros w.
  - split; [reflexivity | discriminate].
  - cbn [call_listeners]. unfold bind.
    pose proof (Hl payload w) as Hstep. unfold same_events in Hstep.
    destruct (l payload w) as [[[]|e1] w1] eqn:Hrun; cbn [snd] in *.
    + destruct (IH w1) as [Hev Hthrow]. split; [congruence|].
      intros e w' Hrest. destruct (Hthrow e w' Hrest) as (l' & a & b & Hin & Hl').
      exists l', a, b. split; [now right | exact Hl'].
    + split; [exact Hstep|]. intros e w' [= <- <-].
      exists l, w, w1. split; [now left | exact Hrun].
Qed.

Lemma call_listeners_Return ls payload w :
  Forall returns_normally ls ->
  exists w', call_listeners ls payload w = (Return tt, w').
Proof.
  intros Hok. revert w. induction Hok as [|l rest Hl _ IH]; intros w.
  - now exists w.
  - cbn [call_listeners]. unfold bind.
    destruct (Hl payload w) as [w1 ->]. apply IH.
Qed.

(** The [catch] clause with listeners: it always throws; one event is
    added, which carries the caught error; and what is thrown is that
    error unless a listener threw something else first. *)
Lemma notify_and_rethrow_to_run {A} ls error w :
  Forall does_not_emit ls ->
  exists e w',
    @notify_and_rethrow_to A ls error w = (Throw e, w')
    /\ emitted w' = (emitted w ++ [("error", error)])%list
    /\ (e = error
        \/ exists l w1 w2, In l ls /\ l error w1 = (Throw e, w2))
    /\ (Forall returns_normally ls -> e = error).
Proof.
  intros Hquiet. unfold notify_and_rethrow_to, bind at 1, emit_to.
  destruct ls as [|l rest].
  - do 2 eexists. split; [reflexivity|]. cbn [emitted]. auto.
  - set (ls := l :: rest) in *.
    set (w0 := {| requests := requests w;
                  emitted := emitted w ++ [("error", error)];
                  console := console w; clock_reads := clock_reads w;
                  heap := heap w; listeners := listeners w |}).
    destruct (call_listeners_run ls error w0 Hquiet) as [Hev Hthrow].
    unfold bind.
    destruct (call_listeners ls error w0) as [[[]|e1] w1] eqn:Hrun;
      cbn [snd] in Hev.
    + exists error, w1. unfold ret, throw.
      split; [reflexivity|]. split; [exact Hev|]. auto.
    + exists e1, w1. split; [reflexivity|]. split; [exact Hev|].
      split; [right; exact (Hthrow e1 w1 eq_refl)|].
      intros Hok. destruct (call_listeners_Return ls error w0 Hok) as [w2 Hret].
      rewrite Hret in Hrun. discriminate.
Qed.

(** C5, as the program has it.  Let the listeners registered for the
    'error' event leave the channel alone (none of them emits on the
    provider).  Whenever [completeLogin] or [refreshTokens] rejects,
    exactly one event was emitted during the call: an 'error' event whose
    payload [caught] is the error that the [try] block of that flow
    threw.  The error [e] that the caller receives is that very payload
    (same object, same content) when no listener is registered or every
    listener returns normally; otherwise it is [caught] or the exception
    that a listener threw when handed [caught] ([reports]). *)
Theorem rejection_is_emitted_once env ls this input w e w' :
  Forall does_not_emit ls ->
  (completeLogin_with env ls this input w = (Throw e, w') ->
   exists caught w1,
     login_steps env this input w = (Throw caught, w1)
     /\ reports ls w caught e w')
  /\ (refreshTokens_with env ls this input w = (Throw e, w') ->
      exists caught w1,
        refresh_steps env this input w = (Throw caught, w1)
        /\ reports ls w caught e w').
Proof.
  intros Hquiet.
  assert (Hflow : forall A (steps : M A),
            frame same_events steps ->
            try_catch steps (notify_and_rethrow_to ls) w = (Throw e, w') ->
            exists caught w1,
              steps w = (Throw caught, w1) /\ reports ls w caught e w').
  { intros A steps S H. unfold try_catch in H. specialize (S w).
    destruct (steps w) as [[r|caught] w1]; [discriminate|].
    destruct (@notify_and_rethrow_to_run A ls caught w1 Hquiet)
      as (e1 & w2 & Hrun & Hev & Hsrc & Hok).
    rewrite Hrun in H. injection H as -> ->.
    exists caught, w1. cbn [snd] in S. unfold same_events in S.
    split; [reflexivity|]. split; [now rewrite Hev, S|].
    split; [|exact Hsrc].
    intros [->|Hall]; [apply Hok; constructor | exact (Hok Hall)]. }
  split.
  - apply Hflow, login_steps_silent.
  - apply Hflow, refresh_steps_silent.
Qed.

Lemma logging_listener_does_not_emit : does_not_emit logging_listener.
Proof. intros payload w. reflexivity. Defined.

Lemma logging_listener_returns : returns_normally logging_listener.
Proof. intros payload w. eexists. reflexivity. Defined.

Lemma failing_listener_does_not_emit : does_not_emit failing_listener.
Proof. intros payload w. reflexivity. Defined.

Lemma rejection_is_emitted_once_witness :
  exists e w',
    completeLogin_with offline [logging_listener] sample_provider
      (JStr "M.C507") initial_world
    = (Throw e, w')
    /\ emitted w' = [("error", e)].
Proof.
  assert (Hrun : exists e w',
             completeLogin_with offline [logging_listener] sample_provider
               (JStr "M.C507") initial_world = (Throw e, w')).
  { do 2 eexists. vm_compute. reflexivity. }
  destruct Hrun as (e & w' & Hrun). exists e, w'. split; [exact Hrun|].
  destruct (proj1 (rejection_is_emitted_once offline [logging_listener]
                     sample_provider (JStr "M.C507") initial_world e w'
                     (Forall_cons _ logging_listener_does_not_emit
                        (Forall_nil _)))
              Hrun)
    as (caught & w1 & _ & Hev & Hsame & _).
  rewrite Hev.
  rewrite (Hsame (or_intror
                    (Forall_cons _ logging_listener_returns
                       (Forall_nil _)))).
  reflexivity.
Defined.

(** C5 as stated does not hold for every listener.  With one listener
    registered that throws, the login without network rejects with the
    exception of the listener; the one event of the call carries the
    error of stage 1, and the error that the caller receives was never
    emitted. *)
Lemma failing_listener_hides_the_error :
  does_not_emit failing_listener
  /\ exists e w' caught,
       completeLogin_with offline [failing_listener] sample_provider
         (JStr "M.C507") initial_world
       = (Throw e, w')
       /\ emitted w' = [("error", caught)]
       /\ err_message caught = "获取Microsoft令牌失败: Network Error"
       /\ err_message e = "listener failed"
       /\ err_ref e <> err_ref caught
       /\ ~ In ("error", e) (emitted w').
Proof.
  split; [exact failing_listener_does_not_emit|].
  do 3 eexists. split; [vm_compute; reflexivity|].
  split; [reflexivity|]. split; [reflexivity|]. split; [reflexivity|].
  split; [discriminate|].
  intros [H|[]]. discriminate H.
Qed.

(** *** The constructor *)

Lemma opt_prop_truthy v key :
  truthy v = true -> own_prop v key = Some (opt_prop v key).
Proof.
  intros H. unfold opt_prop.
  destruct (truthy_own_prop v key H) as [y E]. now rewrite E.
Qed.

Lemma opt_prop_falsy v key : truthy v = false -> opt_prop v key = JUndefined.
Proof. destruct v; simpl; intros H; try discriminate; reflexivity. Qed.

(** The outcome of the constructor, in one equation. *)
Lemma new_MicrosoftAuthProvider_run options w :
  new_MicrosoftAuthProvider options w
  = let w0 := snd (super w) in
    if truthy (opt_prop options "clientId") then
      (Return {| clientId := opt_prop options "clientId";
                 redirectUri := js_or (opt_prop options "redirectUri")
                                      (JStr default_redirectUri);
                 ErrorCode := ErrorCode_table |}, w0)
    else
      throw_new_Error "必须提供clientId参数" w0.
Proof.
  unfold new_MicrosoftAuthProvider, bind at 1. simpl.
  destruct (truthy options) eqn:Ht.
  - unfold bind, get_prop.
    rewrite !(opt_prop_truthy options _ Ht). simpl.
    destruct (truthy (opt_prop options "clientId")); reflexivity.
  - simpl. now rewrite (opt_prop_falsy options "clientId" Ht).
Qed.

Lemma constructed_ErrorCode this :
  constructed this -> ErrorCode this = ErrorCode_table.
Proof.
  intros (options & w & w' & H). rewrite new_MicrosoftAuthProvider_run in H.
  simpl in H. destruct (truthy (opt_prop options "clientId")).
  - now inversion H.
  - discriminate.
Qed.

Lemma sample_provider_constructed : constructed sample_provider.
Proof.
  exists (JObj [("clientId", JStr "3f2a9c1e")]), initial_world, initial_world.
  reflexivity.
Qed.

(** C7. Construction fails exactly when [options] is absent or its
    [clientId] is missing or empty (any falsy [options?.clientId]); it then
    throws the error of the source.  With a non-empty [clientId]
    construction returns a provider that holds it.  In either case the
    network log is left as it was: nothing is requested. *)
Theorem construction_requires_clientId options w :
  requests (snd (new_MicrosoftAuthProvider options w)) = requests w
  /\ match fst (new_MicrosoftAuthProvider options w) with
     | Return this =>
         truthy (opt_prop options "clientId") = true
         /\ clientId this = opt_prop options "clientId"
     | Throw e =>
         truthy (opt_prop options "clientId") = false
         /\ err_message e = "必须提供clientId参数"
     end.
Proof.
  rewrite new_MicrosoftAuthProvider_run. simpl.
  destruct (truthy (opt_prop options "clientId")) eqn:Hc; simpl; auto.
Qed.

(** The cases that the documentation names. *)
Example construction_without_options :
  exists e w',
    new_MicrosoftAuthProvider JUndefined initial_world = (Throw e, w')
    /\ requests w' = [].
Proof. eexists. eexists. split; reflexivity. Qed.

Example construction_without_clientId :
  exists e w',
    new_MicrosoftAuthProvider (JObj [("redirectUri", JStr "http://localhost")])
      initial_world = (Throw e, w')
    /\ requests w' = [].
Proof. eexists. eexists. split; reflexivity. Qed.

Example construction_with_empty_clientId :
  exists e w',
    new_MicrosoftAuthProvider (JObj [("clientId", JStr "")]) initial_world
    = (Throw e, w')
    /\ requests w' = [].
Proof. eexists. eexists. split; reflexivity. Qed.

Example construction_with_clientId :
  new_MicrosoftAuthProvider (JObj [("clientId", JStr "3f2a9c1e")])
    initial_world
  = (Return sample_provider, initial_world).
Proof. reflexivity. Qed.

(** *** Percent-encoding *)

(** A kept character is not the escape character, and an escape reads back
    as the character it stands for. *)
Lemma unreserved_not_percent c : unreserved c = true -> Ascii.eqb c "%" = false.
Proof.
  destruct c as [[] [] [] [] [] [] [] []]; vm_compute; congruence.
Qed.

Lemma percent_reads_back c r :
  percent_decode (percent c ++ r)
  = match percent_decode r with
    | Some r' => Some (String c r')
    | None => None
    end.
Proof.
  destruct c as [[] [] [] [] [] [] [] []]; reflexivity.
Qed.

Lemma percent_encode_decodes s :
  percent_decode (percent_encode s) = Some s.
Proof.
  induction s as [|c rest IH]; [reflexivity|].
  cbn [percent_encode]. destruct (unreserved c) eqn:Hc.
  - change (String c "" ++ percent_encode rest)
      with (String c (percent_encode rest)).
    cbn [percent_decode].
    rewrite (unreserved_not_percent c Hc). now rewrite IH.
  - rewrite percent_reads_back. now rewrite IH.
Qed.

Lemma percent_component c :
  forallb component_char (list_ascii_of_string (percent c)) = true.
Proof.
  destruct c as [[] [] [] [] [] [] [] []]; reflexivity.
Qed.

Lemma list_ascii_of_string_app a b :
  list_ascii_of_string (a ++ b)
  = (list_ascii_of_string a ++ list_ascii_of_string b)%list.
Proof. induction a as [|c a IH]; simpl; [reflexivity | now rewrite IH]. Qed.

Lemma percent_encode_component s :
  forallb component_char (list_ascii_of_string (percent_encode s)) = true.
Proof.
  induction s as [|c rest IH]; [reflexivity|].
  cbn [percent_encode]. rewrite list_ascii_of_string_app, forallb_app, IH.
  rewrite andb_true_r. destruct (unreserved c) eqn:Hc.
  - simpl. unfold component_char. now rewrite Hc.
  - apply percent_component.
Qed.

(** *** Substrings *)

Lemma prefix_app a b : prefix a (a ++ b) = true.
Proof.
  induction a as [|c a IH]; simpl.
  - now destruct b.
  - destruct (ascii_dec c c); [exact IH | congruence].
Qed.

Lemma includes_prefix needle hay :
  prefix needle hay = true -> includes needle hay = true.
Proof. destruct hay; cbn [includes]; intros ->; reflexivity. Qed.

Lemma includes_app pre needle post :
  includes needle (pre ++ needle ++ post) = true.
Proof.
  induction pre as [|c pre IH].
  - change ("" ++ needle ++ post) with (needle ++ post).
    apply includes_prefix, prefix_app.
  - change (String c pre ++ needle ++ post)
      with (String c (pre ++ needle ++ post)).
    cbn [includes]. rewrite IH. apply orb_true_r.
Qed.

Lemma append_assoc (a b c : string) : (a ++ b) ++ c = a ++ b ++ c.
Proof.
  induction a as [|x a IH].
  - reflexivity.
  - change (String x ((a ++ b) ++ c) = String x (a ++ b ++ c)).
    now rewrite IH.
Qed.

Lemma append_empty_r (a : string) : a ++ "" = a.
Proof.
  induction a as [|x a IH].
  - reflexivity.
  - change (String x (a ++ "") = String x a). now rewrite IH.
Qed.

Lemma includes_suffix pre needle : includes needle (pre ++ needle) = true.
Proof.
  rewrite <- (append_empty_r needle) at 2. apply includes_app.
Qed.

(** *** The authorization URL *)

(** C8, as the program has it.  Take a provider built from [options]
    whose [clientId] is the string [cid], and let [uri] be the text of the
    configured redirect URI (the one of [options], or the default).
    Called in any world, [getAuthorizationUrl] sends no request.  When
    [uri] holds no lone surrogate it returns, leaving the world as it
    is, the fixed endpoint and query with [cid] inserted verbatim and
    [uri] inserted percent-encoded; both occur in the URL, and the encoded
    URI is what [encodeURIComponent] gives, decodes back to [uri] and
    consists of unreserved characters and escapes only.  When [uri] holds
    a lone surrogate the call fails: it throws a fresh [URIError]. *)
Theorem authorization_url_shape options w this w' cid w1 :
  new_MicrosoftAuthProvider options w = (Return this, w') ->
  opt_prop options "clientId" = JStr cid ->
  let uri := to_string (js_or (opt_prop options "redirectUri")
                              (JStr default_redirectUri)) in
  let link :=
    "https://login.microsoftonline.com/consumers/oauth2/v2.0/authorize?prompt=select_account&client_id="
    ++ cid
    ++ "&response_type=code&scope=XboxLive.signin%20offline_access&redirect_uri="
    ++ percent_encode uri in
  requests (snd (getAuthorizationUrl this w1)) = requests w1
  /\ (lone_surrogate uri = false ->
      getAuthorizationUrl this w1 = (Return link, w1)
      /\ includes cid link = true
      /\ includes (percent_encode uri) link = true
      /\ encodeURIComponent uri = Some (percent_encode uri)
      /\ percent_decode (percent_encode uri) = Some uri
      /\ forallb component_char (list_ascii_of_string (percent_encode uri))
         = true)
  /\ (lone_surrogate uri = true ->
      exists e,
        getAuthorizationUrl this w1 = (Throw e, alloc w1 e)
        /\ err_name e = "URIError"
        /\ err_ref e = List.length (heap w1)).
Proof.
  intros Hnew Hcid uri link.
  rewrite new_MicrosoftAuthProvider_run in Hnew. simpl in Hnew.
  destruct (truthy (opt_prop options "clientId")); [|discriminate].
  injection Hnew as Hthis Hw.
  assert (Hrun : getAuthorizationUrl this w1
                 = match encodeURIComponent uri with
                   | Some t =>
                       (Return
                          ("https://login.microsoftonline.com/consumers/oauth2/v2.0/authorize?prompt=select_account&client_id="
                             ++ cid
                             ++ "&response_type=code&scope=XboxLive.signin%20offline_access&redirect_uri="
                             ++ t), w1)
                   | None => throw_new "URIError" "URI malformed" None w1
                   end).
  { rewrite <- Hthis. unfold getAuthorizationUrl. cbn [clientId redirectUri].
    rewrite Hcid. fold uri. unfold bind at 1.
    change (encode_component scopes w1)
      with (@Return string "XboxLive.signin%20offline_access", w1).
    cbv beta iota. unfold bind, encode_component.
    destruct (encodeURIComponent uri); reflexivity. }
  unfold encodeURIComponent in Hrun |- *.
  destruct (lone_surrogate uri) eqn:Hlone; rewrite Hrun.
  - split; [reflexivity|]. split; [discriminate|]. intros _.
    eexists. split; [reflexivity|]. split; reflexivity.
  - split; [reflexivity|]. split; [|discriminate]. intros _.
    split; [reflexivity|]. unfold link. split; [apply includes_app|].
    split; [rewrite <- !append_assoc; apply includes_suffix|].
    split; [reflexivity|].
    split; [apply percent_encode_decodes | apply percent_encode_component].
Qed.

Lemma authorization_url_shape_witness :
  getAuthorizationUrl sample_provider initial_world
  = (Return "https://login.microsoftonline.com/consumers/oauth2/v2.0/authorize?prompt=select_account&client_id=3f2a9c1e&response_type=code&scope=XboxLive.signin%20offline_access&redirect_uri=https%3A%2F%2Flogin.microsoftonline.com%2Fcommon%2Foauth2%2Fnativeclient",
     initial_world)
  /\ exists e,
       getAuthorizationUrl
         {| clientId := JStr "3f2a9c1e";
            redirectUri := JStr unpaired_redirectUri;
            ErrorCode := ErrorCode_table |}
         initial_world
       = (Throw e, alloc initial_world e)
       /\ err_name e = "URIError".
Proof.
  split.
  - exact (proj1 (proj1 (proj2 (authorization_url_shape
                    (JObj [("clientId", JStr "3f2a9c1e")])
                    initial_world sample_provider initial_world "3f2a9c1e"
                    initial_world eq_refl eq_refl)) eq_refl)).
  - destruct (proj2 (proj2 (authorization_url_shape
                    (JObj [("clientId", JStr "3f2a9c1e");
                           ("redirectUri", JStr unpaired_redirectUri)])
                    initial_world _ initial_world "3f2a9c1e"
                    initial_world eq_refl eq_refl)) eq_refl)
      as (e & Hrun & Hname & _).
    exists e. split; [exact Hrun | exact Hname].
Defined.

(** C8 as stated does not hold for every configuration: the function has
    a failure mode.  A redirect URI with a lone surrogate (here the code
    unit D800 after a well-formed address) passes the constructor, and
    [getAuthorizationUrl] then throws the [URIError] of
    [encodeURIComponent] instead of returning a string. *)
Lemma lone_surrogate_breaks_authorization_url :
  exists this w e w',
    new_MicrosoftAuthProvider
      (JObj [("clientId", JStr "3f2a9c1e");
             ("redirectUri", JStr unpaired_redirectUri)])
      initial_world
    = (Return this, w)
    /\ getAuthorizationUrl this w = (Throw e, w')
    /\ err_name e = "URIError"
    /\ forall link w'', getAuthorizationUrl this w <> (Return link, w'').
Proof.
  do 4 eexists. split; [reflexivity|]. split; [reflexivity|].
  split; [reflexivity|]. intros link w''. discriminate.
Qed.

(** *** Stage 3 *)

Ltac branches_in H :=
  repeat (simpl in H;
    match type of H with
    | context [transport ?e ?k ?r] =>
        destruct (transport e k r) as [?st ?d|?message] eqn:?
    | context [(200 <=? ?s) && (?s <? 300)] =>
        destruct ((200 <=? s) && (s <? 300)) eqn:?
    | context [truthy ?v] => destruct (truthy v) eqn:?
    | context [own_prop ?v ?k] => destruct (own_prop v k) eqn:?
    | context [first_entry ?v] => destruct (first_entry v) eqn:?
    | context [response_status_is ?e ?n] =>
        destruct (response_status_is e n) eqn:?
    | context [strict_eq_num ?v ?n] => destruct (strict_eq_num v n) eqn:?
    end);
  try discriminate H.

(** When stage 3 returns, the network answered with a success status and
    every read of the source found its value. *)
Lemma getXSTSToken_Return env this xblToken w r w' :
  getXSTSToken env this xblToken w = (Return r, w') ->
  exists st d claims xui entry,
    reply_to env w (xsts_request xblToken) = Responded st d
    /\ success_status st = true
    /\ own_prop d "Token" = Some (token r)
    /\ own_prop d "DisplayClaims" = Some claims
    /\ own_prop claims "xui" = Some xui
    /\ first_entry xui = Some entry
    /\ own_prop entry "uhs" = Some (userHash r)
    /\ w' = record_request w (xsts_request xblToken).
Proof.
  unfold getXSTSToken, try_catch, bind, axios_post, axios, get_prop,
    get_first, reply_to, xsts_request, success_status.
  intros H. branches_in H.
  injection H as Hr Hw. subst r w'. simpl.
  repeat eexists; eauto.
Qed.

(** C9. Stage 3 and the claims array.  Whatever the network answers to
    the security-token request, if the [DisplayClaims.xui] array of the
    body is empty or absent then [getXSTSToken] throws; and when it
    returns a token/userHash pair, [xui] has an entry at index 0, the
    user hash is the [uhs] of that entry and the token is the [Token] of
    the body; in particular an [xui] array then has a first element. *)
Theorem stage3_needs_a_claim env this xblToken w st d :
  reply_to env w (xsts_request xblToken) = Responded st d ->
  (no_claims d ->
   exists e w', getXSTSToken env this xblToken w = (Throw e, w'))
  /\ (forall r w',
        getXSTSToken env this xblToken w = (Return r, w') ->
        own_prop d "Token" = Some (token r)
        /\ exists xui entry,
             xui_claims d = Some xui
             /\ first_entry xui = Some entry
             /\ own_prop entry "uhs" = Some (userHash r)
             /\ forall l, xui = JArr l -> exists rest, l = entry :: rest).
Proof.
  intros Hreply.
  assert (Hret : forall r w',
            getXSTSToken env this xblToken w = (Return r, w') ->
            own_prop d "Token" = Some (token r)
            /\ exists xui entry,
                 xui_claims d = Some xui
                 /\ first_entry xui = Some entry
                 /\ own_prop entry "uhs" = Some (userHash r)
                 /\ forall l, xui = JArr l -> exists rest, l = entry :: rest).
  { intros r w' H.
    destruct (getXSTSToken_Return _ _ _ _ _ _ H)
      as (st' & d' & claims & xui & entry & Hr & _ & Ht & Hc & Hx & Hf & Hu & _).
    rewrite Hreply in Hr. injection Hr as <- <-.
    split; [exact Ht|]. exists xui, entry.
    unfold xui_claims. rewrite Hc. repeat split; auto.
    intros l ->. destruct l as [|x rest]; simpl in Hf.
    - injection Hf as <-. discriminate Hu.
    - injection Hf as <-. now exists rest. }
  split; [|exact Hret].
  intros Hno.
  destruct (getXSTSToken env this xblToken w) as [[r|e] w'] eqn:E.
  - exfalso. destruct (Hret r w' eq_refl) as (_ & xui & entry & Hx & Hf & Hu & _).
    destruct Hno as [Hn|[Hn|[Hn|Hn]]]; rewrite Hn in Hx;
      try discriminate Hx; injection Hx as <-; simpl in Hf;
      try discriminate Hf.
    injection Hf as <-. discriminate Hu.
  - now exists e, w'.
Qed.

Lemma stage3_needs_a_claim_witness :
  (exists e w',
     getXSTSToken
       (environment_of (server token_ok xbl_ok xsts_empty mc_ok profile_ok
                          store_ok))
       sample_provider (JStr "xbl-ticket") initial_world = (Throw e, w'))
  /\ own_prop (JObj [("uhs", JStr "user-hash")]) "uhs"
     = Some (JStr "user-hash").
Proof.
  split.
  - apply (proj1 (stage3_needs_a_claim
                    (environment_of (server token_ok xbl_ok xsts_empty mc_ok
                                       profile_ok store_ok))
                    sample_provider (JStr "xbl-ticket") initial_world 200 _
                    eq_refl)).
    right. right. right. reflexivity.
  - destruct (proj2 (stage3_needs_a_claim online sample_provider
                       (JStr "xbl-ticket") initial_world 200 _ eq_refl)
                _ _ eq_refl)
      as (_ & xui & entry & Hx & Hf & Hu & _).
    injection Hx as <-. injection Hf as <-. exact Hu.
Defined.

(** An answer with an empty claims array, and what stage 3 makes of it. *)
Example stage3_empty_claims :
  exists e w',
    getXSTSToken
      (environment_of (server token_ok xbl_ok xsts_empty mc_ok profile_ok
                         store_ok))
      sample_provider (JStr "xbl-ticket") initial_world = (Throw e, w')
    /\ err_message e
       = "获取XSTS令牌失败: Cannot read properties of undefined (reading 'uhs')".
Proof. eexists. eexists. split; vm_compute; reflexivity. Qed.

Example stage3_one_claim :
  fst (getXSTSToken online sample_provider (JStr "xbl-ticket") initial_world)
  = Return {| token := JStr "xsts-token"; userHash := JStr "user-hash" |}.
Proof. reflexivity. Qed.

(** *** Stage 5 *)

(** The test [!response.data || !response.data.id] of the source holds
    exactly when [response.data?.id] is falsy. *)
Lemma missing_id_test d w :
  (if negb (truthy d) then ret true
   else (i <- get_prop d "id";; ret (negb (truthy i)))) w
  = (Return (negb (truthy (opt_prop d "id"))), w).
Proof.
  destruct (truthy d) eqn:Hd; simpl.
  - unfold bind, get_prop. now rewrite (opt_prop_truthy d "id" Hd).
  - now rewrite (opt_prop_falsy d "id" Hd).
Qed.

(** Stage 5 on a success answer without [id]: the error built in the [try]
    block is caught by the [catch] clause of the same function, which
    builds and throws a second error around its message. *)
Lemma getMinecraftProfile_missing_id env this accessToken w st d :
  reply_to env w (profile_request accessToken) = Responded st d ->
  success_status st = true ->
  truthy (opt_prop d "id") = false ->
  exists original wrapper w',
    getMinecraftProfile env this accessToken w = (Throw wrapper, w')
    /\ heap w' = (heap w ++ [original; wrapper])%list
    /\ err_message original
       = "没有找到Minecraft资料，可能没有购买游戏: " ++ NO_MINECRAFT (ErrorCode this)
    /\ err_message wrapper = "获取Minecraft资料失败: " ++ err_message original
    /\ err_ref original = List.length (heap w)
    /\ err_ref wrapper = S (err_ref original)
    /\ requests w' = (requests w ++ [profile_request accessToken])%list
    /\ emitted w' = emitted w.
Proof.
  unfold reply_to, success_status, profile_request. intros Hreply Hst Hid.
  unfold getMinecraftProfile, axios_get.
  match goal with |- context [try_catch _ ?h] => set (handler := h) end.
  unfold try_catch. unfold bind at 1. unfold bind at 1.
  unfold axios. rewrite Hreply, Hst.
  cbn [data]. rewrite missing_id_test, Hid. cbn [negb].
  unfold throw_new_Error at 1, throw_new at 1. cbv beta zeta.
  unfold handler, bind, console_error, throw_new_Error, throw_new.
  cbn -[String.append].
  do 3 eexists. split; [reflexivity|]. unfold alloc. cbn -[String.append].
  rewrite <- app_assoc, length_app, Nat.add_1_r. cbn -[String.append].
  repeat split; reflexivity.
Qed.

(** C10. A success answer without [id] at stage 5: the error built in the
    [try] block (the missing-profile message with the code
    [no_minecraft_license]) never reaches the caller.  The [catch] clause
    of [getMinecraftProfile] receives it, builds a second error whose
    message is the generic profile-failure prefix followed by the message
    of the first, and throws that one.  The caller thus sees the wrapper,
    a different object, whose message still contains the code. *)
Theorem missing_profile_error_is_rewrapped env this accessToken w st d :
  constructed this ->
  reply_to env w (profile_request accessToken) = Responded st d ->
  success_status st = true ->
  truthy (opt_prop d "id") = false ->
  exists original wrapper w',
    getMinecraftProfile env this accessToken w = (Throw wrapper, w')
    /\ heap w' = (heap w ++ [original; wrapper])%list
    /\ err_message original
       = "没有找到Minecraft资料，可能没有购买游戏: no_minecraft_license"
    /\ err_message wrapper = "获取Minecraft资料失败: " ++ err_message original
    /\ carries_code "no_minecraft_license" wrapper = true
    /\ err_ref wrapper <> err_ref original
    /\ wrapper <> original.
Proof.
  intros Hthis Hreply Hst Hid.
  destruct (getMinecraftProfile_missing_id env this accessToken w st d
              Hreply Hst Hid)
    as (original & wrapper & w' & Hrun & Hheap & Ho & Hw & Hro & Hrw & _).
  rewrite (constructed_ErrorCode this Hthis) in Ho. cbn [NO_MINECRAFT ErrorCode_table] in Ho.
  exists original, wrapper, w'. repeat split; auto.
  - unfold carries_code. rewrite Hw, Ho.
    apply (includes_app
             "获取Minecraft资料失败: 没有找到Minecraft资料，可能没有购买游戏: "
             "no_minecraft_license" "").
  - rewrite Hrw. apply Nat.neq_succ_diag_l.
  - intros E. rewrite E in Hrw. revert Hrw. apply Nat.neq_succ_diag_r.
Qed.

Lemma missing_profile_error_is_rewrapped_witness :
  exists original wrapper w',
    getMinecraftProfile
      (environment_of (server token_ok xbl_ok xsts_ok mc_ok profile_without_id
                         store_ok))
      sample_provider (JStr "mc-access") initial_world = (Throw wrapper, w')
    /\ heap w' = [original; wrapper]
    /\ err_message original
       = "没有找到Minecraft资料，可能没有购买游戏: no_minecraft_license"
    /\ err_message wrapper = "获取Minecraft资料失败: " ++ err_message original
    /\ carries_code "no_minecraft_license" wrapper = true
    /\ err_ref wrapper <> err_ref original
    /\ wrapper <> original.
Proof.
  exact (missing_profile_error_is_rewrapped
           (environment_of (server token_ok xbl_ok xsts_ok mc_ok
                              profile_without_id store_ok))
           sample_provider (JStr "mc-access") initial_world 200 _
           sample_provider_constructed eq_refl eq_refl eq_refl).
Defined.

(** *** What a returning stage tells

    Stages 1, 2, 4 and 5 return the body of a success answer, and leave the
    world changed by their request only. *)
Lemma getMicrosoftToken_Return env this code isRefresh w ms w' :
  getMicrosoftToken env this code isRefresh w = (Return ms, w') ->
  exists st,
    reply_to env w (token_request this code isRefresh) = Responded st ms
    /\ success_status st = true
    /\ w' = record_request w (token_request this code isRefresh).
Proof.
  unfold getMicrosoftToken, try_catch, bind, axios_post, axios, reply_to,
    token_request, success_status.
  intros H. branches_in H. injection H as <- <-. eauto.
Qed.

Lemma getXboxLiveToken_Return env accessToken w xbl w' :
  getXboxLiveToken env accessToken w = (Return xbl, w') ->
  exists st,
    reply_to env w (xbl_request accessToken) = Responded st xbl
    /\ success_status st = true
    /\ w' = record_request w (xbl_request accessToken).
Proof.
  unfold getXboxLiveToken, try_catch, bind, axios_post, axios, reply_to,
    xbl_request, success_status.
  intros H. branches_in H. injection H as <- <-. eauto.
Qed.

Lemma getMinecraftToken_Return env xstsData w mc w' :
  getMinecraftToken env xstsData w = (Return mc, w') ->
  exists st,
    reply_to env w (mc_request xstsData) = Responded st mc
    /\ success_status st = true
    /\ w' = record_request w (mc_request xstsData).
Proof.
  unfold getMinecraftToken, try_catch, bind, axios_post, axios, reply_to,
    mc_request, success_status.
  intros H. branches_in H. injection H as <- <-. eauto.
Qed.

Lemma getMinecraftProfile_Return env this accessToken w prof w' :
  getMinecraftProfile env this accessToken w = (Return prof, w') ->
  exists st,
    reply_to env w (profile_request accessToken) = Responded st prof
    /\ success_status st = true
    /\ truthy prof = true
    /\ truthy (opt_prop prof "id") = true
    /\ w' = record_request w (profile_request accessToken).
Proof.
  unfold getMinecraftProfile, try_catch, bind, axios_get, axios, reply_to,
    profile_request, success_status, get_prop.
  intros H. branches_in H. injection H as <- <-.
  exists st. repeat split; auto.
  unfold opt_prop.
  match goal with E : own_prop _ "id" = Some _ |- _ => now rewrite E end.
Qed.

(** Stage 5 on an answer with status 404. *)
Lemma getMinecraftProfile_404 env this accessToken w d :
  reply_to env w (profile_request accessToken) = Responded 404 d ->
  exists e w',
    getMinecraftProfile env this accessToken w = (Throw e, w')
    /\ err_message e
       = "此账户没有购买Minecraft: " ++ NO_MINECRAFT (ErrorCode this)
    /\ requests w' = (requests w ++ [profile_request accessToken])%list.
Proof.
  unfold reply_to, profile_request. intros Hreply.
  unfold getMinecraftProfile, axios_get, try_catch, bind, axios.
  rewrite Hreply. cbn -[String.append].
  do 2 eexists. split; [reflexivity|]. split; reflexivity.
Qed.

(** Stage 5 on an answer with another status outside 2xx: the generic
    error, whatever the body. *)
Lemma getMinecraftProfile_other_status env this accessToken w st d :
  reply_to env w (profile_request accessToken) = Responded st d ->
  success_status st = false ->
  st <> 404 ->
  exists e w',
    getMinecraftProfile env this accessToken w = (Throw e, w')
    /\ err_message e
       = "获取Minecraft资料失败: " ++ upstream_text "message" (Responded st d).
Proof.
  unfold reply_to, profile_request, success_status. intros Hreply Hst H404.
  unfold getMinecraftProfile, axios_get, try_catch, bind at 1, axios.
  rewrite Hreply, Hst. unfold throw_new.
  unfold bind, console_error, response_status_is.
  cbn [err_response status].
  destruct (Z.eqb_spec st 404) as [E|_]; [contradiction|].
  do 2 eexists. split; reflexivity.
Qed.

(** Stage 3 on an answer with status 401 and the code of a missing Xbox
    account. *)
Lemma getXSTSToken_no_xbox_account env this xblToken w d :
  reply_to env w (xsts_request xblToken) = Responded 401 d ->
  own_prop d "XErr" = Some (JNum 2148916233) ->
  exists e w',
    getXSTSToken env this xblToken w = (Throw e, w')
    /\ err_message e
       = "此账户没有Xbox账户，您需要创建一个: " ++ NO_XBOX_ACCOUNT (ErrorCode this)
    /\ requests w' = (requests w ++ [xsts_request xblToken])%list.
Proof.
  unfold reply_to, xsts_request. intros Hreply Hx.
  unfold getXSTSToken, axios_post, try_catch, bind, axios, get_prop.
  rewrite Hreply. cbn -[String.append]. rewrite Hx. cbn -[String.append].
  do 2 eexists. split; [reflexivity|]. split; reflexivity.
Qed.

(** *** Doubles *)

Lemma round_double_safe z : safe_integer z -> round_double z = z.
Proof.
  unfold safe_integer, round_double. intros H.
  destruct (Z.ltb_spec (Z.abs z) (2 ^ 53)) as [|Hge]; [reflexivity|].
  assert (Ha : Z.abs z = 2 ^ 53) by lia.
  rewrite Ha.
  destruct (Z.abs_spec z) as [[_ E]|[_ E]]; rewrite E in Ha.
  - subst z. reflexivity.
  - assert (Hz : z = - 2 ^ 53) by lia. subst z. reflexivity.
Qed.

(** Rounding moves an integer by at most 2^-53 of its magnitude. *)
Lemma round_double_error z : 2 ^ 53 * Z.abs (round_double z - z) <= Z.abs z.
Proof.
  unfold round_double.
  destruct (Z.ltb_spec (Z.abs z) (2 ^ 53)) as [Hlt|Hge].
  - rewrite Z.sub_diag. simpl Z.abs. lia.
  - set (a := Z.abs z) in *.
    assert (Hpos : 0 < a) by lia.
    pose proof (Z.log2_spec a Hpos) as [Hlo Hhi].
    assert (H53 : 53 <= Z.log2 a) by (apply Z.log2_le_pow2; lia).
    set (e := Z.log2 a - 52).
    assert (He : 1 <= e) by (unfold e; lia).
    assert (Hlog : Z.log2 a = 52 + e) by (unfold e; lia).
    rewrite Hlog in Hlo. rewrite Hlog in Hhi.
    replace (Z.succ (52 + e)) with (53 + e) in Hhi by lia.
    rewrite Z.pow_add_r in Hlo by lia.
    rewrite Z.pow_add_r in Hhi by lia.
    assert (Hp : 0 < 2 ^ e) by (apply Z.pow_pos_nonneg; lia).
    assert (Hhalf : 2 ^ e = 2 * 2 ^ (e - 1)).
    { replace e with (1 + (e - 1)) at 1 by lia.
      rewrite Z.pow_add_r by lia. reflexivity. }
    pose proof (Z.div_mod a (2 ^ e) ltac:(lia)) as Hdm.
    pose proof (Z.mod_pos_bound a (2 ^ e) Hp) as Hr.
    set (q := a / 2 ^ e) in *. set (r := a mod 2 ^ e) in *.
    set (h := 2 ^ (e - 1)) in *.
    assert (Hz : z = Z.sgn z * a) by (unfold a; destruct z; simpl; lia).
    assert (Hs : Z.sgn z = 1 \/ Z.sgn z = -1).
    { destruct z; simpl in *; lia. }
    change (2 ^ 53) with 9007199254740992 in *.
    change (2 ^ 52) with 4503599627370496 in *.
    destruct ((h <? r) || ((r =? h) && Z.odd q)) eqn:Hup.
    + assert (h <= r).
      { apply orb_true_iff in Hup. destruct Hup as [Hup|Hup].
        - apply Z.ltb_lt in Hup. lia.
        - apply andb_true_iff in Hup. destruct Hup as [Hup _].
          apply Z.eqb_eq in Hup. lia. }
      destruct Hs as [Hs|Hs]; rewrite Hs in *; nia.
    + assert (r <= h).
      { apply orb_false_iff in Hup. destruct Hup as [Hup _].
        apply Z.ltb_ge in Hup. lia. }
      destruct Hs as [Hs|Hs]; rewrite Hs in *; nia.
Qed.

Lemma to_double_in_range z :
  Z.abs (round_double z) < 2 ^ 1024 -> to_double z = Num (round_double z).
Proof.
  intros H. unfold to_double.
  destruct (Z.leb_spec (2 ^ 1024) (round_double z)); [lia|].
  destruct (Z.leb_spec (round_double z) (- 2 ^ 1024)); [lia|]. reflexivity.
Qed.

Lemma to_double_safe z : safe_integer z -> to_double z = Num z.
Proof.
  intros H. pose proof (round_double_safe z H) as Hr.
  rewrite <- Hr at 2. apply to_double_in_range. rewrite Hr.
  unfold safe_integer in H.
  assert (H1 : 2 ^ 53 < 2 ^ 1024) by (apply Z.pow_lt_mono_r; lia).
  lia.
Qed.

Lemma to_double_Num z r : to_double z = Num r -> r = round_double z.
Proof.
  unfold to_double.
  destruct (2 ^ 1024 <=? round_double z); [discriminate|].
  destruct (round_double z <=? - 2 ^ 1024); [discriminate|].
  now intros [= <-].
Qed.

Lemma num_add_Num a b r :
  num_add a b = Num r ->
  exists x y, a = Num x /\ b = Num y /\ to_double (x + y) = Num r.
Proof. destruct a, b; simpl; try discriminate. eauto. Qed.

Lemma num_mul_Num a b r :
  num_mul a b = Num r ->
  exists x y, a = Num x /\ b = Num y /\ to_double (x * y) = Num r.
Proof.
  destruct a as [x| | |], b as [y| | |]; simpl; try discriminate; eauto.
  - destruct (Z.sgn x); discriminate.
  - destruct (Z.sgn x); discriminate.
  - destruct (Z.sgn y); discriminate.
  - destruct (Z.sgn y); discriminate.
Qed.

(** The powers of two of the statements, as numerals. *)
Ltac numerals :=
  let c53 := eval vm_compute in (2 ^ 53) in
  let c51 := eval vm_compute in (2 ^ 51) in
  let c1023 := eval vm_compute in (2 ^ 1023) in
  let c1024 := eval vm_compute in (2 ^ 1024) in
  change (2 ^ 53) with c53 in *; change (2 ^ 51) with c51 in *;
  change (2 ^ 1023) with c1023 in *; change (2 ^ 1024) with c1024 in *.

Lemma expiry_exact env now n :
  safe_integer now -> safe_integer (n * 1000) ->
  safe_integer (now + n * 1000) ->
  expiry env now (JNum n) = Num (now + n * 1000).
Proof.
  intros Hnow Hm Hsum. unfold expiry. cbn [ToNumber].
  assert (Hn : safe_integer n) by (unfold safe_integer in *; lia).
  rewrite (to_double_safe now Hnow), (to_double_safe n Hn).
  cbn [num_mul]. rewrite (to_double_safe _ Hm).
  cbn [num_add]. apply to_double_safe. exact Hsum.
Qed.

Lemma expiry_finite env now n :
  Z.abs now + Z.abs (n * 1000) < 2 ^ 1023 ->
  exists r, expiry env now (JNum n) = Num r.
Proof.
  intros H. unfold expiry. cbn [ToNumber].
  pose proof (round_double_error now) as Ea.
  pose proof (round_double_error n) as En.
  pose proof (round_double_error (round_double n * 1000)) as Ep.
  pose proof (round_double_error
                (round_double now + round_double (round_double n * 1000)))
    as Er.
  rewrite (to_double_in_range now) by (numerals; lia).
  rewrite (to_double_in_range n) by (numerals; lia).
  cbn [num_mul].
  rewrite (to_double_in_range (round_double n * 1000)) by (numerals; lia).
  cbn [num_add].
  rewrite to_double_in_range by (numerals; lia).
  eexists. reflexivity.
Qed.

Lemma expiry_tolerance env now n r :
  expiry env now (JNum n) = Num r ->
  2 ^ 51 * Z.abs (r - (now + n * 1000)) <= Z.abs now + Z.abs (n * 1000).
Proof.
  unfold expiry. cbn [ToNumber]. intros H.
  apply num_add_Num in H. destruct H as (a & p & Ha & Hp & Hr).
  apply num_mul_Num in Hp. destruct Hp as (n1 & k & Hn & [= <-] & Hp).
  apply to_double_Num in Ha, Hn, Hp, Hr. subst a n1 p r.
  pose proof (round_double_error now) as Ea.
  pose proof (round_double_error n) as En.
  pose proof (round_double_error (round_double n * 1000)) as Ep.
  pose proof (round_double_error
                (round_double now + round_double (round_double n * 1000)))
    as Er.
  numerals. lia.
Qed.

Lemma expiry_timestamp env now n :
  timestamp_of now n (expiry env now (JNum n)).
Proof.
  split; [apply expiry_exact|]. split; [apply expiry_finite|].
  apply expiry_tolerance.
Qed.

(** Beyond 2^53 sums are rounded to even, and from 2^1024 on a product
    is an infinity. *)
Example expiry_rounds env :
  expiry env 1700000000001 (JNum 9007199254741) = Num 9008899254741000.
Proof. vm_compute. reflexivity. Qed.

Example expiry_overflows env :
  expiry env 1700000000000 (JNum (2 ^ 1020)) = PosInf.
Proof. vm_compute. reflexivity. Qed.

(** *** The full login, stage by stage *)

Lemma own_prop_opt v key x key' :
  own_prop v key = Some x -> own_prop v key' = Some (opt_prop v key').
Proof.
  intros H. unfold opt_prop.
  destruct (own_prop_defined v key x key' H) as [y E]. now rewrite E.
Qed.

(** One step along a run whose next statement is known to return or to
    throw. *)
Ltac forward H := first
  [ rewrite (bind_Return _ _ _ _ _ H)
  | rewrite (bind_Return _ _ _ _ _ (get_prop_Some _ _ _ _ H))
  | rewrite (bind_Throw _ _ _ _ _ H) ];
  cbv beta.

Lemma login_steps_stage3_Throw env this code w0 ms xbl_token w2 e w3 :
  stages_1_to_2 env this code false w0 ms xbl_token w2 ->
  getXSTSToken env this xbl_token w2 = (Throw e, w3) ->
  login_steps env this code w0 = (Throw e, w3).
Proof.
  intros (w1 & a & xbl & H1 & Ha & H2 & Ht) H3. unfold login_steps.
  forward H1. forward Ha. forward H2. forward Ht. forward H3. reflexivity.
Qed.

Lemma login_steps_stage5_Throw env this code w0 ms mc w4 mc_access e w5 :
  stages_1_to_4 env this code false w0 ms mc w4 ->
  own_prop mc "access_token" = Some mc_access ->
  getMinecraftProfile env this mc_access w4 = (Throw e, w5) ->
  login_steps env this code w0 = (Throw e, w5).
Proof.
  intros (t & w2 & xsts & w3 & (w1 & a & xbl & H1 & Ha & H2 & Ht) & H3 & H4)
    Hm H5.
  unfold login_steps.
  forward H1. forward Ha. forward H2. forward Ht. forward H3. forward H4.
  forward Hm. forward H5. reflexivity.
Qed.

Lemma login_steps_Return env this code w0 ms mc w4 mc_access prof w5 :
  stages_1_to_4 env this code false w0 ms mc w4 ->
  own_prop mc "access_token" = Some mc_access ->
  getMinecraftProfile env this mc_access w4 = (Return prof, w5) ->
  login_steps env this code w0
  = (Return
       {| microsoft :=
            {| ms_access_token := opt_prop ms "access_token";
               ms_refresh_token := opt_prop ms "refresh_token";
               ms_expires_at :=
                 expiry env (clock env (clock_reads w5))
                   (opt_prop ms "expires_in") |};
          minecraft :=
            {| mc_access_token := opt_prop mc "access_token";
               mc_expires_at :=
                 expiry env (clock env (S (clock_reads w5)))
                   (opt_prop mc "expires_in") |};
          profile :=
            {| id := opt_prop prof "id"; name := opt_prop prof "name";
               skins := opt_prop prof "skins";
               capes := opt_prop prof "capes" |};
          user :=
            {| username := opt_prop prof "name"; uuid := opt_prop prof "id";
               type := "microsoft" |} |},
     after_clock_reads 2 w5).
Proof.
  intros (t & w2 & xsts & w3 & (w1 & a & xbl & H1 & Ha & H2 & Ht) & H3 & H4)
    Hm H5.
  destruct (getMinecraftProfile_Return _ _ _ _ _ _ H5)
    as (st & _ & _ & Hp & _ & _).
  pose proof (fun k => own_prop_opt ms "access_token" a k Ha) as Hms.
  pose proof (fun k => own_prop_opt mc "access_token" mc_access k Hm) as Hmc.
  pose proof (fun k => opt_prop_truthy prof k Hp) as Hprof.
  unfold login_steps.
  forward H1. forward Ha. forward H2. forward Ht. forward H3. forward H4.
  forward Hm. forward H5.
  forward (Hms "access_token"). forward (Hms "refresh_token").
  unfold bind at 1. cbn [Date_now].
  forward (Hms "expires_in"). forward (Hmc "access_token").
  unfold bind at 1. cbn [Date_now clock_reads].
  forward (Hmc "expires_in").
  forward (Hprof "id"). forward (Hprof "name"). forward (Hprof "skins").
  forward (Hprof "capes"). forward (Hprof "name"). forward (Hprof "id").
  reflexivity.
Qed.

Lemma stages_1_to_2_requests env this code isRefresh w0 ms xbl_token w2 :
  stages_1_to_2 env this code isRefresh w0 ms xbl_token w2 ->
  exists ms_access,
    requests w2
    = (requests w0 ++ [token_request this code isRefresh;
                       xbl_request ms_access])%list.
Proof.
  intros (w1 & a & xbl & H1 & Ha & H2 & Ht).
  destruct (getMicrosoftToken_Return _ _ _ _ _ _ _ H1) as (st1 & _ & _ & ->).
  destruct (getXboxLiveToken_Return _ _ _ _ _ H2) as (st2 & _ & _ & ->).
  exists a. simpl. now rewrite <- app_assoc.
Qed.

(** The stages do not read the clock. *)
Lemma stages_1_to_4_clock env this code isRefresh w0 ms mc w4 :
  stages_1_to_4 env this code isRefresh w0 ms mc w4 ->
  clock_reads w4 = clock_reads w0.
Proof.
  intros (t & w2 & xsts & w3 & (w1 & a & xbl & H1 & Ha & H2 & Ht) & H3 & H4).
  destruct (getMicrosoftToken_Return _ _ _ _ _ _ _ H1) as (? & _ & _ & ->).
  destruct (getXboxLiveToken_Return _ _ _ _ _ H2) as (? & _ & _ & ->).
  destruct (getXSTSToken_Return _ _ _ _ _ _ H3)
    as (? & ? & ? & ? & ? & _ & _ & _ & _ & _ & _ & _ & ->).
  destruct (getMinecraftToken_Return _ _ _ _ _ H4) as (? & _ & _ & ->).
  reflexivity.
Qed.

(** C1. A full login in which all five stage calls return.  The flow
    returns; [profile.id] and [profile.name] of the result are the [id]
    and [name] of the body of the stage-5 answer; and each of the two
    expiry timestamps is the reading of the clock taken when that field is
    computed (the first and the second reading of the call, both taken
    after stage 5) plus [expires_in * 1000] of the stage-1, respectively
    stage-4, body, computed in doubles.  For a numeric [expires_in] that
    is the exact integer as long as the reading, the product and the sum
    are safe integers (up to 2^53 in magnitude), a finite number as long
    as the magnitudes stay below 2^1023, and, whenever finite, off the
    exact integer by at most 2^-51 of the magnitudes of the reading and
    of the product ([timestamp_of]). *)
Theorem completeLogin_success env this authCode w0 ms mc w4 mc_access prof w5 :
  stages_1_to_4 env this authCode false w0 ms mc w4 ->
  own_prop mc "access_token" = Some mc_access ->
  getMinecraftProfile env this mc_access w4 = (Return prof, w5) ->
  exists result st,
    completeLogin env this authCode w0
    = (Return result, after_clock_reads 2 w5)
    /\ reply_to env w4 (profile_request mc_access) = Responded st prof
    /\ id (profile result) = opt_prop prof "id"
    /\ name (profile result) = opt_prop prof "name"
    /\ ms_expires_at (microsoft result)
       = expiry env (clock env (clock_reads w0)) (opt_prop ms "expires_in")
    /\ mc_expires_at (minecraft result)
       = expiry env (clock env (S (clock_reads w0)))
           (opt_prop mc "expires_in")
    /\ (forall n, opt_prop ms "expires_in" = JNum n ->
        timestamp_of (clock env (clock_reads w0)) n
          (ms_expires_at (microsoft result)))
    /\ (forall n, opt_prop mc "expires_in" = JNum n ->
        timestamp_of (clock env (S (clock_reads w0))) n
          (mc_expires_at (minecraft result))).
Proof.
  intros H14 Hm H5.
  pose proof (login_steps_Return _ _ _ _ _ _ _ _ _ _ H14 Hm H5) as Hrun.
  destruct (getMinecraftProfile_Return _ _ _ _ _ _ H5)
    as (st & Hreply & _ & _ & _ & Hw5).
  assert (Hclock : clock_reads w5 = clock_reads w0).
  { rewrite Hw5. cbn [record_request clock_reads].
    exact (stages_1_to_4_clock _ _ _ _ _ _ _ _ H14). }
  rewrite Hclock in Hrun.
  eexists. exists st. split.
  - unfold completeLogin. apply try_Return. exact Hrun.
  - cbn [profile microsoft minecraft id name ms_expires_at mc_expires_at].
    do 5 (split; [auto|]).
    split; intros n ->; apply expiry_timestamp.
Qed.

Lemma sample_stages_1_to_4 prof :
  stages_1_to_4 (services prof) sample_provider (JStr "M.C507") false
    initial_world sample_ms sample_mc sample_world_4.
Proof.
  unfold stages_1_to_4, stages_1_to_2.
  do 4 eexists. split; [do 3 eexists; repeat split; reflexivity|].
  split; reflexivity.
Defined.

Lemma completeLogin_success_witness :
  exists result w,
    completeLogin online sample_provider (JStr "M.C507") initial_world
    = (Return result, w)
    /\ id (profile result) = JStr "069a79f444e94726a5befca90e38aaf5"
    /\ name (profile result) = JStr "Notch"
    /\ ms_expires_at (microsoft result) = Num (1700000000000 + 3600 * 1000)
    /\ mc_expires_at (minecraft result) = Num (1700000000001 + 86400 * 1000).
Proof.
  destruct (completeLogin_success online sample_provider (JStr "M.C507")
              initial_world sample_ms sample_mc sample_world_4
              (JStr "mc-access") _ _
              (sample_stages_1_to_4 profile_ok) eq_refl eq_refl)
    as (result & st & Hrun & _ & Hid & Hname & _ & _ & Hms & Hmc).
  exists result. eexists. split; [exact Hrun|].
  split; [exact Hid|]. split; [exact Hname|].
  split.
  - apply (proj1 (Hms 3600 eq_refl)); unfold safe_integer; simpl; lia.
  - apply (proj1 (Hmc 86400 eq_refl)); unfold safe_integer; simpl; lia.
Defined.

(** C2. Stage 3 answered with status 401 and a body whose [XErr] is the
    number 2148916233: [completeLogin] rejects with the no-Xbox-account
    error, whose message carries the code [no_xbox_account]; the last
    request of the run is the one of stage 3, and between the start of
    the flow and its end no request went to the service-token endpoint
    (stage 4) or to the profile endpoint (stage 5). *)
Theorem no_xbox_account_stops_login env this authCode w0 ms xbl_token w2 d :
  constructed this ->
  stages_1_to_2 env this authCode false w0 ms xbl_token w2 ->
  reply_to env w2 (xsts_request xbl_token) = Responded 401 d ->
  own_prop d "XErr" = Some (JNum 2148916233) ->
  exists e w',
    completeLogin env this authCode w0 = (Throw e, w')
    /\ err_message e = "此账户没有Xbox账户，您需要创建一个: no_xbox_account"
    /\ carries_code "no_xbox_account" e = true
    /\ requests w' = (requests w2 ++ [xsts_request xbl_token])%list
    /\ only_requests (fun u => u <> mcTokenUrl /\ u <> profileUrl) w0 w'.
Proof.
  intros Hthis H12 Hreply Hx.
  destruct (getXSTSToken_no_xbox_account env this xbl_token w2 d Hreply Hx)
    as (e & w3 & H3 & Hmsg & Hreq).
  rewrite (constructed_ErrorCode this Hthis) in Hmsg.
  cbn [NO_XBOX_ACCOUNT ErrorCode_table] in Hmsg.
  pose proof (login_steps_stage3_Throw _ _ _ _ _ _ _ _ _ H12 H3) as Hsteps.
  pose proof (flow_outcome (login_steps env this authCode) w0) as F.
  rewrite Hsteps in F.
  exists e, (with_event w3 "error" e). split; [exact F|].
  split; [exact Hmsg|]. split; [|split].
  - unfold carries_code. rewrite Hmsg.
    apply (includes_app "此账户没有Xbox账户，您需要创建一个: "
             "no_xbox_account" "").
  - exact Hreq.
  - destruct (stages_1_to_2_requests _ _ _ _ _ _ _ _ H12) as (a & H2).
    unfold only_requests. cbn [with_event requests].
    rewrite Hreq, H2, <- app_assoc.
    eexists. split; [reflexivity|].
    repeat constructor; discriminate.
Qed.

Lemma no_xbox_account_stops_login_witness :
  exists e w',
    completeLogin
      (environment_of (server token_ok xbl_ok xsts_no_xbox_account mc_ok
                         profile_ok store_ok))
      sample_provider (JStr "M.C507") initial_world = (Throw e, w')
    /\ err_message e = "此账户没有Xbox账户，您需要创建一个: no_xbox_account"
    /\ List.map url (requests w') = [tokenUrl; xblUrl; xstsUrl].
Proof.
  assert (H12 : exists w2,
            stages_1_to_2
              (environment_of (server token_ok xbl_ok xsts_no_xbox_account
                                 mc_ok profile_ok store_ok))
              sample_provider (JStr "M.C507") false initial_world
              (JObj [("access_token", JStr "ms-access");
                     ("refresh_token", JStr "ms-refresh");
                     ("expires_in", JNum 3600)])
              (JStr "xbl-ticket") w2
            /\ List.map url (requests w2) = [tokenUrl; xblUrl]).
  { eexists. split.
    - do 3 eexists. repeat split; reflexivity.
    - reflexivity. }
  destruct H12 as (w2 & H12 & Hurls).
  destruct (no_xbox_account_stops_login _ sample_provider (JStr "M.C507")
              initial_world _ _ w2 _ sample_provider_constructed H12
              eq_refl eq_refl)
    as (e & w' & Hrun & Hmsg & _ & Hreq & _).
  exists e, w'. split; [exact Hrun|]. split; [exact Hmsg|].
  rewrite Hreq, map_app, Hurls. reflexivity.
Defined.

(** C3, as the program has it.  When stage 5 is answered with a success
    status and a body without [id], or with status 404 (whatever the
    body), [completeLogin] rejects with an error that carries the code
    [no_minecraft_license].  When it is answered with any other status
    outside 2xx, [completeLogin] rejects with the generic profile-fetch
    failure, whether the body has an [id] or not: the message is the
    generic label followed by the [message] of the body when that is
    truthy, and by the text of the transport's error otherwise. *)
Theorem missing_license_rejects_login env this authCode w0 ms mc w4
    mc_access st d :
  constructed this ->
  stages_1_to_4 env this authCode false w0 ms mc w4 ->
  own_prop mc "access_token" = Some mc_access ->
  reply_to env w4 (profile_request mc_access) = Responded st d ->
  ((success_status st = true /\ truthy (opt_prop d "id") = false)
   \/ st = 404 ->
   exists e w',
     completeLogin env this authCode w0 = (Throw e, w')
     /\ carries_code "no_minecraft_license" e = true)
  /\ (success_status st = false -> st <> 404 ->
      exists e w',
        completeLogin env this authCode w0 = (Throw e, w')
        /\ err_message e
           = "获取Minecraft资料失败: "
             ++ upstream_text "message" (Responded st d)).
Proof.
  intros Hthis H14 Hm Hreply.
  assert (Hflow : forall e w5,
            getMinecraftProfile env this mc_access w4 = (Throw e, w5) ->
            completeLogin env this authCode w0
            = (Throw e, with_event w5 "error" e)).
  { intros e w5 H5.
    pose proof (login_steps_stage5_Throw _ _ _ _ _ _ _ _ _ _ H14 Hm H5)
      as Hsteps.
    pose proof (flow_outcome (login_steps env this authCode) w0) as F.
    now rewrite Hsteps in F. }
  split.
  - intros Hcase.
    assert (H5 : exists e w5,
              getMinecraftProfile env this mc_access w4 = (Throw e, w5)
              /\ carries_code "no_minecraft_license" e = true).
    { destruct Hcase as [[Hst Hid]| ->].
      - destruct (getMinecraftProfile_missing_id env this mc_access w4 st d
                    Hreply Hst Hid)
          as (original & wrapper & w5 & Hrun & _ & Ho & Hw & _).
        exists wrapper, w5. split; [exact Hrun|].
        unfold carries_code. rewrite Hw, Ho.
        rewrite (constructed_ErrorCode this Hthis).
        cbn [NO_MINECRAFT ErrorCode_table].
        rewrite <- append_assoc. apply includes_suffix.
      - destruct (getMinecraftProfile_404 env this mc_access w4 d Hreply)
          as (e & w5 & Hrun & Hmsg & _).
        exists e, w5. split; [exact Hrun|].
        unfold carries_code. rewrite Hmsg.
        rewrite (constructed_ErrorCode this Hthis).
        cbn [NO_MINECRAFT ErrorCode_table]. apply includes_suffix. }
    destruct H5 as (e & w5 & H5 & Hcode).
    exists e, (with_event w5 "error" e).
    split; [exact (Hflow e w5 H5) | exact Hcode].
  - intros Hst H404.
    destruct (getMinecraftProfile_other_status env this mc_access w4 st d
                Hreply Hst H404)
      as (e & w5 & H5 & Hmsg).
    exists e, (with_event w5 "error" e).
    split; [exact (Hflow e w5 H5) | exact Hmsg].
Qed.

Lemma missing_license_rejects_login_witness :
  (exists e w',
     completeLogin (services profile_without_id) sample_provider
       (JStr "M.C507") initial_world = (Throw e, w')
     /\ carries_code "no_minecraft_license" e = true)
  /\ (exists e w',
        completeLogin (services profile_not_found) sample_provider
          (JStr "M.C507") initial_world = (Throw e, w')
        /\ carries_code "no_minecraft_license" e = true)
  /\ (exists e w',
        completeLogin (services profile_server_error) sample_provider
          (JStr "M.C507") initial_world = (Throw e, w')
        /\ err_message e
           = "获取Minecraft资料失败: Request failed with status code 500").
Proof.
  split; [|split].
  - apply (missing_license_rejects_login (services profile_without_id)
             sample_provider (JStr "M.C507") initial_world sample_ms sample_mc
             sample_world_4 (JStr "mc-access") 200 _
             sample_provider_constructed
             (sample_stages_1_to_4 profile_without_id) eq_refl eq_refl).
    left. split; reflexivity.
  - apply (missing_license_rejects_login (services profile_not_found)
             sample_provider (JStr "M.C507") initial_world sample_ms sample_mc
             sample_world_4 (JStr "mc-access") 404 _
             sample_provider_constructed
             (sample_stages_1_to_4 profile_not_found) eq_refl eq_refl).
    right. reflexivity.
  - apply (missing_license_rejects_login (services profile_server_error)
             sample_provider (JStr "M.C507") initial_world sample_ms sample_mc
             sample_world_4 (JStr "mc-access") 500 _
             sample_provider_constructed
             (sample_stages_1_to_4 profile_server_error) eq_refl eq_refl).
    + reflexivity.
    + discriminate.
Defined.

(** C3 as stated does not hold for every answer without [id]: a server
    error at stage 5, whose body has no [id] either, is reported as the
    generic profile-fetch failure, and the code of the missing license
    occurs nowhere in the error. *)
Lemma server_error_is_not_a_missing_license :
  exists e w',
    completeLogin (services profile_server_error) sample_provider
      (JStr "M.C507") initial_world = (Throw e, w')
    /\ opt_prop (JObj [("error", JStr "Internal Server Error")]) "id"
       = JUndefined
    /\ err_message e
       = "获取Minecraft资料失败: Request failed with status code 500"
    /\ carries_code "no_minecraft_license" e = false.
Proof.
  eexists. eexists. split; [vm_compute; reflexivity|].
  repeat split; reflexivity.
Qed.

(** *** The two probes *)

Lemma strict_eq_str_true v s : strict_eq_str v s = true -> v = JStr s.
Proof.
  destruct v; simpl; try discriminate.
  intros H. apply String.eqb_eq in H. now subst.
Qed.

(** [some] returns [true] only on an array that has a matching entry. *)
Lemma array_some_game l w :
  exists out w',
    array_some is_game_minecraft l w = (out, w')
    /\ (out = Return true ->
        exists item,
          In item l /\ opt_prop item "name" = JStr "game_minecraft").
Proof.
  induction l as [|item rest IH].
  - exists (Return false), w. split; [reflexivity | discriminate].
  - cbn [array_some]. unfold bind at 1, is_game_minecraft, bind, get_prop.
    unfold opt_prop.
    destruct (own_prop item "name") as [n|] eqn:En; simpl.
    + destruct (strict_eq_str n "game_minecraft") eqn:Es.
      * exists (Return true), w. split; [reflexivity|].
        intros _. exists item. split; [now left|].
        rewrite En. now apply strict_eq_str_true.
      * destruct IH as (out & w' & Hrun & Hout).
        exists out, w'. split; [exact Hrun|].
        intros Ho. destruct (Hout Ho) as (it & Hin & Hname).
        exists it. split; [now right | exact Hname].
    + do 2 eexists. split; [reflexivity | discriminate].
Qed.

(** The search returns what [lists_game] says, or it throws where
    [lists_game] says no. *)
Lemma array_some_lists_game l w :
  match array_some is_game_minecraft l w with
  | (Return found, _) => found = lists_game l
  | (Throw _, _) => lists_game l = false
  end.
Proof.
  induction l as [|item rest IH]; [reflexivity|].
  cbn [array_some lists_game].
  unfold bind at 1, is_game_minecraft, bind, get_prop.
  destruct (own_prop item "name") as [n|]; simpl; [|reflexivity].
  destruct (strict_eq_str n "game_minecraft"); [reflexivity | exact IH].
Qed.

(** The body of the [try] block of [checkGameOwnership], from the answer
    on.  With the body and its [items] present it returns the boolean of
    the search or throws where the search finds nothing; and it returns
    [true] only for an array with an entry of that name. *)
Lemma ownership_of_body d w :
  exists out w',
    (if negb (truthy d) then ret d
     else
       items <- get_prop d "items";;
       if negb (truthy items) then ret items
       else
         found <- call_some items is_game_minecraft;;
         ret (JBool found)) w = (out, w')
    /\ (out = Return (JBool true) ->
        exists l item,
          opt_prop d "items" = JArr l /\ In item l
          /\ opt_prop item "name" = JStr "game_minecraft")
    /\ (truthy d = true -> truthy (opt_prop d "items") = true ->
        match out with
        | Return v => v = JBool (owns_game (opt_prop d "items"))
        | Throw _ => owns_game (opt_prop d "items") = false
        end).
Proof.
  destruct (truthy d) eqn:Hd; cbn [negb].
  - unfold bind at 1, get_prop. rewrite (opt_prop_truthy d "items" Hd).
    cbn [ret]. destruct (truthy (opt_prop d "items")) eqn:Hi; cbn [negb].
    + destruct (opt_prop d "items") as [| |b|z|s|l|fs] eqn:Ei;
        try discriminate Hi;
        try (do 2 eexists; split; [reflexivity|];
             split; [discriminate | reflexivity]).
      destruct (array_some_game l w) as (out & w' & Hrun & Hout).
      pose proof (array_some_lists_game l w) as Hval. rewrite Hrun in Hval.
      unfold bind, call_some. rewrite Hrun. cbn [owns_game].
      destruct out as [found|e].
      * do 2 eexists. split; [reflexivity|]. split.
        -- intros [= ->]. destruct (Hout eq_refl) as (item & Hin & Hname).
           now exists l, item.
        -- intros _ _. now rewrite Hval.
      * do 2 eexists. split; [reflexivity|].
        split; [discriminate | intros _ _; exact Hval].
    + do 2 eexists. split; [reflexivity|]. split; [|discriminate].
      intros [= Hv]. rewrite Hv in Hi. discriminate Hi.
  - do 2 eexists. split; [reflexivity|]. split; [|discriminate].
    intros [= Hv]. rewrite Hv in Hd. discriminate Hd.
Qed.

(** C6, as the program has it.  Neither probe ever throws.
    [validateMinecraftToken] never reads the body: it returns whether the
    answer has status 200, hence [false] for every status outside 2xx,
    and [false] when there is no answer.  [checkGameOwnership] returns
    [false] when there is no answer or the status is outside 2xx.  On a
    2xx answer whose body and whose [items] are present (truthy) it
    returns a boolean: [true] when [items] is an array in which an entry
    named [game_minecraft] comes before any entry [null] or [undefined],
    and [false] otherwise, in particular when [items] is not an array.
    On every 2xx answer it returns [true] only if [items] is an array
    with an entry named [game_minecraft]. *)
Theorem probes_never_throw env accessToken w :
  (exists w',
     validateMinecraftToken env accessToken w
     = (Return match reply_to env w (store_request accessToken) with
               | Responded st _ => st =? 200
               | NoResponse _ => false
               end, w')
     /\ (is_failure (reply_to env w (store_request accessToken)) = true ->
         validateMinecraftToken env accessToken w = (Return false, w')))
  /\ (exists v w',
        checkGameOwnership env accessToken w = (Return v, w')
        /\ match reply_to env w (store_request accessToken) with
           | NoResponse _ => v = JBool false
           | Responded st d =>
               if success_status st then
                 (v = JBool true ->
                  exists l item,
                    opt_prop d "items" = JArr l /\ In item l
                    /\ opt_prop item "name" = JStr "game_minecraft")
                 /\ (truthy d = true ->
                     truthy (opt_prop d "items") = true ->
                     v = JBool (owns_game (opt_prop d "items")))
               else v = JBool false
           end).
Proof.
  unfold is_failure, reply_to, store_request, success_status. split.
  - unfold validateMinecraftToken, try_catch, bind, axios_get, axios.
    destruct (transport env _ _) as [st d|message]; cbn -[Z.leb Z.ltb Z.eqb].
    + destruct ((200 <=? st) && (st <? 300)) eqn:Hs; cbn -[Z.leb Z.ltb Z.eqb].
      * eexists. split; [reflexivity | discriminate].
      * assert (H200 : (st =? 200) = false).
        { destruct (Z.eqb_spec st 200) as [->|]; [discriminate Hs|].
          reflexivity. }
        rewrite H200. eexists. split; [reflexivity|]. intros _. reflexivity.
    + eexists. split; [reflexivity|]. intros _. reflexivity.
  - unfold checkGameOwnership, try_catch, axios_get.
    unfold bind at 1. unfold axios.
    destruct (transport env _ _) as [st d|message]; cbn -[Z.leb Z.ltb].
    + destruct ((200 <=? st) && (st <? 300)) eqn:Hs; cbn -[Z.leb Z.ltb].
      * match goal with
        | |- context [record_request w ?rq] =>
            destruct (ownership_of_body d (record_request w rq))
              as (out & w' & Hrun & Hex & Hval)
        end.
        cbn [record_request] in Hrun. rewrite Hrun.
        destruct out as [v|e].
        -- exists v, w'. split; [reflexivity|]. split.
           ++ intros ->. exact (Hex eq_refl).
           ++ exact Hval.
        -- do 2 eexists. split; [reflexivity|]. split; [discriminate|].
           intros Hd Hi. now rewrite (Hval Hd Hi).
      * do 2 eexists. split; reflexivity.
    + do 2 eexists. split; reflexivity.
Qed.

(** C6 as stated does not hold on malformed bodies: with status 200 and
    the body [null], [validateMinecraftToken] returns [true]; with status
    200 and a body without [items], [checkGameOwnership] returns
    [undefined] and not [false]. *)
Lemma malformed_body_is_not_always_false :
  fst (validateMinecraftToken
         (environment_of (fun _ _ => Responded 200 JNull))
         (JStr "mc-access") initial_world)
  = Return true
  /\ fst (checkGameOwnership
            (environment_of (fun _ _ => Responded 200 (JObj [])))
            (JStr "mc-access") initial_world)
     = Return JUndefined.
Proof. split; reflexivity. Qed.

(* ================================================================= *)
(** ** Sample runs *)

Example encode_scopes :
  encodeURIComponent scopes = Some "XboxLive.signin%20offline_access".
Proof. reflexivity. Qed.

Example encode_non_ascii :
  encodeURIComponent "http://localhost/é?a=1&b" =
  Some "http%3A%2F%2Flocalhost%2F%C3%A9%3Fa%3D1%26b".
Proof. reflexivity. Qed.

(** The last character before the surrogate range (U+D7FF, bytes
    [ED 9F BF]) and a character outside the basic plane (U+1F600, a
    surrogate pair in JavaScript) are encoded; a lone surrogate is
    refused. *)
Example encode_around_surrogates :
  encodeURIComponent "퟿😀"
  = Some "%ED%9F%BF%F0%9F%98%80"
  /\ encodeURIComponent unpaired_redirectUri = None.
Proof. split; reflexivity. Qed.

Example to_string_of_array :
  to_string (JArr [JNum 1; JNull; JArr [JStr "a"; JBool true]; JObj []])
  = "1,,a,true,[object Object]".
Proof. reflexivity. Qed.

Example refresh_online :
  let run := refreshTokens online sample_provider (JStr "ms-refresh")
               initial_world in
  fst run
  = Return {| refreshed_microsoft :=
                {| ms_access_token := JStr "ms-access";
                   ms_refresh_token := JStr "ms-refresh";
                   ms_expires_at := Num 1700003600000 |};
              refreshed_minecraft :=
                {| mc_access_token := JStr "mc-access";
                   mc_expires_at := Num 1700086400001 |} |}
  /\ List.map url (requests (snd run))
     = [tokenUrl; xblUrl; xstsUrl; mcTokenUrl]
  /\ emitted (snd run) = [].
Proof. repeat split; reflexivity. Qed.

Example login_online_requests :
  List.map url
    (requests (snd (completeLogin online sample_provider (JStr "M.C507")
                      initial_world)))
  = [tokenUrl; xblUrl; xstsUrl; mcTokenUrl; profileUrl].
Proof. reflexivity. Qed.

Example login_offline :
  exists e w',
    completeLogin offline sample_provider (JStr "M.C507") initial_world
    = (Throw e, w')
    /\ err_message e = "获取Microsoft令牌失败: Network Error"
    /\ List.map url (requests w') = [tokenUrl]
    /\ console w' = [("获取Microsoft令牌失败", JStr "Network Error")].
Proof. do 2 eexists. split; [vm_compute; reflexivity|]. repeat split. Qed.

Example probes_online :
  fst (validateMinecraftToken online (JStr "mc-access") initial_world)
  = Return true
  /\ fst (checkGameOwnership online (JStr "mc-access") initial_world)
     = Return (JBool true).
Proof. split; reflexivity. Qed.

Example probes_offline :
  fst (validateMinecraftToken offline (JStr "mc-access") initial_world)
  = Return false
  /\ fst (checkGameOwnership offline (JStr "mc-access") initial_world)
     = Return (JBool false).
Proof. split; reflexivity. Qed.

(** [items] that is not an array: calling [some] raises a [TypeError],
    which the [catch] clause logs and turns into [false]. *)
Example ownership_with_ill_shaped_items :
  let run := checkGameOwnership
               (environment_of
                  (fun _ _ => Responded 200 (JObj [("items", JStr "none")])))
               (JStr "mc-access") initial_world in
  fst run = Return (JBool false)
  /\ console (snd run)
     = [("检查游戏所有权失败",
         JStr "response.data.items.some is not a function")].
Proof. split; reflexivity. Qed.

(** A flow that returns emits nothing. *)
Lemma returning_flow_emits_nothing env this input w :
  (forall r w', completeLogin env this input w = (Return r, w') ->
                emitted w' = emitted w)
  /\ (forall r w', refreshTokens env this input w = (Return r, w') ->
                   emitted w' = emitted w).
Proof.
  split; intros r w' H.
  - unfold completeLogin in H.
    pose proof (flow_outcome (login_steps env this input) w) as F.
    pose proof (login_steps_silent env this input w) as S.
    destruct (login_steps env this input w) as [[r1|e1] w1];
      rewrite H in F; inversion F; subst. exact S.
  - unfold refreshTokens in H.
    pose proof (flow_outcome (refresh_steps env this input) w) as F.
    pose proof (refresh_steps_silent env this input w) as S.
    destruct (refresh_steps env this input w) as [[r1|e1] w1];
      rewrite H in F; inversion F; subst. exact S.
Qed.

(* ================================================================= *)
(** ** Requests: one per call, in the order of the stages *)

Lemma same_requests_refl w : same_requests w w.
Proof. reflexivity. Qed.

Lemma same_requests_trans a b c :
  same_requests a b -> same_requests b c -> same_requests a c.
Proof. unfold same_requests. congruence. Qed.

Lemma same_requests_alloc w e : same_requests w (alloc w e).
Proof. reflexivity. Qed.

(** Closes goals [frame same_requests m] for code that sends nothing. *)
Ltac quiet :=
  repeat (first
    [ apply (frame_bind same_requests same_requests_trans); [|intros ?]
    | apply (frame_try_catch same_requests same_requests_trans); [|intros ?]
    | apply (frame_if same_requests)
    | apply (frame_ret same_requests same_requests_refl)
    | apply (frame_throw same_requests same_requests_refl)
    | apply (frame_throw_new same_requests same_requests_alloc)
    | apply (frame_get_prop same_requests same_requests_refl
               same_requests_alloc)
    | apply (frame_get_first same_requests same_requests_refl
               same_requests_alloc)
    | intros ?; reflexivity ]).

Lemma array_some_quiet l : frame same_requests (array_some is_game_minecraft l).
Proof.
  induction l as [|item rest IH]; cbn [array_some].
  - quiet.
  - apply (frame_bind same_requests same_requests_trans).
    + unfold is_game_minecraft. quiet.
    + intros [|]; [quiet | exact IH].
Qed.

(** A function of the shape [try { r = await axios(rq); k(r) } catch (e)
    { h(e) }] whose continuation and handler send nothing sends [rq] and
    nothing else. *)
Lemma one_request {A} env rq (k : http_response -> M A) (h : js_error -> M A) w :
  (forall r, frame same_requests (k r)) ->
  (forall e, frame same_requests (h e)) ->
  requests (snd (try_catch (bind (axios env rq) k) h w))
  = (requests w ++ [rq])%list.
Proof.
  intros Hk Hh. unfold try_catch, bind, axios.
  destruct (transport env _ rq) as [st d|message].
  - destruct ((200 <=? st) && (st <? 300)).
    + match goal with
      | |- context [k ?r ?w1] =>
          pose proof (Hk r w1) as Q; destruct (k r w1) as [[a|e] w2]
      end; cbn [snd] in *.
      * exact Q.
      * rewrite (Hh e w2). exact Q.
    + cbn [throw_new fst snd]. cbv beta zeta.
      match goal with |- context [h ?e ?w1] => rewrite (Hh e w1) end.
      reflexivity.
  - cbn [throw_new fst snd]. cbv beta zeta.
    match goal with |- context [h ?e ?w1] => rewrite (Hh e w1) end.
    reflexivity.
Qed.

Lemma getMicrosoftToken_requests env this code isRefresh w :
  requests (snd (getMicrosoftToken env this code isRefresh w))
  = (requests w ++ [token_request this code isRefresh])%list.
Proof. apply one_request; intros; quiet. Qed.

Lemma getXboxLiveToken_requests env accessToken w :
  requests (snd (getXboxLiveToken env accessToken w))
  = (requests w ++ [xbl_request accessToken])%list.
Proof. apply one_request; intros; quiet. Qed.

Lemma getXSTSToken_requests env this xblToken w :
  requests (snd (getXSTSToken env this xblToken w))
  = (requests w ++ [xsts_request xblToken])%list.
Proof. apply one_request; intros; quiet. Qed.

Lemma getMinecraftToken_requests env xstsData w :
  requests (snd (getMinecraftToken env xstsData w))
  = (requests w ++ [mc_request xstsData])%list.
Proof. apply one_request; intros; quiet. Qed.

Lemma validateMinecraftToken_requests env accessToken w :
  requests (snd (validateMinecraftToken env accessToken w))
  = (requests w ++ [store_request accessToken])%list.
Proof. apply one_request; intros; quiet. Qed.

Lemma checkGameOwnership_requests env accessToken w :
  requests (snd (checkGameOwnership env accessToken w))
  = (requests w ++ [store_request accessToken])%list.
Proof.
  apply one_request; intros; quiet.
  unfold call_some. destruct a; try apply array_some_quiet; quiet.
Qed.

(** X1. No stage and no probe retries or fans out: whatever the network
    answers and whether the call returns or throws, each of the five
    stages and each of the two probes adds exactly one request to the
    network log, the one it builds from its arguments. *)
Theorem each_call_sends_one_request env this w :
  (forall code isRefresh,
     requests (snd (getMicrosoftToken env this code isRefresh w))
     = (requests w ++ [token_request this code isRefresh])%list)
  /\ (forall accessToken,
        requests (snd (getXboxLiveToken env accessToken w))
        = (requests w ++ [xbl_request accessToken])%list)
  /\ (forall xblToken,
        requests (snd (getXSTSToken env this xblToken w))
        = (requests w ++ [xsts_request xblToken])%list)
  /\ (forall xstsData,
        requests (snd (getMinecraftToken env xstsData w))
        = (requests w ++ [mc_request xstsData])%list)
  /\ (forall accessToken,
        requests (snd (getMinecraftProfile env this accessToken w))
        = (requests w ++ [profile_request accessToken])%list)
  /\ (forall accessToken,
        requests (snd (validateMinecraftToken env accessToken w))
        = (requests w ++ [store_request accessToken])%list)
  /\ (forall accessToken,
        requests (snd (checkGameOwnership env accessToken w))
        = (requests w ++ [store_request accessToken])%list).
Proof.
  repeat split; intros.
  - apply getMicrosoftToken_requests.
  - apply getXboxLiveToken_requests.
  - apply getXSTSToken_requests.
  - apply getMinecraftToken_requests.
  - apply getMinecraftProfile_requests.
  - apply validateMinecraftToken_requests.
  - apply checkGameOwnership_requests.
Qed.

Lemma walks_ret {A} (a : A) : walks [] (ret a).
Proof.
  intros w. exists []. cbn. rewrite app_nil_r.
  repeat split; auto. now exists [].
Qed.

Lemma walks_quiet_bind {A B} urls (m : M A) (k : A -> M B) :
  frame same_requests m -> (forall a, walks urls (k a)) ->
  walks urls (bind m k).
Proof.
  intros Hm Hk w. unfold bind. specialize (Hm w).
  destruct (m w) as [[a|e] w1]; cbn [snd] in Hm.
  - destruct (Hk a w1) as (new & Hreq & Hseg & Hret).
    exists new. rewrite Hreq, Hm. auto.
  - exists []. cbn [fst snd]. rewrite Hm, app_nil_r.
    split; [reflexivity|]. split; [now exists urls | discriminate].
Qed.

Lemma walks_stage_bind {A B} urls rq (m : M A) (k : A -> M B) :
  (forall w, requests (snd (m w)) = (requests w ++ [rq])%list) ->
  (forall a, walks urls (k a)) ->
  walks (url rq :: urls) (bind m k).
Proof.
  intros Hm Hk w. unfold bind. specialize (Hm w).
  destruct (m w) as [[a|e] w1]; cbn [snd] in Hm.
  - destruct (Hk a w1) as (new & Hreq & (rest & Hseg) & Hret).
    exists (rq :: new). rewrite Hreq, Hm, <- app_assoc. split; [reflexivity|].
    split.
    + exists rest. cbn. now rewrite Hseg.
    + intros b Hb. cbn. now rewrite (Hret b Hb).
  - exists [rq]. cbn [fst snd]. split; [exact Hm|].
    split; [now exists urls | discriminate].
Qed.

Lemma walks_flow {A} urls (steps : M A) :
  walks urls steps -> walks urls (try_catch steps notify_and_rethrow).
Proof.
  intros Hs w. pose proof (flow_outcome steps w) as F.
  destruct (Hs w) as (new & Hreq & Hseg & Hret).
  destruct (steps w) as [[a|e] w1]; rewrite F.
  - exists new. auto.
  - exists new. cbn [fst snd with_event requests] in *.
    split; [exact Hreq|]. split; [exact Hseg | discriminate].
Qed.

(** X2. The flows move strictly forward.  Whatever the network answers,
    the requests that [completeLogin] adds to the network log go to an
    initial segment of the five endpoints, in the order token, Xbox Live,
    XSTS, service token, profile, and to all five when the flow returns;
    those of [refreshTokens] go to an initial segment of the first four,
    and to all four when it returns.  No endpoint is asked twice and no
    stage is entered before the previous one has answered. *)
Theorem flows_walk_the_stages_in_order env this input :
  walks login_urls (completeLogin env this input)
  /\ walks refresh_urls (refreshTokens env this input).
Proof.
  split.
  - unfold completeLogin. apply walks_flow. unfold login_steps, login_urls.
    apply (walks_stage_bind _ (token_request this input false));
      [intros w; apply getMicrosoftToken_requests | intros ms].
    apply walks_quiet_bind; [quiet | intros a1].
    apply (walks_stage_bind _ (xbl_request a1));
      [intros w; apply getXboxLiveToken_requests | intros xbl].
    apply walks_quiet_bind; [quiet | intros t].
    apply (walks_stage_bind _ (xsts_request t));
      [intros w; apply getXSTSToken_requests | intros xsts].
    apply (walks_stage_bind _ (mc_request xsts));
      [intros w; apply getMinecraftToken_requests | intros mc].
    apply walks_quiet_bind; [quiet | intros a4].
    apply (walks_stage_bind _ (profile_request a4));
      [intros w; apply getMinecraftProfile_requests | intros prof].
    repeat (apply walks_quiet_bind; [quiet | intros ?]).
    apply walks_ret.
  - unfold refreshTokens. apply walks_flow. unfold refresh_steps, refresh_urls.
    apply (walks_stage_bind _ (token_request this input true));
      [intros w; apply getMicrosoftToken_requests | intros ms].
    apply walks_quiet_bind; [quiet | intros a1].
    apply (walks_stage_bind _ (xbl_request a1));
      [intros w; apply getXboxLiveToken_requests | intros xbl].
    apply walks_quiet_bind; [quiet | intros t].
    apply (walks_stage_bind _ (xsts_request t));
      [intros w; apply getXSTSToken_requests | intros xsts].
    apply (walks_stage_bind _ (mc_request xsts));
      [intros w; apply getMinecraftToken_requests | intros mc].
    repeat (apply walks_quiet_bind; [quiet | intros ?]).
    apply walks_ret.
Qed.

(* ================================================================= *)
(** ** Failures of the stages *)

(** What Axios does with a failed request. *)
Lemma axios_failure env rq w :
  is_failure (reply_to env w rq) = true ->
  axios env rq w
  = (Throw (axios_error w (reply_to env w rq)),
     alloc (record_request w rq) (axios_error w (reply_to env w rq))).
Proof.
  unfold axios, reply_to, is_failure, success_status.
  destruct (transport env _ rq) as [st d|message]; [|reflexivity].
  intros H. apply negb_true_iff in H. rewrite H. reflexivity.
Qed.

Lemma axios_error_data w reply :
  response_data (axios_error w reply) = failure_data reply.
Proof. now destruct reply. Qed.

Lemma axios_error_field w reply key :
  response_data_field (axios_error w reply) key
  = opt_prop (failure_data reply) key.
Proof. unfold response_data_field. now rewrite axios_error_data. Qed.

Lemma axios_error_status w reply n :
  response_status_is (axios_error w reply) n = has_status reply n.
Proof. now destruct reply. Qed.

(** Runs a stage on a failed request up to its [catch] clause. *)
Ltac into_catch Hfail :=
  unfold try_catch, axios_post, axios_get; unfold bind at 1;
  let Hax := fresh "Hax" in
  pose proof (axios_failure _ _ _ Hfail) as Hax;
  cbv delta [token_request xbl_request xsts_request mc_request
             profile_request store_request] in Hax;
  rewrite Hax; clear Hax;
  unfold bind, console_error, throw_new_Error, throw_new, message_of;
  rewrite ?axios_error_data, ?axios_error_field, ?axios_error_status;
  cbn -[String.append].

(** X3. Stage 1 on a failed request (no answer, or a status outside
    2xx).  [getMicrosoftToken] logs one line and throws a new [Error]
    whose message is its label followed by the [error_description] of
    the answer when that is truthy, and by the transport's own message
    otherwise; the error carries no [response], so the HTTP status of the
    answer does not reach the caller. *)
Theorem getMicrosoftToken_failure env this code isRefresh w :
  is_failure (reply_to env w (token_request this code isRefresh)) = true ->
  exists e w',
    getMicrosoftToken env this code isRefresh w = (Throw e, w')
    /\ err_name e = "Error"
    /\ err_response e = None
    /\ err_message e
       = "获取Microsoft令牌失败: "
         ++ upstream_text "error_description"
              (reply_to env w (token_request this code isRefresh))
    /\ console w'
       = (console w
          ++ [("获取Microsoft令牌失败",
               logged_value
                 (reply_to env w (token_request this code isRefresh)))])%list.
Proof.
  intros Hfail. unfold getMicrosoftToken.
  into_catch Hfail.
  do 2 eexists. split; [reflexivity|]. repeat split.
Qed.

Lemma getMicrosoftToken_failure_witness :
  exists e w',
    getMicrosoftToken
      (environment_of (server token_invalid_grant xbl_ok xsts_ok mc_ok
                         profile_ok store_ok))
      sample_provider (JStr "M.C507") false initial_world = (Throw e, w')
    /\ err_message e
       = "获取Microsoft令牌失败: AADSTS70008: The code has expired."
    /\ err_response e = None.
Proof.
  destruct (getMicrosoftToken_failure
              (environment_of (server token_invalid_grant xbl_ok xsts_ok mc_ok
                                 profile_ok store_ok))
              sample_provider (JStr "M.C507") false initial_world eq_refl)
    as (e & w' & Hrun & _ & Hr & Hm & _).
  exists e, w'. split; [exact Hrun|]. split; [exact Hm | exact Hr].
Defined.

Lemma getXboxLiveToken_failure env accessToken w :
  is_failure (reply_to env w (xbl_request accessToken)) = true ->
  exists e w',
    getXboxLiveToken env accessToken w = (Throw e, w')
    /\ err_name e = "Error"
    /\ err_response e = None
    /\ err_message e
       = "获取Xbox Live令牌失败: "
         ++ upstream_text "message" (reply_to env w (xbl_request accessToken))
    /\ console w'
       = (console w
          ++ [("获取Xbox Live令牌失败",
               logged_value (reply_to env w (xbl_request accessToken)))])%list.
Proof.
  intros Hfail. unfold getXboxLiveToken. into_catch Hfail.
  do 2 eexists. split; [reflexivity|]. repeat split.
Qed.

Lemma getMinecraftToken_failure env xstsData w :
  is_failure (reply_to env w (mc_request xstsData)) = true ->
  exists e w',
    getMinecraftToken env xstsData w = (Throw e, w')
    /\ err_name e = "Error"
    /\ err_response e = None
    /\ err_message e
       = "获取Minecraft令牌失败: "
         ++ upstream_text "message" (reply_to env w (mc_request xstsData))
    /\ console w'
       = (console w
          ++ [("获取Minecraft令牌失败",
               logged_value (reply_to env w (mc_request xstsData)))])%list.
Proof.
  intros Hfail. unfold getMinecraftToken. into_catch Hfail.
  do 2 eexists. split; [reflexivity|]. repeat split.
Qed.

(** X4. Stages 2 and 4 on a failed request.  Each logs one line and
    throws a new [Error] without [response] whose message is the label of
    the stage followed by the [message] field of the answer when that is
    truthy, and by the transport's own message otherwise (for instance
    when the body is empty text or has no such field). *)
Theorem ticket_and_service_token_failure env w :
  (forall accessToken,
     is_failure (reply_to env w (xbl_request accessToken)) = true ->
     exists e w',
       getXboxLiveToken env accessToken w = (Throw e, w')
       /\ err_name e = "Error"
       /\ err_response e = None
       /\ err_message e
          = "获取Xbox Live令牌失败: "
            ++ upstream_text "message"
                 (reply_to env w (xbl_request accessToken)))
  /\ (forall xstsData,
        is_failure (reply_to env w (mc_request xstsData)) = true ->
        exists e w',
          getMinecraftToken env xstsData w = (Throw e, w')
          /\ err_name e = "Error"
          /\ err_response e = None
          /\ err_message e
             = "获取Minecraft令牌失败: "
               ++ upstream_text "message"
                    (reply_to env w (mc_request xstsData))).
Proof.
  split.
  - intros a Hfail.
    destruct (getXboxLiveToken_failure env a w Hfail)
      as (e & w' & Hrun & Hn & Hr & Hm & _).
    now exists e, w'.
  - intros x Hfail.
    destruct (getMinecraftToken_failure env x w Hfail)
      as (e & w' & Hrun & Hn & Hr & Hm & _).
    now exists e, w'.
Qed.

Lemma ticket_and_service_token_failure_witness :
  (exists e w',
     getXboxLiveToken
       (environment_of (server token_ok xbl_unauthorized xsts_ok mc_ok
                          profile_ok store_ok))
       (JStr "ms-access") initial_world = (Throw e, w')
     /\ err_message e
        = "获取Xbox Live令牌失败: Request failed with status code 401")
  /\ (exists e w',
        getMinecraftToken
          (environment_of (server token_ok xbl_ok xsts_ok mc_forbidden
                             profile_ok store_ok))
          {| token := JStr "xsts-token"; userHash := JStr "user-hash" |}
          initial_world = (Throw e, w')
        /\ err_message e = "获取Minecraft令牌失败: Invalid app registration").
Proof.
  split.
  - destruct (proj1 (ticket_and_service_token_failure
                       (environment_of (server token_ok xbl_unauthorized
                                          xsts_ok mc_ok profile_ok store_ok))
                       initial_world) (JStr "ms-access") eq_refl)
      as (e & w' & Hrun & _ & _ & Hm).
    exists e, w'. split; [exact Hrun | exact Hm].
  - destruct (proj2 (ticket_and_service_token_failure
                       (environment_of (server token_ok xbl_ok xsts_ok
                                          mc_forbidden profile_ok store_ok))
                       initial_world)
                {| token := JStr "xsts-token"; userHash := JStr "user-hash" |}
                eq_refl)
      as (e & w' & Hrun & _ & _ & Hm).
    exists e, w'. split; [exact Hrun | exact Hm].
Defined.

(** X5. The error mapping of stage 3 on a failed request.  Unless the
    status is 401, the stage throws its generic error (label, then the
    [message] of the answer or the transport's message).  On a 401 whose
    body has a readable [XErr], the number 2148916233 gives the
    no-Xbox-account message with its code, the number 2148916238 gives the
    unsupported-region message, to which no code is appended, and every
    other value (other numbers, the same digits as text, a missing
    [XErr]) gives the generic error again.  The error thrown never
    carries a [response]. *)
Theorem getXSTSToken_failure env this xblToken w x :
  is_failure (reply_to env w (xsts_request xblToken)) = true ->
  has_status (reply_to env w (xsts_request xblToken)) 401 = false
  \/ own_prop (failure_data (reply_to env w (xsts_request xblToken))) "XErr"
     = Some x ->
  exists e w',
    getXSTSToken env this xblToken w = (Throw e, w')
    /\ err_name e = "Error"
    /\ err_response e = None
    /\ err_message e
       = if has_status (reply_to env w (xsts_request xblToken)) 401 then
           if strict_eq_num x 2148916233 then
             "此账户没有Xbox账户，您需要创建一个: "
             ++ NO_XBOX_ACCOUNT (ErrorCode this)
           else if strict_eq_num x 2148916238 then
             "此账户来自不支持Xbox Live的国家/地区"
           else
             "获取XSTS令牌失败: "
             ++ upstream_text "message"
                  (reply_to env w (xsts_request xblToken))
         else
           "获取XSTS令牌失败: "
           ++ upstream_text "message"
                (reply_to env w (xsts_request xblToken)).
Proof.
  unfold xsts_request. intros Hfail Hx. unfold getXSTSToken.
  into_catch Hfail.
  destruct (has_status _ 401) eqn:H401.
  - destruct Hx as [Hx|Hx]; [discriminate Hx|].
    unfold get_prop. rewrite Hx. cbn -[String.append].
    destruct (strict_eq_num x 2148916233); cbn -[String.append].
    + do 2 eexists. split; [reflexivity|]. repeat split.
    + destruct (strict_eq_num x 2148916238); cbn -[String.append];
        do 2 eexists; (split; [reflexivity|]); repeat split.
  - cbn -[String.append].
    do 2 eexists. split; [reflexivity|]. repeat split.
Qed.

Lemma getXSTSToken_failure_witness :
  (exists e w',
     getXSTSToken (environment_of (server token_ok xbl_ok xsts_region mc_ok
                                     profile_ok store_ok))
       sample_provider (JStr "xbl-ticket") initial_world = (Throw e, w')
     /\ err_message e = "此账户来自不支持Xbox Live的国家/地区")
  /\ (exists e w',
        getXSTSToken (environment_of (server token_ok xbl_ok xsts_child mc_ok
                                        profile_ok store_ok))
          sample_provider (JStr "xbl-ticket") initial_world = (Throw e, w')
        /\ err_message e = "获取XSTS令牌失败: blocked").
Proof.
  split.
  - destruct (getXSTSToken_failure
                (environment_of (server token_ok xbl_ok xsts_region mc_ok
                                   profile_ok store_ok))
                sample_provider (JStr "xbl-ticket") initial_world
                (JNum 2148916238) eq_refl (or_intror eq_refl))
      as (e & w' & Hrun & _ & _ & Hm).
    exists e, w'. split; [exact Hrun | exact Hm].
  - destruct (getXSTSToken_failure
                (environment_of (server token_ok xbl_ok xsts_child mc_ok
                                   profile_ok store_ok))
                sample_provider (JStr "xbl-ticket") initial_world
                (JNum 2148916235) eq_refl (or_intror eq_refl))
      as (e & w' & Hrun & _ & _ & Hm).
    exists e, w'. split; [exact Hrun | exact Hm].
Defined.

(** X6. A 401 answer at stage 3 whose body is [null] (or missing): the
    [catch] clause of [getXSTSToken] reads [error.response.data.XErr]
    without a guard, so the read itself raises, and what the stage throws
    is that [TypeError], not one of its own messages.  [completeLogin]
    emits and rejects with the same [TypeError]. *)
Theorem getXSTSToken_null_body_on_401 env this authCode w0 ms xbl_token w2 d :
  stages_1_to_2 env this authCode false w0 ms xbl_token w2 ->
  reply_to env w2 (xsts_request xbl_token) = Responded 401 d ->
  own_prop d "XErr" = None ->
  exists e w3 w',
    getXSTSToken env this xbl_token w2 = (Throw e, w3)
    /\ completeLogin env this authCode w0 = (Throw e, w')
    /\ err_name e = "TypeError"
    /\ err_message e
       = "Cannot read properties of " ++ to_string d ++ " (reading 'XErr')"
    /\ (d = JNull \/ d = JUndefined).
Proof.
  intros H12 Hreply Hx.
  assert (Hfail : is_failure (reply_to env w2 (xsts_request xbl_token)) = true)
    by now rewrite Hreply.
  assert (H3 : exists e w3,
             getXSTSToken env this xbl_token w2 = (Throw e, w3)
             /\ err_name e = "TypeError"
             /\ err_message e
                = "Cannot read properties of " ++ to_string d
                  ++ " (reading 'XErr')").
  { unfold xsts_request in *. unfold getXSTSToken. into_catch Hfail.
    rewrite Hreply.
    cbn -[String.append]. unfold get_prop. rewrite Hx.
    cbn -[String.append]. do 2 eexists. split; [reflexivity|]. now split. }
  destruct H3 as (e & w3 & H3 & Hn & Hm).
  pose proof (login_steps_stage3_Throw _ _ _ _ _ _ _ _ _ H12 H3) as Hsteps.
  pose proof (flow_outcome (login_steps env this authCode) w0) as F.
  rewrite Hsteps in F.
  exists e, w3, (with_event w3 "error" e).
  repeat split; auto.
  destruct d; simpl in Hx; try discriminate Hx; auto.
Qed.

Lemma sample_stages_1_to_2 xsts mc prof store :
  stages_1_to_2 (environment_of (server token_ok xbl_ok xsts mc prof store))
    sample_provider (JStr "M.C507") false initial_world sample_ms
    (JStr "xbl-ticket") sample_world_2.
Proof. do 3 eexists. repeat split; reflexivity. Defined.

Lemma getXSTSToken_null_body_on_401_witness :
  exists e w',
    completeLogin
      (environment_of (server token_ok xbl_ok xsts_null mc_ok profile_ok
                         store_ok))
      sample_provider (JStr "M.C507") initial_world = (Throw e, w')
    /\ err_name e = "TypeError"
    /\ err_message e = "Cannot read properties of null (reading 'XErr')".
Proof.
  destruct (getXSTSToken_null_body_on_401
              (environment_of (server token_ok xbl_ok xsts_null mc_ok
                                 profile_ok store_ok))
              sample_provider (JStr "M.C507") initial_world sample_ms
              (JStr "xbl-ticket") sample_world_2 JNull
              (sample_stages_1_to_2 xsts_null mc_ok profile_ok store_ok)
              eq_refl eq_refl)
    as (e & w3 & w' & _ & Hrun & Hn & Hm & _).
  exists e, w'. split; [exact Hrun|]. split; [exact Hn | exact Hm].
Defined.

(** X7. Stage 5 on a failed request.  Status 404 gives the no-license
    message with its code, whatever the body says; every other failure
    gives the generic error: the label, then the [message] of the answer
    when that is truthy and the transport's message otherwise.  The error
    thrown carries no [response]. *)
Theorem getMinecraftProfile_failure env this accessToken w :
  is_failure (reply_to env w (profile_request accessToken)) = true ->
  exists e w',
    getMinecraftProfile env this accessToken w = (Throw e, w')
    /\ err_name e = "Error"
    /\ err_response e = None
    /\ err_message e
       = if has_status (reply_to env w (profile_request accessToken)) 404
         then "此账户没有购买Minecraft: " ++ NO_MINECRAFT (ErrorCode this)
         else "获取Minecraft资料失败: "
              ++ upstream_text "message"
                   (reply_to env w (profile_request accessToken)).
Proof.
  unfold profile_request. intros Hfail. unfold getMinecraftProfile.
  into_catch Hfail.
  destruct (has_status _ 404); cbn -[String.append];
    do 2 eexists; (split; [reflexivity|]); repeat split.
Qed.

Lemma getMinecraftProfile_failure_witness :
  (exists e w',
     getMinecraftProfile (services profile_server_error) sample_provider
       (JStr "mc-access") initial_world = (Throw e, w')
     /\ err_message e
        = "获取Minecraft资料失败: Request failed with status code 500")
  /\ (exists e w',
        getMinecraftProfile (services profile_not_found) sample_provider
          (JStr "mc-access") initial_world = (Throw e, w')
        /\ err_message e = "此账户没有购买Minecraft: no_minecraft_license").
Proof.
  split.
  - destruct (getMinecraftProfile_failure (services profile_server_error)
                sample_provider (JStr "mc-access") initial_world eq_refl)
      as (e & w' & Hrun & _ & _ & Hm).
    exists e, w'. split; [exact Hrun | exact Hm].
  - destruct (getMinecraftProfile_failure (services profile_not_found)
                sample_provider (JStr "mc-access") initial_world eq_refl)
      as (e & w' & Hrun & _ & _ & Hm).
    exists e, w'. split; [exact Hrun | exact Hm].
Defined.

(* ================================================================= *)
(** ** What the stages throw, and when they return *)

Lemma plain_ret {A} (a : A) : throws_plain (ret a).
Proof. intros w e w' H. discriminate H. Qed.

Lemma plain_throw_new {A} kind message :
  kind <> "AxiosError" -> throws_plain (@throw_new A kind message None).
Proof.
  intros Hk w e w' H. unfold throw_new in H. injection H as <- _.
  split; [reflexivity | exact Hk].
Qed.

Lemma plain_bind {A B} (m : M A) (k : A -> M B) :
  throws_plain m -> (forall a, throws_plain (k a)) -> throws_plain (bind m k).
Proof.
  intros Hm Hk w e w' H. unfold bind in H.
  destruct (m w) as [[a|e1] w1] eqn:E.
  - exact (Hk a w1 e w' H).
  - injection H as <- <-. exact (Hm w e1 w1 E).
Qed.

Lemma plain_try_catch {A} (body : M A) h :
  (forall e, throws_plain (h e)) -> throws_plain (try_catch body h).
Proof.
  intros Hh w e w' H. unfold try_catch in H.
  destruct (body w) as [[a|e1] w1].
  - discriminate H.
  - exact (Hh e1 w1 e w' H).
Qed.

Lemma plain_if {A} (b : bool) (m1 m2 : M A) :
  throws_plain m1 -> throws_plain m2 -> throws_plain (if b then m1 else m2).
Proof. now destruct b. Qed.

Lemma plain_get_prop v key : throws_plain (get_prop v key).
Proof.
  unfold get_prop. destruct (own_prop v key).
  - apply plain_ret.
  - apply plain_throw_new. discriminate.
Qed.

Lemma plain_console_error label v : throws_plain (console_error label v).
Proof. intros w e w' H. discriminate H. Qed.

Lemma plain_Date_now env : throws_plain (Date_now env).
Proof. intros w e w' H. discriminate H. Qed.

Lemma plain_flow {A} (steps : M A) :
  throws_plain steps -> throws_plain (try_catch steps notify_and_rethrow).
Proof.
  intros Hs w e w' H. pose proof (flow_outcome steps w) as F.
  destruct (steps w) as [[a|e1] w1] eqn:E; rewrite H in F.
  - discriminate F.
  - injection F as <- _. exact (Hs w e w1 E).
Qed.

(** Closes goals [throws_plain m] for the code of the stages. *)
Ltac plain :=
  repeat (first
    [ apply plain_try_catch; intros ?
    | apply plain_bind; [|intros ?]
    | apply plain_if
    | apply plain_ret
    | apply plain_get_prop
    | apply plain_console_error
    | apply plain_Date_now
    | apply plain_throw_new; discriminate ]).

Lemma plain_getMicrosoftToken env this code isRefresh :
  throws_plain (getMicrosoftToken env this code isRefresh).
Proof. unfold getMicrosoftToken. plain. Qed.

Lemma plain_getXboxLiveToken env accessToken :
  throws_plain (getXboxLiveToken env accessToken).
Proof. unfold getXboxLiveToken. plain. Qed.

Lemma plain_getXSTSToken env this xblToken :
  throws_plain (getXSTSToken env this xblToken).
Proof. unfold getXSTSToken. plain. Qed.

Lemma plain_getMinecraftToken env xstsData :
  throws_plain (getMinecraftToken env xstsData).
Proof. unfold getMinecraftToken. plain. Qed.

Lemma plain_getMinecraftProfile env this accessToken :
  throws_plain (getMinecraftProfile env this accessToken).
Proof. unfold getMinecraftProfile. plain. Qed.

(** X8. Errors of Axios never escape.  Whatever the network does, every
    error that one of the five stages throws, and every error with which
    [completeLogin] or [refreshTokens] rejects, is an error that this
    module built itself ([Error], or a [TypeError] of a failed property
    read): it has no [response] field, so the HTTP status and body of
    the failed answer are not available to the caller. *)
Theorem thrown_errors_carry_no_response env this :
  (forall code isRefresh,
     throws_plain (getMicrosoftToken env this code isRefresh))
  /\ (forall accessToken, throws_plain (getXboxLiveToken env accessToken))
  /\ (forall xblToken, throws_plain (getXSTSToken env this xblToken))
  /\ (forall xstsData, throws_plain (getMinecraftToken env xstsData))
  /\ (forall accessToken,
        throws_plain (getMinecraftProfile env this accessToken))
  /\ (forall authCode, throws_plain (completeLogin env this authCode))
  /\ (forall refreshToken, throws_plain (refreshTokens env this refreshToken)).
Proof.
  split; [intros code isRefresh; apply plain_getMicrosoftToken|].
  split; [intros accessToken; apply plain_getXboxLiveToken|].
  split; [intros xblToken; apply plain_getXSTSToken|].
  split; [intros xstsData; apply plain_getMinecraftToken|].
  split; [intros accessToken; apply plain_getMinecraftProfile|].
  split.
  - intros authCode. unfold completeLogin. apply plain_flow.
    unfold login_steps.
    repeat (first
      [ apply plain_getMicrosoftToken | apply plain_getXboxLiveToken
      | apply plain_getXSTSToken | apply plain_getMinecraftToken
      | apply plain_getMinecraftProfile
      | apply plain_bind; [|intros ?]
      | apply plain_get_prop | apply plain_Date_now | apply plain_ret ]).
  - intros refreshToken. unfold refreshTokens. apply plain_flow.
    unfold refresh_steps.
    repeat (first
      [ apply plain_getMicrosoftToken | apply plain_getXboxLiveToken
      | apply plain_getXSTSToken | apply plain_getMinecraftToken
      | apply plain_bind; [|intros ?]
      | apply plain_get_prop | apply plain_Date_now | apply plain_ret ]).
Qed.

(** What Axios does with a success answer. *)
Lemma axios_success env rq w st d :
  reply_to env w rq = Responded st d ->
  success_status st = true ->
  axios env rq w
  = (Return {| status := st; data := d |}, record_request w rq).
Proof.
  unfold axios, reply_to, success_status. intros -> ->. reflexivity.
Qed.

(** X9. Stages 1, 2 and 4 return exactly when the request is answered
    with a success status, and what they return is the body of the
    answer as it came: nothing is checked, so a body without tokens, an
    empty text or [null] is returned like any other.  A returning stage
    changes the world by its request only (no log line, no error
    object). *)
Theorem token_stages_return_the_body env this w :
  (forall code isRefresh x w',
     getMicrosoftToken env this code isRefresh w = (Return x, w')
     <-> exists st,
           reply_to env w (token_request this code isRefresh) = Responded st x
           /\ success_status st = true
           /\ w' = record_request w (token_request this code isRefresh))
  /\ (forall accessToken x w',
        getXboxLiveToken env accessToken w = (Return x, w')
        <-> exists st,
              reply_to env w (xbl_request accessToken) = Responded st x
              /\ success_status st = true
              /\ w' = record_request w (xbl_request accessToken))
  /\ (forall xstsData x w',
        getMinecraftToken env xstsData w = (Return x, w')
        <-> exists st,
              reply_to env w (mc_request xstsData) = Responded st x
              /\ success_status st = true
              /\ w' = record_request w (mc_request xstsData)).
Proof.
  split; [|split].
  - intros code isRefresh x w'. split.
    + apply getMicrosoftToken_Return.
    + intros (st & Hr & Hs & ->).
      unfold getMicrosoftToken, try_catch, bind, axios_post.
      fold (token_request this code isRefresh).
      now rewrite (axios_success _ _ _ _ _ Hr Hs).
  - intros accessToken x w'. split.
    + apply getXboxLiveToken_Return.
    + intros (st & Hr & Hs & ->).
      unfold getXboxLiveToken, try_catch, bind, axios_post.
      fold (xbl_request accessToken).
      now rewrite (axios_success _ _ _ _ _ Hr Hs).
  - intros xstsData x w'. split.
    + apply getMinecraftToken_Return.
    + intros (st & Hr & Hs & ->).
      unfold getMinecraftToken, try_catch, bind, axios_post.
      fold (mc_request xstsData).
      now rewrite (axios_success _ _ _ _ _ Hr Hs).
Qed.

(** A success answer with the body [null] at stage 1 is returned as it
    is. *)
Example getMicrosoftToken_null_body :
  fst (getMicrosoftToken
         (environment_of (fun _ _ => Responded 200 JNull))
         sample_provider (JStr "M.C507") false initial_world)
  = Return JNull.
Proof. reflexivity. Qed.

Lemma get_first_Some v x w :
  first_entry v = Some x -> get_first v w = (Return x, w).
Proof. intros H. unfold get_first. now rewrite H. Qed.

(** X10. Stage 3 returns exactly when the request is answered with a
    success status and the reads [data.Token], [data.DisplayClaims],
    [.xui], [[0]] and [.uhs] all go through, that is when [data] and
    [DisplayClaims] are objects and [xui[0]] is neither missing nor
    [null].  The pair returned holds whatever [Token] and [uhs] are:
    when the body has no [Token] or the first claim has no [uhs], the
    stage still returns, with [undefined] in that place. *)
Theorem getXSTSToken_returns_iff env this xblToken w r w' :
  getXSTSToken env this xblToken w = (Return r, w')
  <-> exists st d claims xui entry,
        reply_to env w (xsts_request xblToken) = Responded st d
        /\ success_status st = true
        /\ own_prop d "Token" = Some (token r)
        /\ own_prop d "DisplayClaims" = Some claims
        /\ own_prop claims "xui" = Some xui
        /\ first_entry xui = Some entry
        /\ own_prop entry "uhs" = Some (userHash r)
        /\ w' = record_request w (xsts_request xblToken).
Proof.
  split.
  - apply getXSTSToken_Return.
  - intros (st & d & claims & xui & entry & Hr & Hs & Ht & Hc & Hx & Hf & Hu
            & ->).
    unfold getXSTSToken, try_catch, axios_post.
    fold (xsts_request xblToken). unfold bind at 1.
    rewrite (axios_success _ _ _ _ _ Hr Hs). cbn [data].
    forward Ht. forward Hc. forward Hx.
    rewrite (bind_Return _ _ _ _ _ (get_first_Some _ _ _ Hf)). cbv beta.
    forward Hu. destruct r. reflexivity.
Qed.

(** A first claim without [uhs], in a body without [Token]. *)
Example getXSTSToken_without_token_or_hash :
  fst (getXSTSToken
         (environment_of
            (fun _ _ =>
               Responded 200
                 (JObj [("DisplayClaims", JObj [("xui", JArr [JObj []])])])))
         sample_provider (JStr "xbl-ticket") initial_world)
  = Return {| token := JUndefined; userHash := JUndefined |}.
Proof. reflexivity. Qed.

(** X11. Stage 5 returns exactly when the request is answered with a
    success status and the [id] of the body is truthy; it then returns
    the whole body unchanged, and changes the world by its request
    only. *)
Theorem getMinecraftProfile_returns_iff env this accessToken w prof w' :
  getMinecraftProfile env this accessToken w = (Return prof, w')
  <-> exists st,
        reply_to env w (profile_request accessToken) = Responded st prof
        /\ success_status st = true
        /\ truthy (opt_prop prof "id") = true
        /\ w' = record_request w (profile_request accessToken).
Proof.
  split.
  - intros H. destruct (getMinecraftProfile_Return _ _ _ _ _ _ H)
      as (st & Hr & Hs & _ & Hi & Hw).
    now exists st.
  - intros (st & Hr & Hs & Hi & ->).
    unfold getMinecraftProfile, try_catch, axios_get.
    fold (profile_request accessToken). unfold bind at 1.
    rewrite (axios_success _ _ _ _ _ Hr Hs). cbn [data].
    unfold bind. rewrite missing_id_test, Hi. reflexivity.
Qed.

(* ================================================================= *)
(** ** The flows, from the outcome back to the stages *)

Lemma bind_inv_Return {A B} (m : M A) (k : A -> M B) w b w' :
  bind m k w = (Return b, w') ->
  exists a w1, m w = (Return a, w1) /\ k a w1 = (Return b, w').
Proof.
  unfold bind. destruct (m w) as [[a|e] w1]; intros H.
  - now exists a, w1.
  - discriminate.
Qed.

Lemma get_prop_inv_Return {B} v key (k : jsval -> M B) w b w' :
  bind (get_prop v key) k w = (Return b, w') ->
  exists x, own_prop v key = Some x /\ k x w = (Return b, w').
Proof.
  unfold bind, get_prop. destruct (own_prop v key) as [x|]; intros H.
  - now exists x.
  - discriminate.
Qed.

(** A returning [try] block of [completeLogin] went through the five
    stages. *)
Lemma login_steps_inv_Return env this code w0 r w' :
  login_steps env this code w0 = (Return r, w') ->
  exists ms mc w4 mc_access prof w5,
    stages_1_to_4 env this code false w0 ms mc w4
    /\ own_prop mc "access_token" = Some mc_access
    /\ getMinecraftProfile env this mc_access w4 = (Return prof, w5).
Proof.
  unfold login_steps. intros H.
  apply bind_inv_Return in H. destruct H as (ms & w1 & H1 & H).
  apply get_prop_inv_Return in H. destruct H as (a1 & Ha1 & H).
  apply bind_inv_Return in H. destruct H as (xbl & w2 & H2 & H).
  apply get_prop_inv_Return in H. destruct H as (t & Ht & H).
  apply bind_inv_Return in H. destruct H as (xsts & w3 & H3 & H).
  apply bind_inv_Return in H. destruct H as (mc & w4 & H4 & H).
  apply get_prop_inv_Return in H. destruct H as (a4 & Ha4 & H).
  apply bind_inv_Return in H. destruct H as (prof & w5 & H5 & H).
  exists ms, mc, w4, a4, prof, w5. split; [|now split].
  exists t, w2, xsts, w3. split; [|now split].
  now exists w1, a1, xbl.
Qed.

Lemma refresh_steps_inv_Return env this code w0 r w' :
  refresh_steps env this code w0 = (Return r, w') ->
  exists ms mc w4, stages_1_to_4 env this code true w0 ms mc w4.
Proof.
  unfold refresh_steps. intros H.
  apply bind_inv_Return in H. destruct H as (ms & w1 & H1 & H).
  apply get_prop_inv_Return in H. destruct H as (a1 & Ha1 & H).
  apply bind_inv_Return in H. destruct H as (xbl & w2 & H2 & H).
  apply get_prop_inv_Return in H. destruct H as (t & Ht & H).
  apply bind_inv_Return in H. destruct H as (xsts & w3 & H3 & H).
  apply bind_inv_Return in H. destruct H as (mc & w4 & H4 & H).
  exists ms, mc, w4. exists t, w2, xsts, w3. split; [|now split].
  now exists w1, a1, xbl.
Qed.

(** The [try] block of [refreshTokens] after four returning stages. *)
Lemma refresh_steps_Return env this code w0 ms mc w4 mc_access :
  stages_1_to_4 env this code true w0 ms mc w4 ->
  own_prop mc "access_token" = Some mc_access ->
  refresh_steps env this code w0
  = (Return
       {| refreshed_microsoft :=
            {| ms_access_token := opt_prop ms "access_token";
               ms_refresh_token := opt_prop ms "refresh_token";
               ms_expires_at :=
                 expiry env (clock env (clock_reads w0))
                   (opt_prop ms "expires_in") |};
          refreshed_minecraft :=
            {| mc_access_token := mc_access;
               mc_expires_at :=
                 expiry env (clock env (S (clock_reads w0)))
                   (opt_prop mc "expires_in") |} |},
     after_clock_reads 2 w4).
Proof.
  intros H14 Hm.
  pose proof (stages_1_to_4_clock _ _ _ _ _ _ _ _ H14) as Hclock.
  destruct H14
    as (t & w2 & xsts & w3 & (w1 & a & xbl & H1 & Ha & H2 & Ht) & H3 & H4).
  pose proof (fun k => own_prop_opt mc "access_token" mc_access k Hm) as Hmc.
  pose proof (fun k => own_prop_opt ms "access_token" a k Ha) as Hms.
  unfold refresh_steps.
  forward H1. forward Ha. forward H2. forward Ht. forward H3. forward H4.
  forward (Hms "access_token"). forward (Hms "refresh_token").
  unfold bind at 1. cbn [Date_now].
  forward (Hms "expires_in"). forward Hm.
  unfold bind at 1. cbn [Date_now clock_reads].
  forward (Hmc "expires_in"). rewrite <- Hclock.
  reflexivity.
Qed.

(** X12. [completeLogin] returns exactly when the five stage calls
    return (and the body of stage 4 is an object, so that its
    [access_token] can be read for stage 5): the flow has no failure of
    its own once stage 5 has returned, and it never returns after a
    stage has thrown. *)
Theorem completeLogin_returns_iff env this authCode w0 :
  (exists r w', completeLogin env this authCode w0 = (Return r, w'))
  <-> exists ms mc w4 mc_access prof w5,
        stages_1_to_4 env this authCode false w0 ms mc w4
        /\ own_prop mc "access_token" = Some mc_access
        /\ getMinecraftProfile env this mc_access w4 = (Return prof, w5).
Proof.
  split.
  - intros (r & w' & H). unfold completeLogin in H.
    pose proof (flow_outcome (login_steps env this authCode) w0) as F.
    destruct (login_steps env this authCode w0) as [[r1|e1] w1] eqn:E.
    + exact (login_steps_inv_Return _ _ _ _ _ _ E).
    + rewrite H in F. discriminate F.
  - intros (ms & mc & w4 & a & prof & w5 & H14 & Hm & H5).
    do 2 eexists. unfold completeLogin. apply try_Return.
    exact (login_steps_Return _ _ _ _ _ _ _ _ _ _ H14 Hm H5).
Qed.

(** X13. What a successful login hands to the caller besides the
    profile id and name.  The Microsoft access and refresh tokens are the
    [access_token] and [refresh_token] of the stage-1 body, the
    Minecraft access token is the one of the stage-4 body that was sent
    to the profile endpoint, [skins] and [capes] are those of the
    profile body, and the [user] view repeats the profile: [username] is
    [profile.name], [uuid] is [profile.id], [type] is the text
    [microsoft].  A field that the answer lacks is [undefined] in the
    result; its absence is no error.  Nothing is emitted. *)
Theorem completeLogin_passes_values_through env this authCode w0 ms mc w4
    mc_access prof w5 :
  stages_1_to_4 env this authCode false w0 ms mc w4 ->
  own_prop mc "access_token" = Some mc_access ->
  getMinecraftProfile env this mc_access w4 = (Return prof, w5) ->
  exists result w',
    completeLogin env this authCode w0 = (Return result, w')
    /\ ms_access_token (microsoft result) = opt_prop ms "access_token"
    /\ ms_refresh_token (microsoft result) = opt_prop ms "refresh_token"
    /\ mc_access_token (minecraft result) = mc_access
    /\ skins (profile result) = opt_prop prof "skins"
    /\ capes (profile result) = opt_prop prof "capes"
    /\ username (user result) = name (profile result)
    /\ uuid (user result) = id (profile result)
    /\ type (user result) = "microsoft"
    /\ emitted w' = emitted w0.
Proof.
  intros H14 Hm H5.
  pose proof (login_steps_Return _ _ _ _ _ _ _ _ _ _ H14 Hm H5) as Hrun.
  pose proof (login_steps_silent env this authCode w0) as Hs.
  rewrite Hrun in Hs. cbn [snd] in Hs.
  do 2 eexists. split.
  - unfold completeLogin. apply try_Return. exact Hrun.
  - cbn [microsoft minecraft profile user ms_access_token ms_refresh_token
         mc_access_token skins capes username uuid type name id].
    repeat split; auto.
    unfold opt_prop. now rewrite Hm.
Qed.

Lemma completeLogin_passes_values_through_witness :
  exists result w',
    completeLogin online sample_provider (JStr "M.C507") initial_world
    = (Return result, w')
    /\ ms_refresh_token (microsoft result) = JStr "ms-refresh"
    /\ mc_access_token (minecraft result) = JStr "mc-access"
    /\ username (user result) = name (profile result).
Proof.
  destruct (completeLogin_passes_values_through online sample_provider
              (JStr "M.C507") initial_world sample_ms sample_mc
              sample_world_4 (JStr "mc-access") _ _
              (sample_stages_1_to_4 profile_ok) eq_refl eq_refl)
    as (result & w' & Hrun & _ & Hr & Ha & _ & _ & Hu & _).
  exists result, w'. split; [exact Hrun|]. split; [exact Hr|].
  split; [exact Ha | exact Hu].
Defined.

(** X14. A refresh in which the four stage calls return and the stage-4
    body is an object.  [refreshTokens] returns; the tokens of the result
    are those of the new stage-1 and stage-4 bodies (the refresh token
    is the one of the answer, [undefined] if the answer has none, and
    never the one passed in); the two expiry timestamps are the first
    and second clock readings of the call plus [expires_in * 1000]
    computed in doubles: for a numeric [expires_in] the exact integer
    within the safe integers, finite below 2^1023 and then off the exact
    integer by at most 2^-51 of the magnitudes ([timestamp_of]); nothing
    is emitted. *)
Theorem refreshTokens_success env this refreshToken w0 ms mc w4 mc_access :
  stages_1_to_4 env this refreshToken true w0 ms mc w4 ->
  own_prop mc "access_token" = Some mc_access ->
  exists result,
    refreshTokens env this refreshToken w0
    = (Return result, after_clock_reads 2 w4)
    /\ ms_access_token (refreshed_microsoft result)
       = opt_prop ms "access_token"
    /\ ms_refresh_token (refreshed_microsoft result)
       = opt_prop ms "refresh_token"
    /\ mc_access_token (refreshed_minecraft result) = mc_access
    /\ ms_expires_at (refreshed_microsoft result)
       = expiry env (clock env (clock_reads w0)) (opt_prop ms "expires_in")
    /\ mc_expires_at (refreshed_minecraft result)
       = expiry env (clock env (S (clock_reads w0)))
           (opt_prop mc "expires_in")
    /\ (forall n, opt_prop ms "expires_in" = JNum n ->
        timestamp_of (clock env (clock_reads w0)) n
          (ms_expires_at (refreshed_microsoft result)))
    /\ (forall n, opt_prop mc "expires_in" = JNum n ->
        timestamp_of (clock env (S (clock_reads w0))) n
          (mc_expires_at (refreshed_minecraft result)))
    /\ emitted (after_clock_reads 2 w4) = emitted w0.
Proof.
  intros H14 Hm.
  pose proof (refresh_steps_Return _ _ _ _ _ _ _ _ H14 Hm) as Hrun.
  pose proof (refresh_steps_silent env this refreshToken w0) as Hs.
  rewrite Hrun in Hs. cbn [snd] in Hs.
  eexists. split.
  - unfold refreshTokens. apply try_Return. exact Hrun.
  - cbn [refreshed_microsoft refreshed_minecraft ms_access_token
         ms_refresh_token mc_access_token ms_expires_at mc_expires_at].
    do 5 (split; [auto|]).
    split; [intros n ->; apply expiry_timestamp|].
    split; [intros n ->; apply expiry_timestamp|].
    exact Hs.
Qed.

Lemma sample_refresh_stages :
  exists w4,
    stages_1_to_4 online sample_provider (JStr "ms-refresh") true
      initial_world sample_ms sample_mc w4.
Proof.
  eexists. unfold stages_1_to_4, stages_1_to_2.
  do 4 eexists. split; [do 3 eexists; repeat split; reflexivity|].
  split; reflexivity.
Defined.

Lemma refreshTokens_success_witness :
  exists result w',
    refreshTokens online sample_provider (JStr "ms-refresh") initial_world
    = (Return result, w')
    /\ ms_refresh_token (refreshed_microsoft result) = JStr "ms-refresh"
    /\ mc_access_token (refreshed_minecraft result) = JStr "mc-access"
    /\ ms_expires_at (refreshed_microsoft result)
       = Num (1700000000000 + 3600 * 1000)
    /\ mc_expires_at (refreshed_minecraft result)
       = Num (1700000000001 + 86400 * 1000).
Proof.
  destruct sample_refresh_stages as (w4 & H14).
  destruct (refreshTokens_success online sample_provider (JStr "ms-refresh")
              initial_world sample_ms sample_mc w4 (JStr "mc-access")
              H14 eq_refl)
    as (result & Hrun & _ & Hr & Ha & _ & _ & Hms & Hmc & _).
  exists result. eexists. split; [exact Hrun|]. split; [exact Hr|].
  split; [exact Ha|].
  split.
  - apply (proj1 (Hms 3600 eq_refl)); unfold safe_integer; simpl; lia.
  - apply (proj1 (Hmc 86400 eq_refl)); unfold safe_integer; simpl; lia.
Defined.

Lemma stages_1_to_4_requests env this code isRefresh w0 ms mc w4 :
  stages_1_to_4 env this code isRefresh w0 ms mc w4 ->
  exists xbl_token xsts,
    requests w4
    = (requests w0
       ++ [token_request this code isRefresh;
           xbl_request (opt_prop ms "access_token");
           xsts_request xbl_token;
           mc_request xsts])%list.
Proof.
  intros (t & w2 & xsts & w3 & (w1 & a & xbl & H1 & Ha & H2 & Ht) & H3 & H4).
  destruct (getMicrosoftToken_Return _ _ _ _ _ _ _ H1) as (? & _ & _ & ->).
  destruct (getXboxLiveToken_Return _ _ _ _ _ H2) as (? & _ & _ & ->).
  destruct (getXSTSToken_Return _ _ _ _ _ _ H3)
    as (? & ? & ? & ? & ? & _ & _ & _ & _ & _ & _ & _ & ->).
  destruct (getMinecraftToken_Return _ _ _ _ _ H4) as (? & _ & _ & ->).
  exists t, xsts. cbn [record_request requests].
  unfold opt_prop. rewrite Ha. now rewrite <- !app_assoc.
Qed.

(** X15. The requests of a login that returns.  They are exactly five,
    one per stage and in the order of the stages, and each is built from
    what came before: the first from the authorization code with the
    authorization-code grant, the second from the Microsoft access token
    that the caller finds in the result, and the last, the profile
    request, from the Minecraft access token that the caller finds in
    the result. *)
Theorem completeLogin_request_chain env this authCode w0 r w' :
  completeLogin env this authCode w0 = (Return r, w') ->
  exists xbl_token xsts,
    requests w'
    = (requests w0
       ++ [token_request this authCode false;
           xbl_request (ms_access_token (microsoft r));
           xsts_request xbl_token;
           mc_request xsts;
           profile_request (mc_access_token (minecraft r))])%list.
Proof.
  intros H. unfold completeLogin in H.
  pose proof (flow_outcome (login_steps env this authCode) w0) as F.
  destruct (login_steps env this authCode w0) as [[r1|e1] w1] eqn:E;
    rewrite H in F; [|discriminate F].
  injection F as <- <-.
  destruct (login_steps_inv_Return _ _ _ _ _ _ E)
    as (ms & mc & w4 & a & prof & w5 & H14 & Hm & H5).
  rewrite (login_steps_Return _ _ _ _ _ _ _ _ _ _ H14 Hm H5) in E.
  injection E as <- <-.
  destruct (stages_1_to_4_requests _ _ _ _ _ _ _ _ H14) as (t & xsts & Hreq).
  destruct (getMinecraftProfile_Return _ _ _ _ _ _ H5)
    as (st & _ & _ & _ & _ & ->).
  exists t, xsts.
  cbn [after_clock_reads record_request requests microsoft minecraft
       ms_access_token mc_access_token].
  assert (Hopt : opt_prop mc "access_token" = a)
    by (unfold opt_prop; now rewrite Hm).
  rewrite Hreq, <- app_assoc, Hopt. reflexivity.
Qed.

Lemma completeLogin_request_chain_witness :
  exists r w',
    completeLogin online sample_provider (JStr "M.C507") initial_world
    = (Return r, w')
    /\ exists xbl_token xsts,
         requests w'
         = [token_request sample_provider (JStr "M.C507") false;
            xbl_request (ms_access_token (microsoft r));
            xsts_request xbl_token;
            mc_request xsts;
            profile_request (mc_access_token (minecraft r))].
Proof.
  do 2 eexists. split; [vm_compute; reflexivity|].
  apply (completeLogin_request_chain online sample_provider (JStr "M.C507")
           initial_world).
  vm_compute. reflexivity.
Defined.

(* ================================================================= *)
(** ** Bodies without the expected fields *)

Lemma get_prop_None v key w :
  own_prop v key = None ->
  get_prop v key w
  = (Throw {| err_ref := List.length (heap w); err_name := "TypeError";
              err_message := "Cannot read properties of " ++ to_string v
                             ++ " (reading '" ++ key ++ "')";
              err_response := None |},
     alloc w {| err_ref := List.length (heap w); err_name := "TypeError";
                err_message := "Cannot read properties of " ++ to_string v
                               ++ " (reading '" ++ key ++ "')";
                err_response := None |}).
Proof. intros H. unfold get_prop. now rewrite H. Qed.

Lemma getMicrosoftToken_success env this code isRefresh w st ms :
  reply_to env w (token_request this code isRefresh) = Responded st ms ->
  success_status st = true ->
  getMicrosoftToken env this code isRefresh w
  = (Return ms, record_request w (token_request this code isRefresh)).
Proof.
  intros Hr Hs. unfold getMicrosoftToken, try_catch, bind, axios_post.
  fold (token_request this code isRefresh).
  now rewrite (axios_success _ _ _ _ _ Hr Hs).
Qed.

Lemma grow_alloc w e : only_requests (fun _ => True) w (alloc w e).
Proof. now apply only_requests_same. Qed.

Lemma grow_console label v w :
  only_requests (fun _ => True) w (snd (console_error label v w)).
Proof. now apply only_requests_same. Qed.

Lemma grow_clock env w : only_requests (fun _ => True) w (snd (Date_now env w)).
Proof. now apply only_requests_same. Qed.

Lemma grow_request w rq :
  True -> only_requests (fun _ : string => True) w (record_request w rq).
Proof. intros _. now apply only_requests_step. Qed.

(** A request that is in the log after [m] is still there after what
    follows, when what follows only adds requests. *)
Lemma bind_keeps_requests {A B} (m : M A) (k : A -> M B) w rq :
  (forall a, frame (only_requests (fun _ => True)) (k a)) ->
  In rq (requests (snd (m w))) ->
  In rq (requests (snd (bind m k w))).
Proof.
  intros Hk Hin. unfold bind. destruct (m w) as [[a|e] w1]; [|exact Hin].
  destruct (Hk a w1) as (new & Hreq & _). rewrite Hreq.
  apply in_or_app. now left.
Qed.

(** X16. A stage-1 success body that is an object without
    [access_token]: the missing token is not noticed.  [completeLogin]
    goes on to stage 2 and asks the Xbox Live endpoint with the ticket
    text [d=undefined]. *)
Theorem missing_access_token_is_sent_as_undefined env this authCode w0 st ms :
  reply_to env w0 (token_request this authCode false) = Responded st ms ->
  success_status st = true ->
  own_prop ms "access_token" = Some JUndefined ->
  In (xbl_request JUndefined)
     (requests (snd (completeLogin env this authCode w0)))
  /\ body (xbl_request JUndefined)
     = JsonBody
         (JObj [("Properties",
                 JObj [("AuthMethod", JStr "RPS");
                       ("SiteName", JStr "user.auth.xboxlive.com");
                       ("RpsTicket", JStr "d=undefined")]);
                ("RelyingParty", JStr "http://auth.xboxlive.com");
                ("TokenType", JStr "JWT")]).
Proof.
  intros Hr Hs Ha. split; [|reflexivity].
  pose proof (flow_outcome (login_steps env this authCode) w0) as F.
  assert (Hsteps : In (xbl_request JUndefined)
                      (requests (snd (login_steps env this authCode w0)))).
  { unfold login_steps.
    forward (getMicrosoftToken_success _ _ _ _ _ _ _ Hr Hs). forward Ha.
    apply bind_keeps_requests.
    - intros xbl.
      repeat (first
        [ apply (frame_getXSTSToken env _ (fun _ => True)
                   (only_requests_refl _) (only_requests_trans _)
                   grow_alloc grow_console grow_request _ _ I)
        | apply (frame_getMinecraftToken env _ (fun _ => True)
                   (only_requests_refl _) (only_requests_trans _)
                   grow_alloc grow_console grow_request _ I)
        | apply (frame_getMinecraftProfile env _ (fun _ => True)
                   (only_requests_refl _) (only_requests_trans _)
                   grow_alloc grow_console grow_request _ _ I)
        | apply (frame_bind _ (only_requests_trans _)); [|intros ?]
        | apply (frame_get_prop _ (only_requests_refl _) grow_alloc)
        | apply (frame_Date_now env _ (grow_clock env))
        | apply (frame_ret _ (only_requests_refl _)) ]).
    - rewrite getXboxLiveToken_requests. apply in_or_app. right. now left. }
  unfold completeLogin.
  destruct (login_steps env this authCode w0) as [[r|e] w1]; rewrite F;
    exact Hsteps.
Qed.

Lemma missing_access_token_is_sent_as_undefined_witness :
  In (xbl_request JUndefined)
     (requests
        (snd (completeLogin
                (environment_of
                   (server (Responded 200 (JObj [("token_type", JStr "bearer")]))
                      xbl_unauthorized xsts_ok mc_ok profile_ok store_ok))
                sample_provider (JStr "M.C507") initial_world))).
Proof.
  exact (proj1 (missing_access_token_is_sent_as_undefined
                  (environment_of
                     (server (Responded 200
                                (JObj [("token_type", JStr "bearer")]))
                        xbl_unauthorized xsts_ok mc_ok profile_ok store_ok))
                  sample_provider (JStr "M.C507") initial_world 200 _
                  eq_refl eq_refl eq_refl)).
Defined.

(** X17. A stage-1 success answer whose body is [null] (or missing).
    Stage 1 returns it, and the read [msTokenData.access_token] in
    [completeLogin] raises a [TypeError]; the flow emits it and rejects
    with it, after the single request of stage 1.  The message names the
    failed read, not a stage. *)
Theorem null_token_body_rejects_login env this authCode w0 st ms :
  reply_to env w0 (token_request this authCode false) = Responded st ms ->
  success_status st = true ->
  own_prop ms "access_token" = None ->
  exists e w',
    completeLogin env this authCode w0 = (Throw e, w')
    /\ err_name e = "TypeError"
    /\ err_message e
       = "Cannot read properties of " ++ to_string ms
         ++ " (reading 'access_token')"
    /\ requests w' = (requests w0 ++ [token_request this authCode false])%list
    /\ emitted w' = (emitted w0 ++ [("error", e)])%list.
Proof.
  intros Hr Hs Ha.
  pose proof (flow_outcome (login_steps env this authCode) w0) as F.
  assert (Hsteps : exists e w1,
             login_steps env this authCode w0 = (Throw e, w1)
             /\ err_name e = "TypeError"
             /\ err_message e
                = "Cannot read properties of " ++ to_string ms
                  ++ " (reading 'access_token')"
             /\ requests w1
                = (requests w0 ++ [token_request this authCode false])%list
             /\ emitted w1 = emitted w0).
  { unfold login_steps.
    forward (getMicrosoftToken_success _ _ _ _ _ _ _ Hr Hs).
    rewrite (bind_Throw _ _ _ _ _ (get_prop_None _ _ _ Ha)).
    do 2 eexists. split; [reflexivity|]. repeat split. }
  destruct Hsteps as (e & w1 & Hsteps & Hn & Hm & Hreq & Hev).
  rewrite Hsteps in F. exists e, (with_event w1 "error" e).
  split; [exact F|]. cbn [with_event requests emitted].
  rewrite Hev. repeat split; auto.
Qed.

Lemma null_token_body_rejects_login_witness :
  exists e w',
    completeLogin (environment_of (fun _ _ => Responded 200 JNull))
      sample_provider (JStr "M.C507") initial_world = (Throw e, w')
    /\ err_name e = "TypeError"
    /\ err_message e
       = "Cannot read properties of null (reading 'access_token')"
    /\ List.map url (requests w') = [tokenUrl].
Proof.
  destruct (null_token_body_rejects_login
              (environment_of (fun _ _ => Responded 200 JNull))
              sample_provider (JStr "M.C507") initial_world 200 JNull
              eq_refl eq_refl eq_refl)
    as (e & w' & Hrun & Hn & Hm & Hreq & _).
  exists e, w'. split; [exact Hrun|]. split; [exact Hn|].
  split; [exact Hm|]. rewrite Hreq. reflexivity.
Defined.

(** X18. A refresh whose four stage calls all return, but whose stage-4
    body is [null] (or missing).  [refreshTokens] does not return: the
    four requests have gone out and the clock has been read once when
    the read [mcTokenData.access_token] of the result object raises a
    [TypeError], which the flow emits and rejects with. *)
Theorem null_service_body_rejects_refresh env this refreshToken w0 ms mc w4 :
  stages_1_to_4 env this refreshToken true w0 ms mc w4 ->
  own_prop mc "access_token" = None ->
  exists e w',
    refreshTokens env this refreshToken w0 = (Throw e, w')
    /\ err_name e = "TypeError"
    /\ err_message e
       = "Cannot read properties of " ++ to_string mc
         ++ " (reading 'access_token')"
    /\ requests w' = requests w4
    /\ List.map url (requests w')
       = (List.map url (requests w0) ++ refresh_urls)%list
    /\ clock_reads w' = S (clock_reads w0)
    /\ emitted w' = (emitted w0 ++ [("error", e)])%list.
Proof.
  intros H14 Hm.
  pose proof (stages_1_to_4_clock _ _ _ _ _ _ _ _ H14) as Hclock.
  destruct (stages_1_to_4_requests _ _ _ _ _ _ _ _ H14) as (t & xsts & Hreq).
  pose proof (flow_outcome (refresh_steps env this refreshToken) w0) as F.
  pose proof (refresh_steps_silent env this refreshToken w0) as Hs.
  destruct H14
    as (t' & w2 & xsts' & w3 & (w1 & a & xbl & H1 & Ha & H2 & Ht) & H3 & H4).
  pose proof (fun k => own_prop_opt ms "access_token" a k Ha) as Hms.
  assert (Hsteps : exists e w5,
             refresh_steps env this refreshToken w0 = (Throw e, w5)
             /\ err_name e = "TypeError"
             /\ err_message e
                = "Cannot read properties of " ++ to_string mc
                  ++ " (reading 'access_token')"
             /\ requests w5 = requests w4
             /\ clock_reads w5 = S (clock_reads w4)).
  { unfold refresh_steps.
    forward H1. forward Ha. forward H2. forward Ht. forward H3. forward H4.
    forward (Hms "access_token"). forward (Hms "refresh_token").
    unfold bind at 1. cbn [Date_now].
    forward (Hms "expires_in").
    rewrite (bind_Throw _ _ _ _ _ (get_prop_None _ _ _ Hm)).
    do 2 eexists. split; [reflexivity|]. repeat split. }
  destruct Hsteps as (e & w5 & Hsteps & Hn & Hmsg & Hr5 & Hc5).
  rewrite Hsteps in F, Hs. cbn [snd] in Hs.
  exists e, (with_event w5 "error" e).
  split; [exact F|]. cbn [with_event requests emitted clock_reads].
  rewrite Hs, Hr5, Hc5, Hclock, Hreq, map_app.
  repeat split; auto.
Qed.

Lemma null_service_body_rejects_refresh_witness :
  exists e w',
    refreshTokens
      (environment_of (server token_ok xbl_ok xsts_ok (Responded 200 JNull)
                         profile_ok store_ok))
      sample_provider (JStr "ms-refresh") initial_world = (Throw e, w')
    /\ err_message e
       = "Cannot read properties of null (reading 'access_token')"
    /\ List.map url (requests w') = refresh_urls.
Proof.
  assert (H14 : exists w4,
            stages_1_to_4
              (environment_of (server token_ok xbl_ok xsts_ok
                                 (Responded 200 JNull) profile_ok store_ok))
              sample_provider (JStr "ms-refresh") true initial_world
              sample_ms JNull w4).
  { eexists. unfold stages_1_to_4, stages_1_to_2.
    do 4 eexists. split; [do 3 eexists; repeat split; reflexivity|].
    split; reflexivity. }
  destruct H14 as (w4 & H14).
  destruct (null_service_body_rejects_refresh _ sample_provider
              (JStr "ms-refresh") initial_world sample_ms JNull w4 H14
              eq_refl)
    as (e & w' & Hrun & _ & Hm & _ & Hurls & _).
  exists e, w'. split; [exact Hrun|]. split; [exact Hm | exact Hurls].
Defined.

(* ================================================================= *)
(** ** The probes on well-formed answers, and their side effects *)

Lemma array_some_exists l w :
  Forall (fun item => own_prop item "name" <> None) l ->
  array_some is_game_minecraft l w
  = (Return (existsb (fun item =>
                        strict_eq_str (opt_prop item "name") "game_minecraft")
               l), w).
Proof.
  induction 1 as [|item rest Hitem _ IH]; [reflexivity|].
  cbn [array_some existsb]. unfold bind at 1, is_game_minecraft, bind, get_prop.
  unfold opt_prop at 1.
  destruct (own_prop item "name") as [n|]; [|congruence].
  cbn [ret]. destruct (strict_eq_str n "game_minecraft"); [reflexivity|].
  exact IH.
Qed.

(** X19. The ownership check on a well-formed answer.  When the request
    is answered with a success status and the [items] of the body is an
    array without [null] entries, [checkGameOwnership] returns [true] if
    some entry has the text [game_minecraft] as its [name] and [false]
    otherwise, in particular for an empty array; the comparison is
    strict, so a name of another type never matches.  It logs nothing
    and changes the world by its request only. *)
Theorem checkGameOwnership_on_entries env accessToken w st d l :
  reply_to env w (store_request accessToken) = Responded st d ->
  success_status st = true ->
  own_prop d "items" = Some (JArr l) ->
  Forall (fun item => own_prop item "name" <> None) l ->
  checkGameOwnership env accessToken w
  = (Return (JBool (existsb
                      (fun item =>
                         strict_eq_str (opt_prop item "name") "game_minecraft")
                      l)),
     record_request w (store_request accessToken)).
Proof.
  intros Hr Hs Hi Hl.
  assert (Hd : truthy d = true)
    by (destruct d; simpl in Hi; try discriminate Hi; reflexivity).
  unfold checkGameOwnership, try_catch, axios_get.
  fold (store_request accessToken). unfold bind at 1.
  rewrite (axios_success _ _ _ _ _ Hr Hs). cbn [data].
  rewrite Hd. cbn [negb]. forward Hi. cbn [truthy negb].
  unfold bind, call_some. rewrite (array_some_exists l _ Hl). reflexivity.
Qed.

Lemma checkGameOwnership_on_entries_witness :
  checkGameOwnership online (JStr "mc-access") initial_world
  = (Return (JBool true),
     record_request initial_world (store_request (JStr "mc-access")))
  /\ fst (checkGameOwnership
            (environment_of (fun _ _ => Responded 200 (JObj [("items", JArr [])])))
            (JStr "mc-access") initial_world)
     = Return (JBool false).
Proof.
  split.
  - apply (checkGameOwnership_on_entries online (JStr "mc-access")
             initial_world 200 _ _ eq_refl eq_refl eq_refl).
    repeat constructor; discriminate.
  - rewrite (checkGameOwnership_on_entries
               (environment_of
                  (fun _ _ => Responded 200 (JObj [("items", JArr [])])))
               (JStr "mc-access") initial_world 200 _ [] eq_refl eq_refl
               eq_refl (Forall_nil _)).
    reflexivity.
Defined.

(** An [items] that is a text and not an array: calling [some] on it
    raises, and the check answers [false]. *)
Example ownership_with_text_items :
  fst (checkGameOwnership
         (environment_of
            (fun _ _ => Responded 200 (JObj [("items", JStr "none")])))
         (JStr "mc-access") initial_world)
  = Return (JBool false).
Proof. reflexivity. Qed.

(** A [null] entry in front of the matching one: the callback raises on
    it, and the check answers [false] although the product is listed. *)
Example ownership_with_null_entry_first :
  fst (checkGameOwnership
         (environment_of
            (fun _ _ =>
               Responded 200
                 (JObj [("items",
                         JArr [JNull; JObj [("name", JStr "game_minecraft")]])])))
         (JStr "mc-access") initial_world)
  = Return (JBool false).
Proof. reflexivity. Qed.

Lemma array_some_silent l : frame same_events (array_some is_game_minecraft l).
Proof.
  induction l as [|item rest IH]; cbn [array_some].
  - intros w. reflexivity.
  - apply (frame_bind same_events same_events_trans).
    + unfold is_game_minecraft.
      apply (frame_bind same_events same_events_trans).
      * apply (frame_get_prop same_events same_events_refl).
        intros w e. reflexivity.
      * intros n w. reflexivity.
    + intros [|]; [intros w; reflexivity | exact IH].
Qed.

(** X20. The probes stay off the error channel.  Whatever the network
    does, [validateMinecraftToken] and [checkGameOwnership] emit no
    event, not even when the request fails; [validateMinecraftToken]
    also writes nothing to the console, whereas [checkGameOwnership]
    writes one line whenever the request fails. *)
Theorem probes_emit_nothing env accessToken w :
  emitted (snd (validateMinecraftToken env accessToken w)) = emitted w
  /\ console (snd (validateMinecraftToken env accessToken w)) = console w
  /\ emitted (snd (checkGameOwnership env accessToken w)) = emitted w
  /\ (is_failure (reply_to env w (store_request accessToken)) = true ->
      console (snd (checkGameOwnership env accessToken w))
      = (console w
         ++ [("检查游戏所有权失败",
              logged_value (reply_to env w (store_request accessToken)))])%list).
Proof.
  split; [|split; [|split]].
  - unfold validateMinecraftToken, try_catch, bind, axios_get, axios.
    branches.
  - unfold validateMinecraftToken, try_catch, bind, axios_get, axios.
    branches.
  - change (same_events w (snd (checkGameOwnership env accessToken w))).
    unfold checkGameOwnership.
    apply (frame_try_catch same_events same_events_trans).
    + apply (frame_bind same_events same_events_trans).
      * apply (frame_axios env same_events (fun _ => True) same_events_trans);
          [intros; reflexivity | intros; reflexivity | exact I].
      * intros response.
        apply frame_if; [intros w1; reflexivity|].
        apply (frame_bind same_events same_events_trans).
        -- apply (frame_get_prop same_events same_events_refl).
           intros w1 e. reflexivity.
        -- intros items. apply frame_if; [intros w1; reflexivity|].
           apply (frame_bind same_events same_events_trans);
             [|intros found w1; reflexivity].
           unfold call_some. destruct items;
             try (intros w1; reflexivity).
           apply array_some_silent.
    + intros e.
      apply (frame_bind same_events same_events_trans);
        intros ? ; try intros ?; reflexivity.
  - unfold store_request. intros Hfail. unfold checkGameOwnership.
    into_catch Hfail. reflexivity.
Qed.

(** X21. [refreshTokens] returns exactly when the four stage calls
    return and the body of stage 4 is an object (so that its
    [access_token] can be read when the result is built).  Four
    returning stages alone are not enough: see the case of a [null]
    body above. *)
Theorem refreshTokens_returns_iff env this refreshToken w0 :
  (exists r w', refreshTokens env this refreshToken w0 = (Return r, w'))
  <-> exists ms mc w4 mc_access,
        stages_1_to_4 env this refreshToken true w0 ms mc w4
        /\ own_prop mc "access_token" = Some mc_access.
Proof.
  split.
  - intros (r & w' & H). unfold refreshTokens in H.
    pose proof (flow_outcome (refresh_steps env this refreshToken) w0) as F.
    destruct (refresh_steps env this refreshToken w0) as [[r1|e1] w1] eqn:E;
      [|rewrite H in F; discriminate F].
    destruct (refresh_steps_inv_Return _ _ _ _ _ _ E) as (ms & mc & w4 & H14).
    exists ms, mc, w4.
    destruct (own_prop mc "access_token") as [a|] eqn:Hm.
    + now exists a.
    + exfalso.
      pose proof (stages_1_to_4_clock _ _ _ _ _ _ _ _ H14) as Hclock.
      destruct H14
        as (t & w2 & xsts & w3 & (w1' & a & xbl & H1 & Ha & H2 & Ht) & H3 & H4).
      pose proof (fun k => own_prop_opt ms "access_token" a k Ha) as Hms.
      revert E. unfold refresh_steps.
      forward H1. forward Ha. forward H2. forward Ht. forward H3. forward H4.
      forward (Hms "access_token"). forward (Hms "refresh_token").
      unfold bind at 1. cbn [Date_now].
      forward (Hms "expires_in").
      rewrite (bind_Throw _ _ _ _ _ (get_prop_None _ _ _ Hm)).
      discriminate.
  - intros (ms & mc & w4 & a & H14 & Hm).
    do 2 eexists. unfold refreshTokens. apply try_Return.
    exact (refresh_steps_Return _ _ _ _ _ _ _ _ H14 Hm).
Qed.

(* ================================================================= *)
(** ** The footprint of a returning flow *)

Lemma stages_1_to_4_quiet env this code isRefresh w0 ms mc w4 :
  stages_1_to_4 env this code isRefresh w0 ms mc w4 ->
  console w4 = console w0 /\ heap w4 = heap w0
  /\ emitted w4 = emitted w0 /\ listeners w4 = listeners w0.
Proof.
  intros (t & w2 & xsts & w3 & (w1 & a & xbl & H1 & Ha & H2 & Ht) & H3 & H4).
  destruct (getMicrosoftToken_Return _ _ _ _ _ _ _ H1) as (? & _ & _ & ->).
  destruct (getXboxLiveToken_Return _ _ _ _ _ H2) as (? & _ & _ & ->).
  destruct (getXSTSToken_Return _ _ _ _ _ _ H3)
    as (? & ? & ? & ? & ? & _ & _ & _ & _ & _ & _ & _ & ->).
  destruct (getMinecraftToken_Return _ _ _ _ _ H4) as (? & _ & _ & ->).
  repeat split.
Qed.

(** X22. A flow that returns leaves no trace but its requests and its
    two clock readings: [completeLogin] and [refreshTokens], when they
    return, have written nothing to the console, built no error object,
    emitted no event and left the listeners as they were, and have read
    the clock exactly twice. *)
Theorem returning_flows_are_quiet env this input w0 :
  (forall r w',
     completeLogin env this input w0 = (Return r, w') ->
     console w' = console w0 /\ heap w' = heap w0
     /\ emitted w' = emitted w0 /\ listeners w' = listeners w0
     /\ clock_reads w' = S (S (clock_reads w0)))
  /\ (forall r w',
        refreshTokens env this input w0 = (Return r, w') ->
        console w' = console w0 /\ heap w' = heap w0
        /\ emitted w' = emitted w0 /\ listeners w' = listeners w0
        /\ clock_reads w' = S (S (clock_reads w0))).
Proof.
  split; intros r w' H.
  - unfold completeLogin in H.
    pose proof (flow_outcome (login_steps env this input) w0) as F.
    destruct (login_steps env this input w0) as [[r1|e1] w1] eqn:E;
      rewrite H in F; [|discriminate F].
    injection F as <- <-.
    destruct (login_steps_inv_Return _ _ _ _ _ _ E)
      as (ms & mc & w4 & a & prof & w5 & H14 & Hm & H5).
    rewrite (login_steps_Return _ _ _ _ _ _ _ _ _ _ H14 Hm H5) in E.
    injection E as _ <-.
    destruct (stages_1_to_4_quiet _ _ _ _ _ _ _ _ H14) as (Hc & Hh & He & Hl).
    pose proof (stages_1_to_4_clock _ _ _ _ _ _ _ _ H14) as Hk.
    destruct (getMinecraftProfile_Return _ _ _ _ _ _ H5)
      as (st & _ & _ & _ & _ & ->).
    cbn [after_clock_reads record_request console heap emitted listeners
         clock_reads Nat.add].
    now rewrite Hc, Hh, He, Hl, Hk.
  - unfold refreshTokens in H.
    pose proof (flow_outcome (refresh_steps env this input) w0) as F.
    destruct (refresh_steps env this input w0) as [[r1|e1] w1] eqn:E;
      rewrite H in F; [|discriminate F].
    injection F as <- <-.
    destruct (refresh_steps_inv_Return _ _ _ _ _ _ E) as (ms & mc & w4 & H14).
    destruct (stages_1_to_4_quiet _ _ _ _ _ _ _ _ H14) as (Hc & Hh & He & Hl).
    pose proof (stages_1_to_4_clock _ _ _ _ _ _ _ _ H14) as Hk.
    destruct (own_prop mc "access_token") as [a|] eqn:Hm.
    + rewrite (refresh_steps_Return _ _ _ _ _ _ _ _ H14 Hm) in E.
      injection E as _ <-.
      cbn [after_clock_reads console heap emitted listeners clock_reads
           Nat.add].
      now rewrite Hc, Hh, He, Hl, Hk.
    + exfalso.
      destruct H14
        as (t & w2 & xsts & w3 & (w1' & a & xbl & H1 & Ha & H2 & Ht) & H3 & H4).
      pose proof (fun k => own_prop_opt ms "access_token" a k Ha) as Hms.
      revert E. unfold refresh_steps.
      forward H1. forward Ha. forward H2. forward Ht. forward H3. forward H4.
      forward (Hms "access_token"). forward (Hms "refresh_token").
      unfold bind at 1. cbn [Date_now].
      forward (Hms "expires_in").
      rewrite (bind_Throw _ _ _ _ _ (get_prop_None _ _ _ Hm)).
      discriminate.
Qed.
